(** * Live market ingestion (tradedangerous/plugins/eddn_plug.py)

    A shallow embedding of the EDDN import plugin: the symbol
    normalisation of [_norm_symbol], the per-message handler
    [_handle_commodity] with the catalog store it reads and writes, and the
    dispatch loop [_consume_loop].

    Python [str] values are modelled as [string]; each [ascii] stands for
    the code point of the same number (U+0000 .. U+00FF).  Python [int]s
    are [Z].  Dictionaries are [gmap]s. *)

From Stdlib Require Import ZArith Ascii String List Bool Lia.
From stdpp Require Import base option list strings gmap fin_maps.

Local Open Scope string_scope.
Local Open Scope list_scope.
Local Open Scope Z_scope.

(** ** Python string primitives *)

Module PyStr.

Definition code (c : ascii) : N := N_of_ascii c.

(** [str.isspace] on one code point below 256; the regular expression
    class [\s] of a [str] pattern uses the same predicate. *)
Definition isspace (c : ascii) : bool :=
  let n := code c in
  ((9 <=? n) && (n <=? 13) || (28 <=? n) && (n <=? 32)
   || (n =? 133) || (n =? 160))%N.

(** [str.lower] on one code point below 256: A-Z, and the Latin-1
    capitals U+00C0 .. U+00DE except the multiplication sign U+00D7. *)
Definition lower_char (c : ascii) : ascii :=
  let n := code c in
  if ((65 <=? n) && (n <=? 90)
      || (192 <=? n) && (n <=? 222) && negb (n =? 215))%N
  then ascii_of_N (n + 32) else c.

(** SQLite's NOCASE collation folds the 26 ASCII capitals only. *)
Definition nocase_char (c : ascii) : ascii :=
  let n := code c in
  if ((65 <=? n) && (n <=? 90))%N then ascii_of_N (n + 32) else c.

Fixpoint lstrip (s : list ascii) : list ascii :=
  match s with
  | [] => []
  | c :: r => if isspace c then lstrip r else s
  end.

Fixpoint rstrip (s : list ascii) : list ascii :=
  match s with
  | [] => []
  | c :: r =>
      match rstrip r with
      | [] => if isspace c then [] else [c]
      | r' => c :: r'
      end
  end.

Definition strip_l (s : list ascii) : list ascii := rstrip (lstrip s).

Definition lower_l (s : list ascii) : list ascii := map lower_char s.

(** [s.replace('&', 'and')] *)
Fixpoint replace_amp (s : list ascii) : list ascii :=
  match s with
  | [] => []
  | c :: r =>
      if Ascii.eqb c "&" then "a" :: "n" :: "d" :: replace_amp r
      else c :: replace_amp r
  end%char.

(** [re.sub(cls+, "_", s)]: every maximal run of characters of the class
    becomes one underscore.  [inrun] tells that the previous character
    belonged to the run being replaced. *)
Fixpoint sub_runs (cls : ascii -> bool) (inrun : bool) (s : list ascii)
  : list ascii :=
  match s with
  | [] => []
  | c :: r =>
      if cls c then
        if inrun then sub_runs cls true r
        else "_"%char :: sub_runs cls true r
      else c :: sub_runs cls false r
  end.

(** [re.sub(cls, "", s)]: every character of the class is removed. *)
Fixpoint del_chars (cls : ascii -> bool) (s : list ascii) : list ascii :=
  match s with
  | [] => []
  | c :: r => if cls c then del_chars cls r else c :: del_chars cls r
  end.

(** The class [[\s\-]]. *)
Definition space_or_hyphen (c : ascii) : bool :=
  isspace c || Ascii.eqb c "-".

(** The class [[\.\'\(\)\[\],]]. *)
Definition punct (c : ascii) : bool :=
  (Ascii.eqb c "." || Ascii.eqb c "'" || Ascii.eqb c "(" || Ascii.eqb c ")"
   || Ascii.eqb c "[" || Ascii.eqb c "]" || Ascii.eqb c ",")%char.

(** The class [_]. *)
Definition underscore (c : ascii) : bool := Ascii.eqb c "_".

Definition strip (s : string) : string :=
  string_of_list_ascii (strip_l (list_ascii_of_string s)).

Definition lower (s : string) : string :=
  string_of_list_ascii (lower_l (list_ascii_of_string s)).

Definition nocase (s : string) : string :=
  string_of_list_ascii (map nocase_char (list_ascii_of_string s)).

(** [s.endswith(suffix)] *)
Fixpoint startswith_l (p s : list ascii) : bool :=
  match p, s with
  | [], _ => true
  | a :: p', b :: s' => Ascii.eqb a b && startswith_l p' s'
  | _ :: _, [] => false
  end.

Definition endswith (s suffix : string) : bool :=
  startswith_l (rev (list_ascii_of_string suffix))
               (rev (list_ascii_of_string s)).

(** [s.replace("Z", "+00:00")] *)
Fixpoint replace_zulu (s : string) : string :=
  match s with
  | EmptyString => EmptyString
  | String c r =>
      if Ascii.eqb c "Z" then String.append "+00:00" (replace_zulu r)
      else String c (replace_zulu r)
  end.

(** [s.split("+")[0]] *)
Fixpoint before_plus (s : string) : string :=
  match s with
  | EmptyString => EmptyString
  | String c r =>
      if Ascii.eqb c "+" then EmptyString else String c (before_plus r)
  end.

(** Truth value of a string: the empty string is falsy. *)
Definition truthy (s : string) : bool :=
  match s with EmptyString => false | String _ _ => true end.

End PyStr.

(** ** [_norm_symbol] *)

Definition norm_chars (s : list ascii) : list ascii :=
  let s := PyStr.lower_l (PyStr.strip_l s) in
  let s := PyStr.replace_amp s in
  let s := PyStr.sub_runs PyStr.space_or_hyphen false s in
  let s := PyStr.del_chars PyStr.punct s in
  let s := PyStr.sub_runs PyStr.underscore false s in
  s.

Definition _norm_symbol (name : string) : string :=
  string_of_list_ascii (norm_chars (list_ascii_of_string name)).

(** ** Feed messages (EDDN commodity/3) *)

(** A bracket as the feed sends it: the key may be missing, or hold the
    empty string, or hold an integer level. *)
Inductive bracket :=
| BracketMissing
| BracketBlank
| BracketLevel (n : Z).

Record commodity := {
  name : option string;
  sellPrice : option Z;
  demand : option Z;
  demandBracket : bracket;
  buyPrice : option Z;
  stock : option Z;
  stockBracket : bracket;
}.

Record feed_message := {
  systemName : option string;
  stationName : option string;
  stationType : option string;
  carrierDockingAccess : option string;
  marketId : option Z;
  timestamp : option string;
  commodities : list commodity;
}.

(** The decoded JSON document. *)
Record data := {
  schemaRef : option string;
  message : option feed_message;
}.

(** [{}]: every key missing. *)
Definition empty_message : feed_message :=
  {| systemName := None; stationName := None; stationType := None;
     carrierDockingAccess := None; marketId := None; timestamp := None;
     commodities := [] |}.

(** [x or ''] and the truth value of an optional string. *)
Definition or_empty (o : option string) : string := default "" o.

Definition present (o : option string) : bool :=
  match o with Some s => PyStr.truthy s | None => false end.

(** [int(x or 0)] *)
Definition int_or_zero (o : option Z) : Z := default 0 o.

(** [int((x or -1) or -1)]: a missing key, the empty string and the
    integer 0 are all falsy. *)
Definition bracket_level (b : bracket) : Z :=
  match b with
  | BracketMissing | BracketBlank => -1
  | BracketLevel n => if n =? 0 then -1 else n
  end.

(** ** The catalog store *)

Module System.
Record row := { system_id : Z; name : string }.
End System.

Module Station.
Record row := {
  station_id : Z;
  system_id : Z;
  name : string;
  carrier_docking_access : option string;
}.
End Station.

Module Item.
Record row := { item_id : Z; name : string }.
End Item.

Module StationItem.
Record row := {
  station_id : Z;
  item_id : Z;
  modified : Z;
  from_live : Z;
  demand_price : Z;
  demand_units : Z;
  demand_level : Z;
  supply_price : Z;
  supply_units : Z;
  supply_level : Z;
}.
End StationItem.

(** The tables.  StationItem is keyed by (station_id, item_id), the key
    that INSERT OR REPLACE replaces on. *)
Record tables := {
  systems : list System.row;
  stations : list Station.row;
  items : list Item.row;
  station_items : gmap (Z * Z) StationItem.row;
}.

Inductive statement :=
| SELECT_system (name : string)
| SELECT_station (system_id : Z) (name : string)
| UPDATE_docking (value : string) (station_id : Z)
| BEGIN
| DELETE_station_items (station_id : Z)
| INSERT_station_item (r : StationItem.row)
| COMMIT
| ROLLBACK.

(** A connection: the current contents, the contents saved by BEGIN while a
    transaction is open, and every statement sent so far.  The connection
    is the one [TradeDB.getDB] hands out; it is taken to be in autocommit
    mode, so that a statement outside BEGIN .. COMMIT takes effect at once
    and the plugin's own BEGIN is the only way into a transaction. *)
Record database := {
  contents : tables;
  open_txn : option tables;
  journal : list statement;
}.

(** What the plugin cannot control: the parser of ISO 8601 time stamps
    ([datetime.fromisoformat] followed by the conversion to whole epoch
    seconds, a time stamp without zone read as UTC) and which statements
    the store refuses with [sqlite3.Error], by position in the journal. *)
Record env := {
  fromisoformat : string -> option Z;
  db_fails : nat -> bool;
}.

Definition set_docking (value : string) (sid : Z) (r : Station.row)
  : Station.row :=
  if Station.station_id r =? sid then
    {| Station.station_id := Station.station_id r;
       Station.system_id := Station.system_id r;
       Station.name := Station.name r;
       Station.carrier_docking_access := Some value |}
  else r.

Definition other_station (sid : Z) (kv : (Z * Z) * StationItem.row) : Prop :=
  kv.1.1 <> sid.

#[global] Instance other_station_dec sid kv : Decision (other_station sid kv).
Proof. unfold other_station. apply _. Defined.

Definition apply_statement (q : statement) (t : tables) : tables :=
  match q with
  | UPDATE_docking value sid =>
      {| systems := systems t;
         stations := map (set_docking value sid) (stations t);
         items := items t;
         station_items := station_items t |}
  | DELETE_station_items sid =>
      {| systems := systems t;
         stations := stations t;
         items := items t;
         station_items := filter (other_station sid) (station_items t) |}
  | INSERT_station_item r =>
      {| systems := systems t;
         stations := stations t;
         items := items t;
         station_items :=
           <[(StationItem.station_id r, StationItem.item_id r) := r]>
             (station_items t) |}
  | _ => t
  end.

(** [cur.execute(q)]: the new connection state and whether the statement
    succeeded ([false]: it raised [sqlite3.Error]).  A statement that
    fails changes nothing.  BEGIN inside a transaction and COMMIT or
    ROLLBACK outside one are errors; ROLLBACK of an open transaction always
    restores the contents saved by BEGIN. *)
Definition execute (e : env) (q : statement) (db : database)
  : database * bool :=
  let sent := journal db ++ [q] in
  let refused :=
    ({| contents := contents db; open_txn := open_txn db; journal := sent |},
     false) in
  match q with
  | ROLLBACK =>
      match open_txn db with
      | Some saved =>
          ({| contents := saved; open_txn := None; journal := sent |}, true)
      | None => refused
      end
  | _ =>
      if db_fails e (length (journal db)) then refused
      else
        match q with
        | BEGIN =>
            match open_txn db with
            | Some _ => refused
            | None =>
                ({| contents := contents db;
                    open_txn := Some (contents db);
                    journal := sent |}, true)
            end
        | COMMIT =>
            match open_txn db with
            | Some _ =>
                ({| contents := contents db; open_txn := None;
                    journal := sent |}, true)
            | None => refused
            end
        | _ =>
            ({| contents := apply_statement q (contents db);
                open_txn := open_txn db;
                journal := sent |}, true)
        end
  end.

(** [fetchone()] after the two SELECTs: the first matching row, names
    compared under COLLATE NOCASE. *)
Definition same_nocase (a b : string) : bool :=
  String.eqb (PyStr.nocase a) (PyStr.nocase b).

Definition fetch_system (t : tables) (system_name : string) : option Z :=
  System.system_id <$>
    find (fun r => same_nocase (System.name r) system_name) (systems t).

Definition fetch_station (t : tables) (system_id : Z) (station_name : string)
  : option Z :=
  Station.station_id <$>
    find (fun r => (Station.system_id r =? system_id)
                   && same_nocase (Station.name r) station_name)
         (stations t).

(** ** Plugin state *)

Record stats := {
  messages : Z;
  commodity_messages : Z;
  journal_messages : Z;
  stations_matched : Z;
  stations_skipped : Z;
  items_written : Z;
  items_skipped : Z;
  carriers_filtered : Z;
}.

(** What [tdenv] was asked to print. *)
Inductive log_line :=
| DEBUG1_zlib_error
| DEBUG1_json_error
| DEBUG1_unknown_system (system_name station_name : string)
| DEBUG1_unknown_station (station_name system_name : string)
| DEBUG1_unknown_commodity (sym station_name system_name : string)
| WARN_db_error (station_name system_name : string).

Record plugin := {
  carrier_only : bool;
  public_only : bool;
  _last_station_mod : gmap Z Z;
  _item_symbol_map : gmap string Z;
  _stats : stats;
  tdb : database;
  tdenv : list log_line;
}.

Definition set_stats (s : stats) (p : plugin) : plugin :=
  {| carrier_only := carrier_only p; public_only := public_only p;
     _last_station_mod := _last_station_mod p;
     _item_symbol_map := _item_symbol_map p;
     _stats := s; tdb := tdb p; tdenv := tdenv p |}.

Definition set_tdb (db : database) (p : plugin) : plugin :=
  {| carrier_only := carrier_only p; public_only := public_only p;
     _last_station_mod := _last_station_mod p;
     _item_symbol_map := _item_symbol_map p;
     _stats := _stats p; tdb := db; tdenv := tdenv p |}.

Definition set_last_station_mod (m : gmap Z Z) (p : plugin) : plugin :=
  {| carrier_only := carrier_only p; public_only := public_only p;
     _last_station_mod := m;
     _item_symbol_map := _item_symbol_map p;
     _stats := _stats p; tdb := tdb p; tdenv := tdenv p |}.

Definition say (l : log_line) (p : plugin) : plugin :=
  {| carrier_only := carrier_only p; public_only := public_only p;
     _last_station_mod := _last_station_mod p;
     _item_symbol_map := _item_symbol_map p;
     _stats := _stats p; tdb := tdb p; tdenv := tdenv p ++ [l] |}.

(** [self._stats[key] += n], one function per key. *)
Definition add_messages (n : Z) (s : stats) : stats :=
  {| messages := messages s + n;
     commodity_messages := commodity_messages s;
     journal_messages := journal_messages s;
     stations_matched := stations_matched s;
     stations_skipped := stations_skipped s;
     items_written := items_written s;
     items_skipped := items_skipped s;
     carriers_filtered := carriers_filtered s |}.

Definition add_commodity_messages (n : Z) (s : stats) : stats :=
  {| messages := messages s;
     commodity_messages := commodity_messages s + n;
     journal_messages := journal_messages s;
     stations_matched := stations_matched s;
     stations_skipped := stations_skipped s;
     items_written := items_written s;
     items_skipped := items_skipped s;
     carriers_filtered := carriers_filtered s |}.

Definition add_journal_messages (n : Z) (s : stats) : stats :=
  {| messages := messages s;
     commodity_messages := commodity_messages s;
     journal_messages := journal_messages s + n;
     stations_matched := stations_matched s;
     stations_skipped := stations_skipped s;
     items_written := items_written s;
     items_skipped := items_skipped s;
     carriers_filtered := carriers_filtered s |}.

Definition add_stations_matched (n : Z) (s : stats) : stats :=
  {| messages := messages s;
     commodity_messages := commodity_messages s;
     journal_messages := journal_messages s;
     stations_matched := stations_matched s + n;
     stations_skipped := stations_skipped s;
     items_written := items_written s;
     items_skipped := items_skipped s;
     carriers_filtered := carriers_filtered s |}.

Definition add_stations_skipped (n : Z) (s : stats) : stats :=
  {| messages := messages s;
     commodity_messages := commodity_messages s;
     journal_messages := journal_messages s;
     stations_matched := stations_matched s;
     stations_skipped := stations_skipped s + n;
     items_written := items_written s;
     items_skipped := items_skipped s;
     carriers_filtered := carriers_filtered s |}.

Definition add_items_written (n : Z) (s : stats) : stats :=
  {| messages := messages s;
     commodity_messages := commodity_messages s;
     journal_messages := journal_messages s;
     stations_matched := stations_matched s;
     stations_skipped := stations_skipped s;
     items_written := items_written s + n;
     items_skipped := items_skipped s;
     carriers_filtered := carriers_filtered s |}.

Definition add_items_skipped (n : Z) (s : stats) : stats :=
  {| messages := messages s;
     commodity_messages := commodity_messages s;
     journal_messages := journal_messages s;
     stations_matched := stations_matched s;
     stations_skipped := stations_skipped s;
     items_written := items_written s;
     items_skipped := items_skipped s + n;
     carriers_filtered := carriers_filtered s |}.

Definition add_carriers_filtered (n : Z) (s : stats) : stats :=
  {| messages := messages s;
     commodity_messages := commodity_messages s;
     journal_messages := journal_messages s;
     stations_matched := stations_matched s;
     stations_skipped := stations_skipped s;
     items_written := items_written s;
     items_skipped := items_skipped s;
     carriers_filtered := carriers_filtered s + n |}.

Definition count (f : Z -> stats -> stats) (n : Z) (p : plugin) : plugin :=
  set_stats (f n (_stats p)) p.

(** ** [_to_unix] *)

(** [None]: both attempts raised. *)
Definition _to_unix (e : env) (ts : string) : option Z :=
  let ts := PyStr.replace_zulu ts in
  match fromisoformat e ts with
  | Some t => Some t
  | None => fromisoformat e (PyStr.before_plus ts)
  end.

(** ** [_prepare_item_symbol_map] *)

(** [sym_map.setdefault(sym, item_id)]: the first binding of a key stays. *)
Definition setdefault (sym_map : gmap string Z) (sym : string) (item_id : Z)
  : gmap string Z :=
  match sym_map !! sym with
  | Some _ => sym_map
  | None => <[sym := item_id]> sym_map
  end.

(** The loop over the rows of [SELECT item_id, name FROM Item]. *)
Definition _prepare_item_symbol_map (rows : list Item.row) : gmap string Z :=
  fold_left
    (fun sym_map r =>
       setdefault sym_map (_norm_symbol (Item.name r)) (Item.item_id r))
    rows ∅.

(** ** [_handle_commodity] *)

(** Lines 257-264: what the loop finds out about one commodity before it
    touches the store. *)
Inductive symbol_lookup :=
| NoSymbol
| UnknownSymbol (sym : string)
| KnownItem (item_id : Z).

Definition lookup_symbol (sym_map : gmap string Z) (c : commodity)
  : symbol_lookup :=
  match name c with
  | None => NoSymbol
  | Some sym =>
      if negb (PyStr.truthy sym) then NoSymbol
      else
        match sym_map !! _norm_symbol sym with
        | None => UnknownSymbol sym
        | Some item_id =>
            if item_id =? 0 then UnknownSymbol sym else KnownItem item_id
        end
  end.

(** Lines 265-278: the tuple bound to the INSERT statement; [modified]
    holds the epoch seconds that the statement renders with
    [datetime(?, 'unixepoch')]. *)
Definition new_row (station_id item_id ts_unix : Z) (c : commodity)
  : StationItem.row :=
  {| StationItem.station_id := station_id;
     StationItem.item_id := item_id;
     StationItem.modified := ts_unix;
     StationItem.from_live := 1;
     StationItem.demand_price := int_or_zero (sellPrice c);
     StationItem.demand_units := int_or_zero (demand c);
     StationItem.demand_level := bracket_level (demandBracket c);
     StationItem.supply_price := int_or_zero (buyPrice c);
     StationItem.supply_units := int_or_zero (stock c);
     StationItem.supply_level := bracket_level (stockBracket c) |}.

(** [sqlite3] binds a Python [int] to an SQLite INTEGER, which has 64 bits
    with sign; for an [int] outside them [cur.execute] raises
    [OverflowError] before the statement is run. *)
Definition int64 (n : Z) : bool := (- 2 ^ 63 <=? n) && (n <? 2 ^ 63).

(** The nine parameters of the INSERT of lines 272-279 can all be bound. *)
Definition row_fits (r : StationItem.row) : bool :=
  int64 (StationItem.station_id r) && int64 (StationItem.item_id r)
  && int64 (StationItem.modified r)
  && int64 (StationItem.demand_price r) && int64 (StationItem.demand_units r)
  && int64 (StationItem.demand_level r)
  && int64 (StationItem.supply_price r) && int64 (StationItem.supply_units r)
  && int64 (StationItem.supply_level r).

(** Where in the transaction [sqlite3.Error] was raised; for an INSERT, the
    commodities from the offending one on, which the loop never finished. *)
Inductive raise_point :=
| InBegin
| InDelete
| InInsert (unvisited : list commodity)
| InCommit.

(** Which exit of [_handle_commodity] was taken.  The last two are
    exceptions that leave the handler: [Raised], the [sqlite3.Error] of a
    SELECT, which is sent outside any [try]; [Overflowed], the
    [OverflowError] of an INSERT. *)
Inductive verdict :=
| NotCarrier
| NotPublic
| Incomplete
| UnknownSystem
| UnknownStation
| Stale (station_id : Z)
| Committed (station_id written : Z)
| RolledBack (station_id : Z) (at_ : raise_point)
| Raised
| Overflowed (station_id : Z) (unvisited : list commodity).

(** How the loop over the commodities was left: at its end, or by an
    exception of an INSERT, with the commodities from the offending one
    on.  [sqlite3.Error] is what the store raises when it refuses the
    statement; [OverflowError] is raised while the parameters are bound,
    and is no [sqlite3.Error]. *)
Inductive loop_end :=
| Finished (written : Z)
| Sqlite3Error (unvisited : list commodity)
| OverflowError (unvisited : list commodity).

(** Lines 256-280: the loop over the commodities. *)
Fixpoint insert_rows (e : env) (station_id ts_unix : Z)
    (station_name system_name : string)
    (cs : list commodity) (written : Z) (p : plugin)
  : plugin * loop_end :=
  match cs with
  | [] => (p, Finished written)
  | c :: rest =>
      match lookup_symbol (_item_symbol_map p) c with
      | NoSymbol =>
          insert_rows e station_id ts_unix station_name system_name
            rest written p
      | UnknownSymbol sym =>
          insert_rows e station_id ts_unix station_name system_name
            rest written
            (say (DEBUG1_unknown_commodity sym station_name system_name)
               (count add_items_skipped 1 p))
      | KnownItem item_id =>
          let r := new_row station_id item_id ts_unix c in
          if negb (row_fits r) then (p, OverflowError (c :: rest))
          else
            let '(db, ok) := execute e (INSERT_station_item r) (tdb p) in
            if ok then
              insert_rows e station_id ts_unix station_name system_name
                rest (written + 1) (set_tdb db p)
            else (set_tdb db p, Sqlite3Error (c :: rest))
      end
  end.

(** Lines 286-291: the handler of [sqlite3.Error]. *)
Definition on_db_error (e : env) (station_name system_name : string)
    (p : plugin) : plugin :=
  say (WARN_db_error station_name system_name)
    (set_tdb (execute e ROLLBACK (tdb p)).1 p).

(** Lines 241-244: [true] when the message goes on to the transaction. *)
Definition dedup_accepts (last_station_mod : gmap Z Z)
    (station_id ts_unix : Z) : bool :=
  let last_mod := default 0 (last_station_mod !! station_id) in
  negb (negb (last_mod =? 0) && (ts_unix <=? last_mod)).

(** Lines 282-285. *)
Definition record_written (station_id ts_unix written : Z) (p : plugin)
  : plugin :=
  if written =? 0 then p
  else
    set_last_station_mod (<[station_id := ts_unix]> (_last_station_mod p))
      (count add_items_written written (count add_stations_matched 1 p)).

(** Lines 246-291: the transaction.  [except sqlite3.Error] does not catch
    the [OverflowError] of an INSERT: it leaves the handler with the
    transaction open, nothing rolled back and nothing logged. *)
Definition replace_snapshot (e : env) (station_id ts_unix : Z)
    (station_name system_name : string) (cs : list commodity) (p : plugin)
  : plugin * verdict :=
  let failed at_ p' :=
    (on_db_error e station_name system_name p', RolledBack station_id at_) in
  let '(db1, ok1) := execute e BEGIN (tdb p) in
  if negb ok1 then failed InBegin (set_tdb db1 p)
  else
    let '(db2, ok2) := execute e (DELETE_station_items station_id) db1 in
    if negb ok2 then failed InDelete (set_tdb db2 p)
    else
      match insert_rows e station_id ts_unix station_name system_name
              cs 0 (set_tdb db2 p) with
      | (p3, Sqlite3Error unvisited) => failed (InInsert unvisited) p3
      | (p3, OverflowError unvisited) => (p3, Overflowed station_id unvisited)
      | (p3, Finished written) =>
          let '(db4, ok4) := execute e COMMIT (tdb p3) in
          if negb ok4 then failed InCommit (set_tdb db4 p3)
          else
            (record_written station_id ts_unix written (set_tdb db4 p3),
             Committed station_id written)
      end.

(** Lines 236-240: the time stamp of the message in epoch seconds; [now] is
    [int(time.time())], used when the time stamp cannot be parsed. *)
Definition message_time (e : env) (now : Z) (ts : option string) : Z :=
  default now (_to_unix e (or_empty ts)).

(** The message dictionary the handler works on, [data.get('message') or {}]. *)
Definition msg_of (d : data) : feed_message :=
  default empty_message (message d).

(** Lines 195-203: the filters, in the order of the source.  [None]: the
    message goes on. *)
Definition commodity_filter (msg : feed_message) (p : plugin)
  : plugin * option verdict :=
  let system_name := PyStr.strip (or_empty (systemName msg)) in
  let station_name := PyStr.strip (or_empty (stationName msg)) in
  let station_type := PyStr.strip (or_empty (stationType msg)) in
  let docking := carrierDockingAccess msg in
  if carrier_only p && negb (String.eqb station_type "FleetCarrier") then
    (count add_carriers_filtered 1 p, Some NotCarrier)
  else if public_only p && present docking
          && negb (String.eqb (PyStr.lower (or_empty docking)) "all") then
    (count add_carriers_filtered 1 p, Some NotPublic)
  else if negb (PyStr.truthy system_name && PyStr.truthy station_name
                && present (timestamp msg)
                && negb (bool_decide (commodities msg = []))) then
    (p, Some Incomplete)
  else (p, None).

(** Lines 205-224: the two SELECTs.  A SELECT that raises is not caught. *)
Definition resolve_station (e : env) (system_name station_name : string)
    (p : plugin) : plugin * (verdict + Z) :=
  let '(db1, ok1) := execute e (SELECT_system system_name) (tdb p) in
  let p1 := set_tdb db1 p in
  if negb ok1 then (p1, inl Raised)
  else
    match fetch_system (contents db1) system_name with
    | None =>
        (say (DEBUG1_unknown_system system_name station_name)
           (count add_stations_skipped 1 p1), inl UnknownSystem)
    | Some system_id =>
        let '(db2, ok2) :=
          execute e (SELECT_station system_id station_name) db1 in
        let p2 := set_tdb db2 p1 in
        if negb ok2 then (p2, inl Raised)
        else
          match fetch_station (contents db2) system_id station_name with
          | None =>
              (say (DEBUG1_unknown_station station_name system_name)
                 (count add_stations_skipped 1 p2), inl UnknownStation)
          | Some station_id => (p2, inr station_id)
          end
    end.

(** Lines 226-234: the UPDATE of the docking policy; its error is
    swallowed. *)
Definition update_docking (e : env) (docking : option string)
    (station_id : Z) (p : plugin) : plugin :=
  if present docking then
    set_tdb
      (execute e (UPDATE_docking (or_empty docking) station_id) (tdb p)).1 p
  else p.

Definition _handle_commodity (e : env) (now : Z) (d : data) (p : plugin)
  : plugin * verdict :=
  let msg := msg_of d in
  let system_name := PyStr.strip (or_empty (systemName msg)) in
  let station_name := PyStr.strip (or_empty (stationName msg)) in
  match commodity_filter msg p with
  | (p0, Some v) => (p0, v)
  | (p0, None) =>
      match resolve_station e system_name station_name p0 with
      | (p2, inl v) => (p2, v)
      | (p2, inr station_id) =>
          let p3 :=
            update_docking e (carrierDockingAccess msg) station_id p2 in
          let ts_unix := message_time e now (timestamp msg) in
          if dedup_accepts (_last_station_mod p3) station_id ts_unix then
            replace_snapshot e station_id ts_unix station_name system_name
              (commodities msg) p3
          else (p3, Stale station_id)
      end
  end.

(** ** [_consume_loop] *)

(** A received frame: when it arrived, and what decompressing and parsing
    it gives. *)
Inductive payload :=
| BadZlib
| BadJson
| Json (d : data).

Record frame := {
  arrival : Z;
  body : payload;
}.

(** How the loop ends: the duration has elapsed, or an exception of the
    handler, which the loop does not catch, has left it. *)
Inductive loop_exit :=
| DurationElapsed
| Propagated.

(** The loop over the frames received before the duration elapses.  The
    optional dump of the last payload to a scratch file touches nothing
    modelled here. *)
Fixpoint _consume_loop (e : env) (frames : list frame) (p : plugin)
  : plugin * loop_exit :=
  match frames with
  | [] => (p, DurationElapsed)
  | f :: rest =>
      let p := count add_messages 1 p in
      match body f with
      | BadZlib => _consume_loop e rest (say DEBUG1_zlib_error p)
      | BadJson => _consume_loop e rest (say DEBUG1_json_error p)
      | Json d =>
          let schema := or_empty (schemaRef d) in
          if PyStr.endswith schema "/commodity/3" then
            match _handle_commodity e (arrival f) d
                    (count add_commodity_messages 1 p) with
            | (p', Raised) | (p', Overflowed _ _) => (p', Propagated)
            | (p', _) => _consume_loop e rest p'
            end
          else if PyStr.endswith schema "/journal/1" then
            _consume_loop e rest (count add_journal_messages 1 p)
          else _consume_loop e rest p
      end
  end.

(** ** Vocabulary of the statements *)

(** A character that no step of [_norm_symbol] changes or removes. *)
Definition settled (c : ascii) : bool :=
  negb (PyStr.space_or_hyphen c) && negb (Ascii.eqb c "&")
  && negb (PyStr.punct c) && Ascii.eqb (PyStr.lower_char c) c.

#[global] Instance symbol_lookup_eq_dec : EqDecision symbol_lookup.
Proof. solve_decision. Defined.

Definition is_unknown (l : symbol_lookup) : bool :=
  match l with UnknownSymbol _ => true | _ => false end.

Definition is_known (l : symbol_lookup) : bool :=
  match l with KnownItem _ => true | _ => false end.

(** How many commodities of [cs] name a symbol that is not in the map. *)
Definition unknown_count (sym_map : gmap string Z) (cs : list commodity) : Z :=
  Z.of_nat
    (length (filter (fun c => is_unknown (lookup_symbol sym_map c) = true) cs)).

Definition known_count (sym_map : gmap string Z) (cs : list commodity) : Z :=
  Z.of_nat
    (length (filter (fun c => is_known (lookup_symbol sym_map c) = true) cs)).

(** The row a message leaves for item [i]: that of the last commodity of
    the list that resolves to [i]; none when no commodity does. *)
Definition snapshot_entry (sym_map : gmap string Z) (station_id ts_unix : Z)
    (cs : list commodity) (i : Z) : option StationItem.row :=
  new_row station_id i ts_unix <$>
    last (filter (fun c => lookup_symbol sym_map c = KnownItem i) cs).

(** The effect of the successful INSERTs of the loop on the table alone. *)
Definition write_rows (sym_map : gmap string Z) (station_id ts_unix : Z)
    (cs : list commodity) (t : gmap (Z * Z) StationItem.row)
  : gmap (Z * Z) StationItem.row :=
  fold_left
    (fun t c =>
       match lookup_symbol sym_map c with
       | KnownItem i => <[(station_id, i) := new_row station_id i ts_unix c]> t
       | _ => t
       end)
    cs t.

(** The commodities the loop had dealt with when the error was raised. *)
Definition visited_before (at_ : raise_point) (cs : list commodity)
  : list commodity :=
  match at_ with
  | InBegin | InDelete => []
  | InInsert unvisited => take (length cs - length unvisited)%nat cs
  | InCommit => cs
  end.

(** The docking policy stored for a station. *)
Definition docking_access (t : tables) (station_id : Z)
  : option (option string) :=
  Station.carrier_docking_access <$>
    find (fun r => Station.station_id r =? station_id) (stations t).

(** The time stamp, station name and system name the handler derives from
    a document. *)
Definition time_of (e : env) (now : Z) (d : data) : Z :=
  message_time e now (timestamp (msg_of d)).

Definition station_name_of (d : data) : string :=
  PyStr.strip (or_empty (stationName (msg_of d))).

Definition system_name_of (d : data) : string :=
  PyStr.strip (or_empty (systemName (msg_of d))).

(** What the handler never changes: the options and the symbol map. *)
Definition same_setup (p p' : plugin) : Prop :=
  carrier_only p' = carrier_only p /\ public_only p' = public_only p
  /\ _item_symbol_map p' = _item_symbol_map p.

(** Between [db] and [db'] only StationItem changed, by the INSERTs for
    [visited]; the transaction is as open as it was. *)
Definition rows_written (sym_map : gmap string Z) (station_id ts_unix : Z)
    (visited : list commodity) (db db' : database) : Prop :=
  open_txn db' = open_txn db
  /\ systems (contents db') = systems (contents db)
  /\ stations (contents db') = stations (contents db)
  /\ items (contents db') = items (contents db)
  /\ station_items (contents db') =
       write_rows sym_map station_id ts_unix visited
         (station_items (contents db)).

(** The rows a verdict reports as written. *)
Definition written_of (v : verdict) : Z :=
  match v with Committed _ w => w | _ => 0 end.


(** The UPDATE of the docking policy is the third statement the handler
    sends, after the two SELECTs. *)
Definition docking_update_refused (e : env) (p : plugin) : bool :=
  db_fails e (S (S (length (journal (tdb p))))).

(** The station a verdict speaks of. *)
Definition station_of (v : verdict) : option Z :=
  match v with
  | Stale s | Committed s _ | RolledBack s _ | Overflowed s _ => Some s
  | _ => None
  end.

(** The state [p3] in which the handler reaches the dedup gate, against the
    state [p] in which it was called: two SELECTs were sent and, when the
    message carries a docking policy, the UPDATE. *)
Definition before_gate (e : env) (d : data) (s : Z) (p p3 : plugin) : Prop :=
  (exists sid,
      fetch_system (contents (tdb p)) (system_name_of d) = Some sid
      /\ fetch_station (contents (tdb p)) sid (station_name_of d) = Some s)
  /\ same_setup p p3
  /\ _last_station_mod p3 = _last_station_mod p
  /\ _stats p3 = _stats p
  /\ tdenv p3 = tdenv p
  /\ open_txn (tdb p3) = open_txn (tdb p)
  /\ systems (contents (tdb p3)) = systems (contents (tdb p))
  /\ items (contents (tdb p3)) = items (contents (tdb p))
  /\ station_items (contents (tdb p3)) = station_items (contents (tdb p))
  /\ stations (contents (tdb p3)) =
       if present (carrierDockingAccess (msg_of d))
          && negb (docking_update_refused e p)
       then map (set_docking (or_empty (carrierDockingAccess (msg_of d))) s)
                (stations (contents (tdb p)))
       else stations (contents (tdb p)).

(** ** A small catalog and a few messages *)

Module Demo.

(** A stand-in for the ISO 8601 parser on the three time stamps used
    below. *)
Definition iso (s : string) : option Z :=
  if String.eqb s "1970-01-01T00:00:00+00:00" then Some 0
  else if String.eqb s "2024-09-01T14:00:00+00:00" then Some 1725199200
  else if String.eqb s "2024-09-01T14:03:55+00:00" then Some 1725199435
  else None.

Definition quiet : env :=
  {| fromisoformat := iso; db_fails := fun _ => false |}.

(** The store refuses the statement sent at position [n]. *)
Definition refusing (n : nat) : env :=
  {| fromisoformat := iso; db_fails := Nat.eqb n |}.

Definition obs (sym : string) (sell dem : Z) (dbr : bracket)
    (buy stk : Z) (sbr : bracket) : commodity :=
  {| name := Some sym;
     sellPrice := Some sell; demand := Some dem; demandBracket := dbr;
     buyPrice := Some buy; stock := Some stk; stockBracket := sbr |}.

Definition hydrogen : commodity :=
  obs "hydrogenfuel" 113 0 (BracketLevel 0) 84 5000 (BracketLevel 3).
Definition medicines : commodity :=
  obs "AgriMedicines" 1240 320 (BracketLevel 2) 0 0 BracketBlank.
Definition weapons : commodity :=
  obs "NonLethalWeapons" 1900 15 (BracketLevel 1) 0 0 BracketMissing.
Definition mystery : commodity :=
  obs "OnionHeadGammaStrain" 9000 1 (BracketLevel 3) 0 0 BracketBlank.

Definition old_row : StationItem.row := new_row 11 3 1700000000 weapons.

Definition catalog : tables :=
  {| systems := [ {| System.system_id := 1; System.name := "Sol" |} ];
     stations :=
       [ {| Station.station_id := 10; Station.system_id := 1;
            Station.name := "Daedalus";
            Station.carrier_docking_access := None |};
         {| Station.station_id := 11; Station.system_id := 1;
            Station.name := "K7Q-BQL";
            Station.carrier_docking_access := Some "all" |} ];
     items :=
       [ {| Item.item_id := 1; Item.name := "HydrogenFuel" |};
         {| Item.item_id := 2; Item.name := "AgriMedicines" |};
         {| Item.item_id := 3; Item.name := "NonLethalWeapons" |} ];
     station_items := {[ (11, 3) := old_row ]} |}.

Definition no_stats : stats :=
  {| messages := 0; commodity_messages := 0; journal_messages := 0;
     stations_matched := 0; stations_skipped := 0; items_written := 0;
     items_skipped := 0; carriers_filtered := 0 |}.

(** The plugin as [__init__] and the start of [run] leave it. *)
Definition fresh : plugin :=
  {| carrier_only := false; public_only := false;
     _last_station_mod := ∅;
     _item_symbol_map := _prepare_item_symbol_map (items catalog);
     _stats := no_stats;
     tdb := {| contents := catalog; open_txn := None; journal := [] |};
     tdenv := [] |}.

Definition carriers_only : plugin :=
  {| carrier_only := true; public_only := true;
     _last_station_mod := ∅;
     _item_symbol_map := _prepare_item_symbol_map (items catalog);
     _stats := no_stats;
     tdb := {| contents := catalog; open_txn := None; journal := [] |};
     tdenv := [] |}.

Definition doc (station type_ : string) (docking : option string)
    (ts : string) (cs : list commodity) : data :=
  {| schemaRef := Some "https://eddn.edcd.io/schemas/commodity/3";
     message :=
       Some {| systemName := Some "sol"; stationName := Some station;
               stationType := Some type_;
               carrierDockingAccess := docking;
               marketId := Some 3700000000;
               timestamp := Some ts;
               commodities := cs |} |}.

Definition first_doc : data :=
  doc "K7Q-BQL" "FleetCarrier" None "2024-09-01T14:00:00Z"
    [mystery; hydrogen; medicines].

Definition second_doc : data :=
  doc "k7q-bql" "FleetCarrier" None "2024-09-01T14:03:55Z"
    [medicines; mystery].

(** Same time stamp as [first_doc], another docking policy. *)
Definition resent_doc : data :=
  doc "K7Q-BQL" "FleetCarrier" (Some "squadron") "2024-09-01T14:00:00Z"
    [hydrogen].

Definition unknown_doc : data :=
  doc "K7Q-BQL" "FleetCarrier" None "2024-09-01T14:00:00Z" [mystery].

Definition epoch_doc (cs : list commodity) : data :=
  doc "K7Q-BQL" "FleetCarrier" None "1970-01-01T00:00:00Z" cs.

Definition port_doc : data :=
  doc "Daedalus" "Orbis" None "2024-09-01T14:00:00Z" [hydrogen].

Definition private_doc : data :=
  doc "K7Q-BQL" "FleetCarrier" (Some "Squadron") "2024-09-01T14:00:00Z"
    [hydrogen].

Definition bare_doc : data :=
  doc "K7Q-BQL" "FleetCarrier" (Some "ALL") "2024-09-01T14:00:00Z" [].

End Demo.

(** ** Vocabulary for the run as a whole *)

(** No two underscores side by side. *)
Fixpoint no_double_underscore (s : list ascii) : bool :=
  match s with
  | a :: r =>
      match r with
      | b :: _ =>
          negb (Ascii.eqb a "_" && Ascii.eqb b "_") && no_double_underscore r
      | [] => true
      end
  | [] => true
  end.

(** The counters after the handler has left through exit [v], for a
    message with commodities [cs]. *)
Definition stats_after (sym_map : gmap string Z) (cs : list commodity)
    (v : verdict) (s : stats) : stats :=
  match v with
  | NotCarrier | NotPublic => add_carriers_filtered 1 s
  | Incomplete | Stale _ | Raised => s
  | UnknownSystem | UnknownStation => add_stations_skipped 1 s
  | Committed _ w =>
      let s' := add_items_skipped (unknown_count sym_map cs) s in
      if w =? 0 then s' else add_items_written w (add_stations_matched 1 s')
  | RolledBack _ at_ =>
      add_items_skipped (unknown_count sym_map (visited_before at_ cs)) s
  | Overflowed _ unvisited =>
      add_items_skipped
        (unknown_count sym_map (visited_before (InInsert unvisited) cs)) s
  end.

(** The clock after the handler has left through exit [v]. *)
Definition clock_after (ts_unix : Z) (v : verdict) (clock : gmap Z Z)
  : gmap Z Z :=
  match v with
  | Committed s w => if w =? 0 then clock else <[s := ts_unix]> clock
  | _ => clock
  end.

(** How the counters of a report hang together. *)
Definition accounted (s : stats) : Prop :=
  0 <= stations_matched s /\ 0 <= stations_skipped s
  /\ 0 <= carriers_filtered s /\ 0 <= items_skipped s
  /\ 0 <= journal_messages s
  /\ stations_matched s + stations_skipped s + carriers_filtered s
     <= commodity_messages s
  /\ commodity_messages s + journal_messages s <= messages s
  /\ stations_matched s <= items_written s.

(** No counter of [s'] is below its value in [s]. *)
Definition counters_le (s s' : stats) : Prop :=
  messages s <= messages s'
  /\ commodity_messages s <= commodity_messages s'
  /\ journal_messages s <= journal_messages s'
  /\ stations_matched s <= stations_matched s'
  /\ stations_skipped s <= stations_skipped s'
  /\ items_written s <= items_written s'
  /\ items_skipped s <= items_skipped s'
  /\ carriers_filtered s <= carriers_filtered s'.

(** The frames the loop hands to [_handle_commodity], and those it counts
    as journal events. *)
Definition is_commodity_frame (f : frame) : bool :=
  match body f with
  | Json d => PyStr.endswith (or_empty (schemaRef d)) "/commodity/3"
  | _ => false
  end.

Definition is_journal_frame (f : frame) : bool :=
  match body f with
  | Json d =>
      negb (PyStr.endswith (or_empty (schemaRef d)) "/commodity/3")
      && PyStr.endswith (or_empty (schemaRef d)) "/journal/1"
  | _ => false
  end.

(** What identifies a station: everything but its docking policy. *)
Definition station_identity (r : Station.row) : Z * Z * string :=
  (Station.station_id r, Station.system_id r, Station.name r).

(** The rows the loop sends INSERTs for, in the order of the message. *)
Definition rows_to_insert (sym_map : gmap string Z) (station_id ts_unix : Z)
    (cs : list commodity) : list StationItem.row :=
  omap
    (fun c =>
       match lookup_symbol sym_map c with
       | KnownItem i => Some (new_row station_id i ts_unix c)
       | _ => None
       end)
    cs.

(** The statements of the docking update of a document. *)
Definition docking_statements (d : data) (station_id : Z) : list statement :=
  if present (carrierDockingAccess (msg_of d)) then
    [UPDATE_docking (or_empty (carrierDockingAccess (msg_of d))) station_id]
  else [].

(** The message reaches the snapshot transaction for station [s]: it
    passes the filters, the store answers the two SELECTs, which find the
    station, and the dedup gate accepts the time stamp. *)
Definition reaches_transaction (e : env) (now : Z) (d : data) (p : plugin)
    (s : Z) : Prop :=
  (commodity_filter (msg_of d) p).2 = None
  /\ db_fails e (length (journal (tdb p))) = false
  /\ db_fails e (S (length (journal (tdb p)))) = false
  /\ (exists sid,
        fetch_system (contents (tdb p)) (system_name_of d) = Some sid
        /\ fetch_station (contents (tdb p)) sid (station_name_of d) = Some s)
  /\ dedup_accepts (_last_station_mod p) s (time_of e now d) = true.

(** The position in the journal of the BEGIN of that transaction: after
    the two SELECTs and the UPDATE of the docking policy, when the message
    carries one.  The statements of the transaction follow: BEGIN at
    [txn_start], the DELETE at [txn_start + 1], the INSERT of the row
    number [j] (counting from 0) at [txn_start + 2 + j], COMMIT after the
    last INSERT. *)
Definition txn_start (d : data) (s : Z) (p : plugin) : nat :=
  length (journal (tdb p)) + 2 + length (docking_statements d s).

(** What the store holds whatever becomes of the connection: the contents
    BEGIN saved while a transaction is open, the contents themselves
    otherwise. *)
Definition durable (db : database) : tables :=
  default (contents db) (open_txn db).




(** The commodity has a non-empty name whose normalised symbol the map
    sends to an item id other than 0. *)
Definition names_known_item (sym_map : gmap string Z) (c : commodity)
  : Prop :=
  exists sym i,
    name c = Some sym /\ sym <> ""
    /\ sym_map !! _norm_symbol sym = Some i /\ i <> 0.

#[global] Instance names_known_item_dec sym_map c :
  Decision (names_known_item sym_map c).
Proof.
  unfold names_known_item.
  destruct (name c) as [sym|]; [|right; by intros (? & ? & [=] & _)].
  destruct (decide (sym = "")) as [->|Hne];
    [right; by intros (? & ? & [= <-] & ? & _)|].
  destruct (sym_map !! _norm_symbol sym) as [i|] eqn:Hm.
  - destruct (decide (i = 0)) as [->|Hi].
    + right. intros (? & ? & [= <-] & _ & Hm' & ?). congruence.
    + left. by exists sym, i.
  - right. intros (? & ? & [= <-] & _ & Hm' & _). congruence.
Defined.

(** One turn of the loop on a received frame (lines 155-182): the state
    after it, and whether the loop goes on ([false]: an exception left the
    handler). *)
Definition dispatch (e : env) (f : frame) (p : plugin) : plugin * bool :=
  let p := count add_messages 1 p in
  match body f with
  | BadZlib => (say DEBUG1_zlib_error p, true)
  | BadJson => (say DEBUG1_json_error p, true)
  | Json d =>
      let schema := or_empty (schemaRef d) in
      if PyStr.endswith schema "/commodity/3" then
        match _handle_commodity e (arrival f) d
                (count add_commodity_messages 1 p) with
        | (p', Raised) | (p', Overflowed _ _) => (p', false)
        | (p', _) => (p', true)
        end
      else if PyStr.endswith schema "/journal/1" then
        (count add_journal_messages 1 p, true)
      else (p, true)
  end.

(** ** The launcher's view of an import (td_gui.py) *)

Module Gui.

(** [needle in hay] for two strings. *)
Fixpoint contains_l (needle hay : list ascii) : bool :=
  PyStr.startswith_l needle hay
  || match hay with
     | [] => false
     | _ :: rest => contains_l needle rest
     end.

Definition contains (needle hay : string) : bool :=
  contains_l (list_ascii_of_string needle) (list_ascii_of_string hay).

(** The loop [for i, a in enumerate(argv)]: the argument after the first
    "-P" or "--plug" that has one, in lower case. *)
Fixpoint plug_of (argv : list string) : option string :=
  match argv with
  | [] => None
  | a :: rest =>
      match rest with
      | b :: _ =>
          if String.eqb a "-P" || String.eqb a "--plug"
          then Some (PyStr.lower b)
          else plug_of rest
      | [] => None
      end
  end.

(** Lines 908-933. *)
Definition _background_title_for_args (full_args : list string)
  : option string :=
  if (length full_args <? 4)%nat then None
  else
    let sub := default "" (full_args !! 2%nat) in
    if negb (String.eqb sub "import") then None
    else
      let argv := drop 3 full_args in
      let options_blob := String.concat " " argv in
      match plug_of argv with
      | None => None
      | Some plug =>
          if String.eqb plug "eddn" then
            if contains "carrier_only" options_blob
               || contains "public_only" options_blob
            then Some "EDDN Live (Carriers)"
            else Some "EDDN Live (All)"
          else if String.eqb plug "spansh" then Some "Import Spansh Galaxy"
          else if String.eqb plug "eddblink" then
            if contains "listings_live" options_blob
            then Some "EDDB Link (Live Listings)"
            else Some "EDDB Link Import"
          else None
      end.

(** Lines 1107-1132. *)
Definition _requires_db_exclusive (full_args : list string) : bool :=
  if (length full_args <? 3)%nat then false
  else
    let sub := default "" (full_args !! 2%nat) in
    if String.eqb sub "buildcache" then true
    else if negb (String.eqb sub "import") then false
    else
      let argv := drop 3 full_args in
      let options_blob := String.concat " " argv in
      match plug_of argv with
      | None => false
      | Some plug =>
          if String.eqb plug "eddblink"
             && (contains "clean" options_blob || contains "all" options_blob)
          then true
          else if String.eqb plug "spansh" then true
          else false
      end.

End Gui.

(** ** More sample messages *)

Module Samples.

(** A station the catalog does not have, and a system it does not have. *)
Definition lost_station_doc : data :=
  Demo.doc "Jameson Memorial" "Orbis" (Some "all") "2024-09-01T14:00:00Z"
    [Demo.hydrogen].


Definition journal_doc : data :=
  {| schemaRef := Some "https://eddn.edcd.io/schemas/journal/1";
     message := None |}.

Definition other_doc : data :=
  {| schemaRef := Some "https://eddn.edcd.io/schemas/outfitting/2";
     message := None |}.

Definition at_ (t : Z) (b : payload) : frame := {| arrival := t; body := b |}.

(** What a short run receives: a corrupt frame, a journal event, two
    snapshots of one carrier, a resend, and a message that is not JSON. *)
Definition feed : list frame :=
  [ at_ 1 BadZlib; at_ 2 (Json journal_doc); at_ 3 (Json Demo.first_doc);
    at_ 4 (Json Demo.second_doc); at_ 5 (Json Demo.resent_doc);
    at_ 6 BadJson; at_ 7 (Json lost_station_doc); at_ 8 (Json other_doc) ].

(** Frames none of which is a commodity snapshot. *)
Definition noise : list frame :=
  [ at_ 1 BadZlib; at_ 2 (Json journal_doc); at_ 3 BadJson;
    at_ 4 (Json other_doc) ].

(** The command line of the launcher's preset "EDDN Live (Carriers)". *)
Definition carriers_command : list string :=
  ["python"; "trade.py"; "import"; "-P"; "eddn"; "-O";
   "carrier_only,public_only"].





(** A message one of whose prices is beyond 64 bits. *)
Definition huge : commodity :=
  Demo.obs "AgriMedicines" (2 ^ 63) 320 (BracketLevel 2) 0 0 BracketBlank.

Definition overflow_doc : data :=
  Demo.doc "K7Q-BQL" "FleetCarrier" None "2024-09-01T14:00:00Z"
    [Demo.hydrogen; huge; Demo.weapons].

(** A catalog whose first two items normalise to one symbol. *)
Definition twin_items : list Item.row :=
  [ {| Item.item_id := 7; Item.name := "H.E. Suits" |};
    {| Item.item_id := 8; Item.name := "he suits" |};
    {| Item.item_id := 9; Item.name := "Gold" |} ].

End Samples.

(** * Properties *)

(** ** Symbol normalisation *)

Section Normalisation.

Import PyStr.

Lemma lower_char_settles c :
  lower_char (lower_char c) = lower_char c.
Proof.
  destruct c as [[] [] [] [] [] [] [] []]; vm_compute; reflexivity.
Qed.

Lemma underscore_settled : settled "_" = true.
Proof. reflexivity. Qed.

Lemma lstrip_fixed s :
  Forall (fun c => isspace c = false) s -> lstrip s = s.
Proof. destruct 1 as [|c r Hc _]; simpl; [done|]. by rewrite Hc. Qed.

Lemma rstrip_fixed s :
  Forall (fun c => isspace c = false) s -> rstrip s = s.
Proof.
  induction 1 as [|c r Hc _ IH]; simpl; [done|].
  rewrite IH, Hc. by destruct r.
Qed.

Lemma lower_fixed s :
  Forall (fun c => lower_char c = c) s -> lower_l s = s.
Proof.
  unfold lower_l. induction 1 as [|c r Hc _ IH]; simpl; [done|].
  by rewrite Hc, IH.
Qed.

Lemma replace_amp_fixed s :
  Forall (fun c => Ascii.eqb c "&" = false) s -> replace_amp s = s.
Proof.
  induction 1 as [|c r Hc _ IH]; simpl; [done|]. by rewrite Hc, IH.
Qed.

Lemma sub_runs_fixed cls b s :
  Forall (fun c => cls c = false) s -> sub_runs cls b s = s.
Proof.
  intros H. revert b. induction H as [|c r Hc _ IH]; intros b; simpl; [done|].
  by rewrite Hc, IH.
Qed.

Lemma del_chars_fixed cls s :
  Forall (fun c => cls c = false) s -> del_chars cls s = s.
Proof.
  induction 1 as [|c r Hc _ IH]; simpl; [done|]. by rewrite Hc, IH.
Qed.

(** Collapsing runs of underscores twice is collapsing them once; the
    second pass may only start inside a run when the first one did. *)
Lemma collapse_twice s : forall b b',
  (b' = true -> b = true) ->
  sub_runs underscore b' (sub_runs underscore b s) = sub_runs underscore b s.
Proof.
  induction s as [|c r IH]; intros b b' Hb; simpl; [done|].
  destruct (underscore c) eqn:Hc.
  - destruct b.
    + by apply IH.
    + destruct b'; [by discriminate Hb|].
      simpl. change (underscore "_") with true. cbn iota.
      f_equal. by apply IH.
  - simpl. rewrite Hc. f_equal. by apply IH.
Qed.

(** Each step keeps what the earlier steps established. *)
Lemma replace_amp_keeps (P : ascii -> Prop) s :
  P "a"%char -> P "n"%char -> P "d"%char ->
  Forall P s -> Forall P (replace_amp s).
Proof.
  intros Ha Hn Hd. induction 1 as [|c r Hc _ IH]; simpl; [constructor|].
  destruct (Ascii.eqb c "&"); repeat constructor; assumption.
Qed.

Lemma replace_amp_clears s :
  Forall (fun c => Ascii.eqb c "&" = false) (replace_amp s).
Proof.
  induction s as [|c r IH]; simpl; [constructor|].
  destruct (Ascii.eqb c "&") eqn:Hc; repeat constructor; assumption.
Qed.

Lemma sub_runs_keeps (P : ascii -> Prop) cls b s :
  P "_"%char -> Forall P s -> Forall P (sub_runs cls b s).
Proof.
  intros Hu H. revert b.
  induction H as [|c r Hc _ IH]; intros b; simpl; [constructor|].
  destruct (cls c); [destruct b|]; repeat constructor; auto.
Qed.

Lemma sub_runs_clears cls b s :
  cls "_"%char = false ->
  Forall (fun c => cls c = false) (sub_runs cls b s).
Proof.
  intros Hu. revert b.
  induction s as [|c r IH]; intros b; simpl; [constructor|].
  destruct (cls c) eqn:Hc; [destruct b|]; repeat constructor; auto.
Qed.

Lemma del_chars_keeps (P : ascii -> Prop) cls s :
  Forall P s -> Forall P (del_chars cls s).
Proof.
  induction 1 as [|c r Hc _ IH]; simpl; [constructor|].
  destruct (cls c); [|constructor]; assumption.
Qed.

Lemma del_chars_clears cls s :
  Forall (fun c => cls c = false) (del_chars cls s).
Proof.
  induction s as [|c r IH]; simpl; [constructor|].
  destruct (cls c) eqn:Hc; [|constructor]; assumption.
Qed.

Lemma lower_l_lowered s : Forall (fun c => lower_char c = c) (lower_l s).
Proof.
  unfold lower_l. induction s as [|c r IH]; simpl; constructor;
    [apply lower_char_settles | exact IH].
Qed.

(** What comes out of [norm_chars] is settled throughout. *)
Lemma norm_chars_settled s :
  Forall (fun c => settled c = true) (norm_chars s).
Proof.
  unfold norm_chars.
  set (s1 := lower_l (strip_l s)).
  assert (H1 : Forall (fun c => lower_char c = c) s1)
    by apply lower_l_lowered.
  set (s2 := replace_amp s1).
  assert (H2 : Forall (fun c => lower_char c = c /\ Ascii.eqb c "&" = false) s2).
  { apply Forall_and; split;
      [by apply replace_amp_keeps | apply replace_amp_clears]. }
  set (s3 := sub_runs space_or_hyphen false s2).
  assert (H3 : Forall (fun c => (lower_char c = c /\ Ascii.eqb c "&" = false)
                                /\ space_or_hyphen c = false) s3).
  { apply Forall_and; split;
      [by apply sub_runs_keeps | by apply sub_runs_clears]. }
  set (s4 := del_chars punct s3).
  assert (H4 : Forall (fun c => ((lower_char c = c /\ Ascii.eqb c "&" = false)
                                 /\ space_or_hyphen c = false)
                                /\ punct c = false) s4).
  { apply Forall_and; split;
      [by apply del_chars_keeps | apply del_chars_clears]. }
  apply sub_runs_keeps; [reflexivity|].
  eapply Forall_impl; [exact H4|].
  intros c [[[Hl Ha] Hs] Hp]. unfold settled.
  rewrite Hs, Ha, Hp, Hl. simpl. apply Ascii.eqb_refl.
Qed.

Lemma settled_inv s :
  Forall (fun c => settled c = true) s ->
  Forall (fun c => isspace c = false) s
  /\ Forall (fun c => lower_char c = c) s
  /\ Forall (fun c => Ascii.eqb c "&" = false) s
  /\ Forall (fun c => space_or_hyphen c = false) s
  /\ Forall (fun c => punct c = false) s.
Proof.
  intros H. repeat split; (eapply Forall_impl; [exact H|]);
    intros c Hc; unfold settled in Hc;
    apply andb_prop in Hc as [Hc Hl];
    apply andb_prop in Hc as [Hc Hp];
    apply andb_prop in Hc as [Hs Ha];
    apply negb_true_iff in Hs, Ha, Hp.
  - unfold space_or_hyphen in Hs. by apply orb_false_elim in Hs as [? _].
  - by apply Ascii.eqb_eq.
  - done.
  - done.
  - done.
Qed.

Lemma norm_chars_idempotent s : norm_chars (norm_chars s) = norm_chars s.
Proof.
  destruct (settled_inv _ (norm_chars_settled s))
    as (Hsp & Hlo & Ham & Hsh & Hpu).
  set (t := norm_chars s) in *.
  unfold norm_chars at 1. unfold strip_l.
  rewrite (lstrip_fixed t Hsp), (rstrip_fixed t Hsp), (lower_fixed t Hlo),
    (replace_amp_fixed t Ham), (sub_runs_fixed _ _ t Hsh),
    (del_chars_fixed _ t Hpu).
  subst t. unfold norm_chars. by apply collapse_twice.
Qed.

End Normalisation.

(** C9: [_norm_symbol] is idempotent on every string, and it maps
    "Agri-Medicines" to "agri_medicines", "Non-Lethal Weapons" to
    "non_lethal_weapons" and "Hydrogen Fuel" to "hydrogen_fuel". *)
Theorem norm_symbol_idempotent :
  (forall x : string, _norm_symbol (_norm_symbol x) = _norm_symbol x)
  /\ _norm_symbol "Agri-Medicines" = "agri_medicines"
  /\ _norm_symbol "Non-Lethal Weapons" = "non_lethal_weapons"
  /\ _norm_symbol "Hydrogen Fuel" = "hydrogen_fuel".
Proof.
  split; [|repeat split; reflexivity].
  intros x. unfold _norm_symbol.
  by rewrite list_ascii_of_string_of_list_ascii, norm_chars_idempotent.
Qed.


(** ** The store *)

Arguments execute : simpl never.

Section Store.

Variable e : env.

Lemma execute_journal q db :
  journal (execute e q db).1 = journal db ++ [q].
Proof.
  unfold execute.
  destruct q, (open_txn db), (db_fails e (length (journal db))); reflexivity.
Qed.

(** A statement that raises leaves contents and transaction alone. *)
Lemma execute_refused q db :
  (execute e q db).2 = false ->
  contents (execute e q db).1 = contents db
  /\ open_txn (execute e q db).1 = open_txn db.
Proof.
  unfold execute.
  destruct q, (open_txn db), (db_fails e (length (journal db)));
    simpl; intros; try discriminate; auto.
Qed.

Lemma execute_select_system n db :
  contents (execute e (SELECT_system n) db).1 = contents db
  /\ open_txn (execute e (SELECT_system n) db).1 = open_txn db.
Proof.
  unfold execute. destruct (db_fails e (length (journal db))); auto.
Qed.

Lemma execute_select_station i n db :
  contents (execute e (SELECT_station i n) db).1 = contents db
  /\ open_txn (execute e (SELECT_station i n) db).1 = open_txn db.
Proof.
  unfold execute. destruct (db_fails e (length (journal db))); auto.
Qed.

Lemma execute_begin db db' :
  execute e BEGIN db = (db', true) ->
  open_txn db = None /\ contents db' = contents db
  /\ open_txn db' = Some (contents db).
Proof.
  unfold execute.
  destruct (db_fails e (length (journal db))), (open_txn db);
    intros [= <-]; auto.
Qed.

Lemma execute_change q db db' :
  (exists s, q = DELETE_station_items s)
  \/ (exists r, q = INSERT_station_item r)
  \/ (exists v s, q = UPDATE_docking v s) ->
  execute e q db = (db', true) ->
  contents db' = apply_statement q (contents db)
  /\ open_txn db' = open_txn db.
Proof.
  unfold execute.
  intros [[s ->]|[[r ->]|(v & s & ->)]];
    destruct (db_fails e (length (journal db)));
    intros [= <-]; auto.
Qed.

Lemma execute_commit db db' :
  execute e COMMIT db = (db', true) ->
  contents db' = contents db /\ open_txn db' = None.
Proof.
  unfold execute.
  destruct (db_fails e (length (journal db))), (open_txn db);
    intros [= <-]; auto.
Qed.

Lemma execute_rollback db saved :
  open_txn db = Some saved ->
  contents (execute e ROLLBACK db).1 = saved
  /\ open_txn (execute e ROLLBACK db).1 = None.
Proof. unfold execute. intros ->. auto. Qed.

Lemma execute_rollback_idle db :
  open_txn db = None ->
  contents (execute e ROLLBACK db).1 = contents db
  /\ open_txn (execute e ROLLBACK db).1 = None.
Proof. unfold execute. intros ->. auto. Qed.

(** The UPDATE touches the Station table only. *)
Lemma execute_update_docking v s db :
  let db' := (execute e (UPDATE_docking v s) db).1 in
  open_txn db' = open_txn db
  /\ systems (contents db') = systems (contents db)
  /\ items (contents db') = items (contents db)
  /\ station_items (contents db') = station_items (contents db)
  /\ stations (contents db') =
       if db_fails e (length (journal db)) then stations (contents db)
       else map (set_docking v s) (stations (contents db)).
Proof.
  unfold execute. destruct (db_fails e (length (journal db))); simpl; auto.
Qed.

End Store.

(** ** The table after DELETE and INSERT OR REPLACE *)

Lemma delete_station_rows (s : Z) (t : gmap (Z * Z) StationItem.row)
    (s' i : Z) :
  filter (other_station s) t !! (s', i) =
    if decide (s' = s) then None else t !! (s', i).
Proof.
  destruct (decide (s' = s)) as [->|Hne].
  - apply map_lookup_filter_None. right. intros x _ H. by apply H.
  - destruct (t !! (s', i)) as [x|] eqn:Hx.
    + apply map_lookup_filter_Some. split; [done|]. exact Hne.
    + apply map_lookup_filter_None. by left.
Qed.

Lemma last_filter_cons {A} (P : A -> Prop) `{!forall x, Decision (P x)}
    (c : A) (cs : list A) :
  last (filter P (c :: cs)) =
    match last (filter P cs) with
    | Some x => Some x
    | None => if decide (P c) then Some c else None
    end.
Proof.
  rewrite filter_cons. destruct (decide (P c)); [|by destruct (last _)].
  rewrite last_cons. reflexivity.
Qed.

Lemma write_rows_lookup m (s ts : Z) cs :
  forall (t : gmap (Z * Z) StationItem.row) (s' i : Z),
  write_rows m s ts cs t !! (s', i) =
    if decide (s' = s) then
      match snapshot_entry m s ts cs i with
      | Some r => Some r
      | None => t !! (s', i)
      end
    else t !! (s', i).
Proof.
  unfold write_rows, snapshot_entry.
  induction cs as [|c cs IH]; intros t s' i; simpl fold_left.
  - simpl. by destruct (decide (s' = s)).
  - rewrite IH, last_filter_cons. clear IH.
    destruct (decide (s' = s)) as [->|Hne].
    + destruct (last (filter _ cs)) as [x|]; [done|]. simpl.
      destruct (lookup_symbol m c) as [|sym|j] eqn:Hc.
      * by rewrite decide_False.
      * by rewrite decide_False.
      * destruct (decide (KnownItem j = KnownItem i)) as [[= ->]|Hji].
        -- simpl. by rewrite lookup_insert_eq.
        -- rewrite lookup_insert_ne; [done|]. congruence.
    + destruct (lookup_symbol m c); try done.
      rewrite lookup_insert_ne; [done|]. congruence.
Qed.

(** ** The symbol map *)

Lemma setdefault_keeps (m : gmap string Z) k v k' v' :
  m !! k = Some v -> setdefault m k' v' !! k = Some v.
Proof.
  intros H. unfold setdefault. destruct (m !! k') eqn:Hk'; [done|].
  rewrite lookup_insert_ne; [done|]. congruence.
Qed.

Lemma prepare_keeps rows : forall (m : gmap string Z) k v,
  m !! k = Some v ->
  fold_left
    (fun sym_map r =>
       setdefault sym_map (_norm_symbol (Item.name r)) (Item.item_id r))
    rows m !! k = Some v.
Proof.
  induction rows as [|r rows IH]; intros m k v H; simpl; [done|].
  apply IH. by apply setdefault_keeps.
Qed.

(** Of the items whose names normalise to one symbol, the first in the
    table gives the symbol its id. *)
Lemma prepare_first_wins before r after :
  Forall (fun r' => _norm_symbol (Item.name r') <> _norm_symbol (Item.name r))
         before ->
  _prepare_item_symbol_map (before ++ r :: after)
    !! _norm_symbol (Item.name r) = Some (Item.item_id r).
Proof.
  unfold _prepare_item_symbol_map.
  assert (forall m : gmap string Z,
             m !! _norm_symbol (Item.name r) = None ->
             Forall (fun r' => _norm_symbol (Item.name r')
                               <> _norm_symbol (Item.name r)) before ->
             fold_left
               (fun sym_map r0 =>
                  setdefault sym_map (_norm_symbol (Item.name r0))
                    (Item.item_id r0))
               (before ++ r :: after) m !! _norm_symbol (Item.name r)
             = Some (Item.item_id r)) as Hgen.
  { induction before as [|b before IH]; intros m Hm Hb.
    - simpl. apply prepare_keeps. unfold setdefault. rewrite Hm.
      apply lookup_insert_eq.
    - simpl. inversion Hb as [|? ? Hne Hrest]; subst.
      apply IH; [|done]. unfold setdefault.
      destruct (m !! _norm_symbol (Item.name b)); [done|].
      by rewrite lookup_insert_ne. }
  intros Hb. by apply Hgen.
Qed.

(** ** The loop over the commodities *)

(** A commodity resolves to item [i] when it has a non-empty name whose
    normalised form the map sends to [i], and [i] is not 0. *)
Lemma lookup_symbol_known m c i :
  lookup_symbol m c = KnownItem i <->
  exists sym, name c = Some sym /\ sym <> ""
              /\ m !! _norm_symbol sym = Some i /\ i <> 0.
Proof.
  unfold lookup_symbol. destruct (name c) as [sym|].
  - destruct sym as [|a sym']; simpl.
    + split; [done|]. by intros (? & [= <-] & ? & _).
    + destruct (m !! _norm_symbol (String a sym')) as [j|] eqn:Hj.
      * destruct (Z.eqb_spec j 0) as [->|Hj0].
        -- split; [done|]. intros (? & [= <-] & _ & Hm & ?). congruence.
        -- split.
           ++ intros [= <-]. by eexists.
           ++ intros (? & [= <-] & _ & Hm & ?). congruence.
      * split; [done|]. intros (? & [= <-] & _ & Hm & ?). congruence.
  - split; [done|]. by intros (? & ? & _).
Qed.

Lemma add_items_skipped_0 s : add_items_skipped 0 s = s.
Proof. destruct s. unfold add_items_skipped. simpl. f_equal. lia. Qed.

Lemma add_items_skipped_twice a b s :
  add_items_skipped a (add_items_skipped b s) = add_items_skipped (b + a) s.
Proof. unfold add_items_skipped. simpl. f_equal. lia. Qed.

Lemma unknown_count_cons m c cs :
  unknown_count m (c :: cs) =
    (if is_unknown (lookup_symbol m c) then 1 else 0) + unknown_count m cs.
Proof.
  unfold unknown_count. rewrite filter_cons.
  destruct (is_unknown (lookup_symbol m c)) eqn:H.
  - rewrite decide_True by done. simpl length. lia.
  - rewrite decide_False by (by intros ?). lia.
Qed.

Lemma known_count_cons m c cs :
  known_count m (c :: cs) =
    (if is_known (lookup_symbol m c) then 1 else 0) + known_count m cs.
Proof.
  unfold known_count. rewrite filter_cons.
  destruct (is_known (lookup_symbol m c)) eqn:H.
  - rewrite decide_True by done. simpl length. lia.
  - rewrite decide_False by (by intros ?). lia.
Qed.

Lemma unknown_count_nonneg m cs : 0 <= unknown_count m cs.
Proof. unfold unknown_count. lia. Qed.

Lemma known_count_nonneg m cs : 0 <= known_count m cs.
Proof. unfold known_count. lia. Qed.

Lemma known_count_zero m cs :
  known_count m cs = 0 <->
  forall c, c ∈ cs -> is_known (lookup_symbol m c) = false.
Proof.
  induction cs as [|c cs IH].
  - split; [|done]. intros _ c Hc. by apply elem_of_nil in Hc.
  - rewrite known_count_cons. pose proof (known_count_nonneg m cs).
    split.
    + intros H0 c' Hc'. destruct (is_known (lookup_symbol m c)) eqn:Hk; [lia|].
      apply elem_of_cons in Hc' as [->|Hc']; [done|]. apply IH; [lia|done].
    + intros Hall. rewrite (Hall c) by apply list_elem_of_here.
      apply IH. intros c' Hc'. apply Hall. by apply list_elem_of_further.
Qed.

(** What one run of the loop does, whether it ends or an INSERT raises:
    the commodities before the raise point are [visited]; the unknown ones
    among them were counted, the known ones were written. *)
Lemma insert_rows_inv e s ts sn yn cs : forall w p p' r,
  insert_rows e s ts sn yn cs w p = (p', r) ->
  let m := _item_symbol_map p in
  exists visited,
    match r with
    | Finished w' => visited = cs /\ w' = w + known_count m cs
    | Sqlite3Error u | OverflowError u => cs = visited ++ u
    end
    /\ same_setup p p'
    /\ _last_station_mod p' = _last_station_mod p
    /\ _stats p' = add_items_skipped (unknown_count m visited) (_stats p)
    /\ rows_written m s ts visited (tdb p) (tdb p').
Proof.
  induction cs as [|c cs IH]; intros w p p' r; cbn [insert_rows].
  - intros [= <- <-]. exists []. unfold same_setup, rows_written.
    rewrite add_items_skipped_0. unfold known_count. simpl. split_and!; auto; lia.
  - destruct (lookup_symbol (_item_symbol_map p) c) as [|sym|i] eqn:Hc.
    + intros H. apply IH in H as (v & Hr & Hs & Hl & Hst & Hw).
      exists (c :: v). split_and!; try done.
      * destruct r as [w'|u|u]; [|by rewrite Hr..].
        destruct Hr as [-> ->]. rewrite known_count_cons, Hc. done.
      * by rewrite unknown_count_cons, Hc.
      * unfold rows_written, write_rows in *. simpl fold_left. by rewrite Hc.
    + intros H. apply IH in H as (v & Hr & Hs & Hl & Hst & Hw).
      simpl in Hr, Hs, Hl, Hst, Hw.
      exists (c :: v). split_and!; try done.
      * destruct r as [w'|u|u]; [|by rewrite Hr..].
        destruct Hr as [-> ->]. rewrite known_count_cons, Hc. done.
      * rewrite Hst, add_items_skipped_twice, unknown_count_cons, Hc. done.
      * unfold rows_written, write_rows in *. simpl fold_left. by rewrite Hc.
    + cbn zeta. destruct (row_fits (new_row s i ts c)); cbn [negb].
      2:{ intros [= <- <-]. exists [].
          unfold same_setup, rows_written. simpl.
          rewrite add_items_skipped_0. split_and!; auto. }
      destruct (execute e (INSERT_station_item (new_row s i ts c)) (tdb p))
        as [db ok] eqn:He.
      destruct ok.
      * intros H. apply IH in H as (v & Hr & Hs & Hl & Hst & Hw).
        simpl in Hr, Hs, Hl, Hst, Hw.
        apply execute_change in He as [Hct Htx]; [|right; left; eauto].
        exists (c :: v). split_and!; try done.
        -- destruct r as [w'|u|u]; [|by rewrite Hr..].
           destruct Hr as [-> ->]. rewrite known_count_cons, Hc. simpl.
           split; [done|lia].
        -- by rewrite unknown_count_cons, Hc.
        -- unfold rows_written, write_rows in *. simpl fold_left. rewrite Hc.
           destruct Hw as (-> & -> & -> & -> & ->).
           rewrite Hct, Htx. done.
      * intros [= <- <-]. exists [].
        pose proof (execute_refused e
                      (INSERT_station_item (new_row s i ts c)) (tdb p)) as Hrf.
        rewrite He in Hrf. destruct (Hrf eq_refl) as [Hct Htx]. simpl in Hct, Htx.
        unfold same_setup, rows_written. simpl.
        rewrite add_items_skipped_0, Hct, Htx. split_and!; auto.
Qed.

(** ** The transaction *)

Lemma take_visited {A} (v u : list A) :
  take (length (v ++ u) - length u) (v ++ u) = v.
Proof.
  rewrite length_app.
  replace (length v + length u - length u)%nat with (length v) by lia.
  by rewrite take_app_length.
Qed.

(** The handler of [sqlite3.Error] restores what BEGIN saved and warns. *)
Lemma on_db_error_inv e sn yn p :
  same_setup p (on_db_error e sn yn p)
  /\ _last_station_mod (on_db_error e sn yn p) = _last_station_mod p
  /\ _stats (on_db_error e sn yn p) = _stats p
  /\ open_txn (tdb (on_db_error e sn yn p)) = None
  /\ contents (tdb (on_db_error e sn yn p)) =
       default (contents (tdb p)) (open_txn (tdb p))
  /\ last (tdenv (on_db_error e sn yn p)) = Some (WARN_db_error sn yn).
Proof.
  unfold on_db_error, same_setup. simpl. rewrite last_snoc.
  destruct (open_txn (tdb p)) as [saved|] eqn:Ht.
  - destruct (execute_rollback e _ _ Ht) as [-> ->]. by split_and!.
  - destruct (execute_rollback_idle e _ Ht) as [-> ->]. by split_and!.
Qed.

(** The same, seen from the state [p] in which the transaction was begun,
    [q] being the state in which the error was raised. *)
Lemma rolled_back_from e sn yn p q k :
  same_setup p q ->
  _last_station_mod q = _last_station_mod p ->
  _stats q = add_items_skipped k (_stats p) ->
  default (contents (tdb q)) (open_txn (tdb q)) =
    default (contents (tdb p)) (open_txn (tdb p)) ->
  same_setup p (on_db_error e sn yn q)
  /\ _last_station_mod (on_db_error e sn yn q) = _last_station_mod p
  /\ _stats (on_db_error e sn yn q) = add_items_skipped k (_stats p)
  /\ open_txn (tdb (on_db_error e sn yn q)) = None
  /\ contents (tdb (on_db_error e sn yn q)) =
       default (contents (tdb p)) (open_txn (tdb p))
  /\ last (tdenv (on_db_error e sn yn q)) = Some (WARN_db_error sn yn).
Proof.
  intros (H1 & H2 & H3) Hl Hst Hc.
  destruct (on_db_error_inv e sn yn q)
    as ((G1 & G2 & G3) & Gl & Gst & Go & Gc & Gw).
  unfold same_setup. rewrite G1, G2, G3, Gl, Gst, Gc.
  by split_and!.
Qed.

Lemma unknown_count_nil m : unknown_count m [] = 0.
Proof. reflexivity. Qed.

(** Every way the transaction can fail ends with the store as it was
    before BEGIN, and with the counters as they were when the error was
    raised. *)
Lemma replace_snapshot_rolled_back e s ts sn yn cs p p' s' at_ :
  replace_snapshot e s ts sn yn cs p = (p', RolledBack s' at_) ->
  s' = s
  /\ same_setup p p'
  /\ _last_station_mod p' = _last_station_mod p
  /\ _stats p' =
       add_items_skipped
         (unknown_count (_item_symbol_map p) (visited_before at_ cs))
         (_stats p)
  /\ open_txn (tdb p') = None
  /\ contents (tdb p') = default (contents (tdb p)) (open_txn (tdb p))
  /\ last (tdenv p') = Some (WARN_db_error sn yn).
Proof.
  unfold replace_snapshot. intros H.
  destruct (execute e BEGIN (tdb p)) as [db1 ok1] eqn:E1.
  destruct ok1; cbn [negb] in H.
  2:{ injection H as <- <- <-. split; [done|].
      pose proof (execute_refused e BEGIN (tdb p)) as Hrf.
      rewrite E1 in Hrf. destruct (Hrf eq_refl) as [Hct Htx].
      cbn [fst] in Hct, Htx.
      apply rolled_back_from; cbn [visited_before]; try done.
      - by rewrite unknown_count_nil, add_items_skipped_0.
      - cbn [tdb set_tdb]. by rewrite Htx, Hct. }
  apply execute_begin in E1 as (Hidle & Hc1 & Ht1).
  destruct (execute e (DELETE_station_items s) db1) as [db2 ok2] eqn:E2.
  destruct ok2; cbn [negb] in H.
  2:{ injection H as <- <- <-. split; [done|].
      pose proof (execute_refused e (DELETE_station_items s) db1) as Hrf.
      rewrite E2 in Hrf. destruct (Hrf eq_refl) as [Hct Htx].
      cbn [fst] in Hct, Htx.
      apply rolled_back_from; cbn [visited_before]; try done.
      - by rewrite unknown_count_nil, add_items_skipped_0.
      - cbn [tdb set_tdb]. by rewrite Htx, Ht1, Hidle. }
  apply execute_change in E2 as [Hc2 Ht2]; [|left; eauto].
  destruct (insert_rows e s ts sn yn cs 0 (set_tdb db2 p))
    as [p3 [w|u|u]] eqn:E3; [| |discriminate H];
    apply insert_rows_inv in E3 as (v & Hv & Hs3 & Hl3 & Hst3 & Hw3);
    cbn [set_tdb tdb _item_symbol_map _stats _last_station_mod]
      in Hs3, Hl3, Hst3, Hw3;
    destruct Hw3 as (Ht3 & _).
  - destruct Hv as [-> ->].
    destruct (execute e COMMIT (tdb p3)) as [db4 ok4] eqn:E4.
    destruct ok4; cbn [negb] in H; [discriminate H|].
    injection H as <- <- <-. split; [done|].
    pose proof (execute_refused e COMMIT (tdb p3)) as Hrf.
    rewrite E4 in Hrf. destruct (Hrf eq_refl) as [Hct Htx].
    cbn [fst] in Hct, Htx.
    apply rolled_back_from; cbn [visited_before]; try done.
    cbn [tdb set_tdb]. by rewrite Htx, Ht3, Ht2, Ht1, Hidle.
  - injection H as <- <- <-. split; [done|].
    apply rolled_back_from; cbn [visited_before]; try done.
    + by rewrite Hv, take_visited.
    + by rewrite Ht3, Ht2, Ht1, Hidle.
Qed.

(** A commit leaves the station with the rows of this message only. *)
Lemma replace_snapshot_committed e s ts sn yn cs p p' s' w :
  replace_snapshot e s ts sn yn cs p = (p', Committed s' w) ->
  let m := _item_symbol_map p in
  s' = s
  /\ w = known_count m cs
  /\ same_setup p p'
  /\ _last_station_mod p' =
       (if w =? 0 then _last_station_mod p
        else <[s := ts]> (_last_station_mod p))
  /\ _stats p' =
       (if w =? 0 then add_items_skipped (unknown_count m cs) (_stats p)
        else add_items_written w
               (add_stations_matched 1
                  (add_items_skipped (unknown_count m cs) (_stats p))))
  /\ open_txn (tdb p) = None
  /\ open_txn (tdb p') = None
  /\ systems (contents (tdb p')) = systems (contents (tdb p))
  /\ stations (contents (tdb p')) = stations (contents (tdb p))
  /\ items (contents (tdb p')) = items (contents (tdb p))
  /\ station_items (contents (tdb p')) =
       write_rows m s ts cs
         (filter (other_station s) (station_items (contents (tdb p)))).
Proof.
  unfold replace_snapshot. intros H.
  destruct (execute e BEGIN (tdb p)) as [db1 ok1] eqn:E1.
  destruct ok1; cbn [negb] in H; [|discriminate H].
  apply execute_begin in E1 as (Hidle & Hc1 & Ht1).
  destruct (execute e (DELETE_station_items s) db1) as [db2 ok2] eqn:E2.
  destruct ok2; cbn [negb] in H; [|discriminate H].
  apply execute_change in E2 as [Hc2 Ht2]; [|left; eauto].
  destruct (insert_rows e s ts sn yn cs 0 (set_tdb db2 p))
    as [p3 [w3|u|u]] eqn:E3; [|discriminate H..].
  apply insert_rows_inv in E3 as (v & [-> ->] & Hs3 & Hl3 & Hst3 & Hw3).
  simpl in Hs3, Hl3, Hst3, Hw3.
  destruct Hw3 as (Ht3 & Hsys & Hstn & Hit & Hrows).
  destruct (execute e COMMIT (tdb p3)) as [db4 ok4] eqn:E4.
  destruct ok4; cbn [negb] in H; [|discriminate H].
  apply execute_commit in E4 as [Hc4 Ht4].
  injection H as <- <- <-. cbn zeta.
  rewrite Z.add_0_l. unfold record_written.
  rewrite Hc2, Hc1 in Hsys, Hstn, Hit, Hrows. simpl in Hsys, Hstn, Hit, Hrows.
  unfold same_setup in *. destruct Hs3 as (H1 & H2 & H3).
  destruct (known_count (_item_symbol_map p) cs =? 0); simpl;
    rewrite ?Hc4, ?Hst3, ?Hl3; split_and!; auto.
Qed.

(** The INSERT that cannot be bound is that of a commodity with a known
    symbol, one of whose nine parameters is outside 64 bits. *)
Lemma insert_rows_overflow e s ts sn yn cs : forall w p p' u,
  insert_rows e s ts sn yn cs w p = (p', OverflowError u) ->
  exists c rest i,
    u = c :: rest
    /\ lookup_symbol (_item_symbol_map p) c = KnownItem i
    /\ row_fits (new_row s i ts c) = false.
Proof.
  induction cs as [|c cs IH]; intros w p p' u; cbn [insert_rows].
  - discriminate.
  - destruct (lookup_symbol (_item_symbol_map p) c) as [|sym|i] eqn:Hc;
      [apply IH | intros H; by apply IH in H |].
    cbn zeta. destruct (row_fits (new_row s i ts c)) eqn:Hr; cbn [negb].
    + destruct (execute e _ (tdb p)) as [db []]; [|discriminate].
      intros H. by apply IH in H.
    + intros [= <- <-]. by exists c, cs, i.
Qed.

(** An [OverflowError] leaves the transaction as it is: open, with the
    DELETE and the INSERTs before the offending one applied, nothing rolled
    back, and the counters as they were when it was raised. *)
Lemma replace_snapshot_overflowed e s ts sn yn cs p p' s' u :
  replace_snapshot e s ts sn yn cs p = (p', Overflowed s' u) ->
  let m := _item_symbol_map p in
  let visited := visited_before (InInsert u) cs in
  s' = s
  /\ same_setup p p'
  /\ _last_station_mod p' = _last_station_mod p
  /\ _stats p' = add_items_skipped (unknown_count m visited) (_stats p)
  /\ open_txn (tdb p) = None
  /\ open_txn (tdb p') = Some (contents (tdb p))
  /\ systems (contents (tdb p')) = systems (contents (tdb p))
  /\ stations (contents (tdb p')) = stations (contents (tdb p))
  /\ items (contents (tdb p')) = items (contents (tdb p))
  /\ station_items (contents (tdb p')) =
       write_rows m s ts visited
         (filter (other_station s) (station_items (contents (tdb p))))
  /\ exists c rest i,
       u = c :: rest /\ cs = visited ++ u
       /\ lookup_symbol m c = KnownItem i
       /\ row_fits (new_row s i ts c) = false.
Proof.
  unfold replace_snapshot. intros H.
  destruct (execute e BEGIN (tdb p)) as [db1 ok1] eqn:E1.
  destruct ok1; cbn [negb] in H; [|discriminate H].
  apply execute_begin in E1 as (Hidle & Hc1 & Ht1).
  destruct (execute e (DELETE_station_items s) db1) as [db2 ok2] eqn:E2.
  destruct ok2; cbn [negb] in H; [|discriminate H].
  apply execute_change in E2 as [Hc2 Ht2]; [|left; eauto].
  destruct (insert_rows e s ts sn yn cs 0 (set_tdb db2 p))
    as [p3 [w3|u3|u3]] eqn:E3.
  - by destruct (execute e COMMIT (tdb p3)) as [db4 []].
  - discriminate H.
  - injection H as <- <- <-.
    pose proof (insert_rows_overflow _ _ _ _ _ _ _ _ _ _ E3)
      as (c & rest & i & Hu & Hc & Hr).
    apply insert_rows_inv in E3 as (v & Hv & Hs3 & Hl3 & Hst3 & Hw3).
    simpl in Hs3, Hl3, Hst3, Hw3, Hc.
    destruct Hw3 as (Ht3 & Hsys & Hstn & Hit & Hrows).
    rewrite Hc2, Hc1 in Hsys, Hstn, Hit, Hrows.
    simpl in Hsys, Hstn, Hit, Hrows.
    cbn zeta. cbn [visited_before]. rewrite Hv, take_visited.
    rewrite Ht3, Ht2, Ht1.
    split_and!; try done. by exists c, rest, i.
Qed.

(** ** The stages of the handler *)

Lemma commodity_filter_inv msg p p0 o :
  commodity_filter msg p = (p0, o) ->
  match o with
  | None | Some Incomplete => p0 = p
  | Some NotCarrier | Some NotPublic => p0 = count add_carriers_filtered 1 p
  | Some _ => False
  end.
Proof.
  unfold commodity_filter.
  repeat match goal with |- context [if ?b then _ else _] => destruct b end;
    by intros [= <- <-].
Qed.

(** The two SELECTs read, count a miss and log it; nothing else. *)
Lemma resolve_station_inv e sn yn p p2 r :
  resolve_station e sn yn p = (p2, r) ->
  same_setup p p2
  /\ _last_station_mod p2 = _last_station_mod p
  /\ contents (tdb p2) = contents (tdb p)
  /\ open_txn (tdb p2) = open_txn (tdb p)
  /\ match r with
     | inr s =>
         _stats p2 = _stats p /\ tdenv p2 = tdenv p
         /\ length (journal (tdb p2)) = S (S (length (journal (tdb p))))
         /\ exists sid,
              fetch_system (contents (tdb p)) sn = Some sid
              /\ fetch_station (contents (tdb p)) sid yn = Some s
     | inl Raised => _stats p2 = _stats p /\ tdenv p2 = tdenv p
     | inl UnknownSystem | inl UnknownStation =>
         _stats p2 = add_stations_skipped 1 (_stats p)
     | inl _ => False
     end.
Proof.
  unfold resolve_station.
  pose proof (execute_select_system e sn (tdb p)) as [Hc1 Ht1].
  pose proof (execute_journal e (SELECT_system sn) (tdb p)) as Hj1.
  destruct (execute e (SELECT_system sn) (tdb p)) as [db1 ok1].
  cbn [fst] in Hc1, Ht1, Hj1.
  destruct ok1; cbn [negb]; [|by intros [= <- <-]].
  rewrite Hc1.
  destruct (fetch_system (contents (tdb p)) sn) as [sid|] eqn:Hsys;
    [|by intros [= <- <-]].
  pose proof (execute_select_station e sid yn db1) as [Hc2 Ht2].
  pose proof (execute_journal e (SELECT_station sid yn) db1) as Hj2.
  destruct (execute e (SELECT_station sid yn) db1) as [db2 ok2].
  cbn [fst] in Hc2, Ht2, Hj2.
  destruct ok2; cbn [negb].
  2:{ intros [= <- <-]. cbn. by rewrite Hc2, Ht2, Hc1, Ht1. }
  rewrite Hc2, Hc1.
  destruct (fetch_station (contents (tdb p)) sid yn) as [s|] eqn:Hstn.
  2:{ intros [= <- <-]. cbn. by rewrite Hc2, Ht2, Hc1, Ht1. }
  intros [= <- <-]. cbn. rewrite Hc2, Ht2, Hc1, Ht1, Hj2, Hj1.
  rewrite !length_app. cbn. split_and!; try done; [lia|eauto].
Qed.

(** The UPDATE changes the docking policy of the station and nothing
    else, and only when the message carries one. *)
Lemma update_docking_inv e docking s p :
  let p3 := update_docking e docking s p in
  same_setup p p3
  /\ _last_station_mod p3 = _last_station_mod p
  /\ _stats p3 = _stats p
  /\ tdenv p3 = tdenv p
  /\ open_txn (tdb p3) = open_txn (tdb p)
  /\ systems (contents (tdb p3)) = systems (contents (tdb p))
  /\ items (contents (tdb p3)) = items (contents (tdb p))
  /\ station_items (contents (tdb p3)) = station_items (contents (tdb p))
  /\ stations (contents (tdb p3)) =
       if present docking && negb (db_fails e (length (journal (tdb p))))
       then map (set_docking (or_empty docking) s) (stations (contents (tdb p)))
       else stations (contents (tdb p)).
Proof.
  unfold update_docking. destruct (present docking); cbn [andb]; [|done].
  destruct (execute_update_docking e (or_empty docking) s (tdb p))
    as (Ht & Hsy & Hit & Hsi & Hst).
  cbn. rewrite Ht, Hsy, Hit, Hsi, Hst.
  by destruct (db_fails e (length (journal (tdb p)))).
Qed.

(** The handler is its stages in the order of the source. *)
Lemma handle_commodity_inv e now d p p' v :
  _handle_commodity e now d p = (p', v) ->
  commodity_filter (msg_of d) p = (p', Some v)
  \/ commodity_filter (msg_of d) p = (p, None)
     /\ (resolve_station e (system_name_of d) (station_name_of d) p
           = (p', inl v)
         \/ exists p2 s,
              resolve_station e (system_name_of d) (station_name_of d) p
                = (p2, inr s)
              /\ let p3 :=
                   update_docking e (carrierDockingAccess (msg_of d)) s p2 in
                 if dedup_accepts (_last_station_mod p) s (time_of e now d)
                 then replace_snapshot e s (time_of e now d)
                        (station_name_of d) (system_name_of d)
                        (commodities (msg_of d)) p3 = (p', v)
                 else p' = p3 /\ v = Stale s).
Proof.
  unfold _handle_commodity, system_name_of, station_name_of, time_of.
  destruct (commodity_filter (msg_of d) p) as [p0 [v0|]] eqn:Hf.
  { intros [= <- <-]. by left. }
  pose proof (commodity_filter_inv _ _ _ _ Hf) as ->.
  intros H. right. split; [done|].
  destruct (resolve_station e _ _ p) as [p2 [v0|s]] eqn:Hr.
  { injection H as <- <-. by left. }
  right. exists p2, s. split; [done|]. cbn zeta.
  destruct (resolve_station_inv _ _ _ _ _ _ Hr) as (_ & Hl2 & _).
  destruct (update_docking_inv e (carrierDockingAccess (msg_of d)) s p2)
    as (_ & Hl3 & _).
  rewrite Hl3, Hl2 in H.
  destruct (dedup_accepts (_last_station_mod p) s _); [done|].
  by injection H as <- <-.
Qed.

Lemma replace_snapshot_verdict e s ts sn yn cs p p' v :
  replace_snapshot e s ts sn yn cs p = (p', v) ->
  (exists w, v = Committed s w) \/ (exists at_, v = RolledBack s at_)
  \/ (exists u, v = Overflowed s u).
Proof.
  unfold replace_snapshot.
  destruct (execute e BEGIN (tdb p)) as [db1 []]; cbn [negb];
    [|intros [= _ <-]; eauto].
  destruct (execute e (DELETE_station_items s) db1) as [db2 []]; cbn [negb];
    [|intros [= _ <-]; eauto].
  destruct (insert_rows e s ts sn yn cs 0 (set_tdb db2 p)) as [p3 [w|u|u]];
    [|intros [= _ <-]; eauto..].
  destruct (execute e COMMIT (tdb p3)) as [db4 []]; cbn [negb];
    intros [= _ <-]; eauto.
Qed.

(** A verdict that names a station was reached through the gate. *)
Lemma reaches_gate e now d p p' v s :
  _handle_commodity e now d p = (p', v) ->
  station_of v = Some s ->
  exists p3,
    before_gate e d s p p3
    /\ if dedup_accepts (_last_station_mod p) s (time_of e now d)
       then replace_snapshot e s (time_of e now d)
              (station_name_of d) (system_name_of d)
              (commodities (msg_of d)) p3 = (p', v)
       else p' = p3 /\ v = Stale s.
Proof.
  intros H Hs.
  apply handle_commodity_inv in H as [Hf|[Hf [Hr|(p2 & s0 & Hr & Hg)]]].
  - apply commodity_filter_inv in Hf. by destruct v.
  - apply resolve_station_inv in Hr as (_ & _ & _ & _ & Hr). by destruct v.
  - assert (s0 = s) as ->.
    { destruct (dedup_accepts _ s0 _).
      - apply replace_snapshot_verdict in Hg as [[w ->]|[[a ->]|[u ->]]];
          by injection Hs.
      - destruct Hg as [_ ->]. by injection Hs. }
    exists (update_docking e (carrierDockingAccess (msg_of d)) s p2).
    split; [|exact Hg].
    apply resolve_station_inv in Hr
      as ((A1 & A2 & A3) & Al & Ac & At & Ast & Aenv & Aj & Ares).
    destruct (update_docking_inv e (carrierDockingAccess (msg_of d)) s p2)
      as ((B1 & B2 & B3) & Bl & Bst & Benv & Bt & Bsy & Bit & Bsi & Bstn).
    unfold before_gate, same_setup, docking_update_refused.
    rewrite B1, B2, B3, Bl, Bst, Benv, Bt, Bsy, Bit, Bsi, Bstn.
    rewrite A1, A2, A3, Al, Ac, At, Ast, Aenv, Aj. by split_and!.
Qed.

(** The handler got past the gate: how it reached it, and the transaction
    it then ran. *)
Tactic Notation "through_gate" constr(H) constr(s)
    "as" ident(p3) ident(Hp3) ident(Hg) :=
  destruct (reaches_gate _ _ _ _ _ _ s H eq_refl) as (p3 & Hp3 & Hg);
  destruct (dedup_accepts _ s _); [|by destruct Hg].

(** ** The dedup gate *)

(** The gate as the source computes it: an absent entry and an entry of 0
    are the same to the test [if last_mod and ...]. *)
Lemma dedup_accepts_spec (clock : gmap Z Z) (s t : Z) :
  dedup_accepts clock s t = true <->
  clock !! s = None \/ clock !! s = Some 0
  \/ exists l, clock !! s = Some l /\ l < t.
Proof.
  unfold dedup_accepts. destruct (clock !! s) as [l|]; simpl.
  - destruct (Z.eqb_spec l 0) as [->|Hl]; simpl.
    + split; auto.
    + destruct (Z.leb_spec t l); simpl; split.
      * discriminate.
      * intros [?|[[= ?]|(l' & [= <-] & ?)]]; [done|done|lia].
      * intros _. right. right. exists l. split; [done|lia].
      * done.
  - split; auto.
Qed.

(** The first message for a station always passes. *)
Lemma dedup_accepts_first (clock : gmap Z Z) (s t : Z) :
  clock !! s = None -> dedup_accepts clock s t = true.
Proof. intros H. apply dedup_accepts_spec. by left. Qed.

(** With a recorded time stamp other than 0, older or equal is dropped. *)
Lemma dedup_rejects_stale (clock : gmap Z Z) (s t l : Z) :
  clock !! s = Some l -> l <> 0 -> t <= l -> dedup_accepts clock s t = false.
Proof.
  intros H Hl Ht. apply not_true_is_false. rewrite dedup_accepts_spec, H.
  intros [?|[[= ?]|(l' & [= <-] & ?)]]; [done|done|lia].
Qed.


(** ** Replacement of the snapshot *)

Lemma snapshot_entry_is_Some m (s ts : Z) cs (i : Z) :
  is_Some (snapshot_entry m s ts cs i) <->
  exists c, c ∈ cs /\ lookup_symbol m c = KnownItem i.
Proof.
  unfold snapshot_entry. rewrite fmap_is_Some.
  split.
  - intros [c Hc]. exists c. apply last_Some_elem_of in Hc.
    by apply list_elem_of_filter in Hc as [? ?].
  - intros (c & Hin & Hc).
    destruct (last (filter _ cs)) as [x|] eqn:Hl; [by eexists|].
    apply last_None in Hl.
    assert (c ∈ filter (fun c => lookup_symbol m c = KnownItem i) cs) as Hf
      by (by apply list_elem_of_filter).
    rewrite Hl in Hf. by apply elem_of_nil in Hf.
Qed.

(** After a commit the rows of the station are those of the message, and
    the rows of every other station are what they were. *)
Lemma committed_rows e now d p p' s w :
  _handle_commodity e now d p = (p', Committed s w) ->
  forall s' i,
    station_items (contents (tdb p')) !! (s', i) =
      if decide (s' = s) then
        snapshot_entry (_item_symbol_map p) s (time_of e now d)
          (commodities (msg_of d)) i
      else station_items (contents (tdb p)) !! (s', i).
Proof.
  intros H s' i.
  through_gate H s as p3 Hp3 Hg.
  destruct Hp3 as (_ & (_ & _ & Hm) & _ & _ & _ & _ & _ & _ & Hsi & _).
  apply replace_snapshot_committed in Hg
    as (_ & _ & _ & _ & _ & _ & _ & _ & _ & _ & Hrows).
  rewrite Hrows, write_rows_lookup, delete_station_rows, Hm, Hsi.
  destruct (decide (s' = s)); [|done].
  by destruct (snapshot_entry _ _ _ _ _).
Qed.

(** What a commit records. *)
Lemma committed_clock e now d p p' s w :
  _handle_commodity e now d p = (p', Committed s w) ->
  dedup_accepts (_last_station_mod p) s (time_of e now d) = true
  /\ w = known_count (_item_symbol_map p) (commodities (msg_of d))
  /\ same_setup p p'
  /\ _last_station_mod p' =
       (if w =? 0 then _last_station_mod p
        else <[s := time_of e now d]> (_last_station_mod p))
  /\ _stats p' =
       (if w =? 0
        then add_items_skipped
               (unknown_count (_item_symbol_map p) (commodities (msg_of d)))
               (_stats p)
        else add_items_written w
               (add_stations_matched 1
                  (add_items_skipped
                     (unknown_count (_item_symbol_map p)
                        (commodities (msg_of d)))
                     (_stats p)))).
Proof.
  intros H.
  through_gate H s as p3 Hp3 Hg.
  destruct Hp3 as (_ & (A1 & A2 & A3) & Al & Ast & _).
  apply replace_snapshot_committed in Hg
    as (_ & Hw & (B1 & B2 & B3) & Bl & Bst & _).
  unfold same_setup.
  rewrite Bl, Bst, B1, B2, B3, Hw, A1, A2, A3, Al, Ast.
  by split_and!.
Qed.

(** The last element of a list that has a property. *)
Lemma filter_nil_Forall {A} (P : A -> Prop) `{!forall x, Decision (P x)}
    (l : list A) :
  filter P l = [] <-> Forall (fun x => ~ P x) l.
Proof.
  induction l as [|x l IH]; [by split|].
  rewrite filter_cons. destruct (decide (P x)) as [Hx|Hx].
  - split; [done|]. intros Hl. by inversion Hl.
  - rewrite IH. split; [by constructor|]. intros Hl. by inversion Hl.
Qed.

Lemma last_filter_Some {A} (P : A -> Prop) `{!forall x, Decision (P x)}
    (l : list A) (c : A) :
  last (filter P l) = Some c <->
  exists before after,
    l = before ++ c :: after /\ P c /\ Forall (fun x => ~ P x) after.
Proof.
  induction l as [|x l IH].
  - split; [done|]. intros (b & a & Hl & _). by destruct b.
  - rewrite last_filter_cons. split.
    + destruct (last (filter P l)) as [y|] eqn:Hl.
      * intros [= ->]. destruct (proj1 IH eq_refl) as (b & a & -> & Hc & Ha).
        by exists (x :: b), a.
      * destruct (decide (P x)) as [Hx|]; [|done]. intros [= ->].
        exists [], l. split_and!; try done.
        apply (filter_nil_Forall P). by apply last_None.
    + intros (b & a & Hl & Hc & Ha). destruct b as [|x' b].
      * injection Hl as -> ->.
        apply (filter_nil_Forall P) in Ha. rewrite Ha. simpl.
        by rewrite decide_True.
      * injection Hl as -> ->.
        assert (last (filter P (b ++ c :: a)) = Some c) as ->; [|done].
        apply IH. by exists b, a.
Qed.

(** The row the table holds for a station that has just been committed,
    in terms of the symbol map alone. *)
Lemma committed_row_from_map e now d p p' s w i r :
  _handle_commodity e now d p = (p', Committed s w) ->
  station_items (contents (tdb p')) !! (s, i) = Some r <->
  exists before c after sym,
    commodities (msg_of d) = before ++ c :: after
    /\ name c = Some sym /\ sym <> ""
    /\ _item_symbol_map p !! _norm_symbol sym = Some i /\ i <> 0
    /\ r = new_row s i (time_of e now d) c
    /\ forall c' sym',
         c' ∈ after -> name c' = Some sym' -> sym' <> "" ->
         _item_symbol_map p !! _norm_symbol sym' <> Some i.
Proof.
  intros H.
  rewrite (committed_rows _ _ _ _ _ _ _ H s i), decide_True by done.
  unfold snapshot_entry. rewrite fmap_Some. split.
  - intros (c & Hl & ->).
    apply last_filter_Some in Hl as (b & a & Hcs & Hc & Ha).
    apply lookup_symbol_known in Hc as (sym & Hn & Hne & Hm & Hi).
    exists b, c, a, sym. split_and!; try done.
    intros c' sym' Hin Hn' Hne' Hm'.
    rewrite Forall_forall in Ha. apply (Ha c' Hin).
    apply lookup_symbol_known. by exists sym'.
  - intros (b & c & a & sym & Hcs & Hn & Hne & Hm & Hi & -> & Ha).
    exists c. split; [|done].
    apply last_filter_Some. exists b, a. split_and!; try done.
    + apply lookup_symbol_known. by exists sym.
    + apply Forall_forall. intros c' Hin Hc'.
      apply lookup_symbol_known in Hc' as (sym' & Hn' & Hne' & Hm' & _).
      by apply (Ha c' sym').
Qed.




(** ** Stale messages *)

(** With a recorded time stamp other than 0, a message for the station
    that is not newer is dropped before the transaction: no row and no
    counter changes. *)
Lemma stale_message_dropped e now d p p' v s l :
  _handle_commodity e now d p = (p', v) ->
  station_of v = Some s ->
  _last_station_mod p !! s = Some l -> l <> 0 ->
  time_of e now d <= l ->
  v = Stale s
  /\ station_items (contents (tdb p')) = station_items (contents (tdb p))
  /\ _stats p' = _stats p
  /\ _last_station_mod p' = _last_station_mod p.
Proof.
  intros H Hs Hl Hl0 Ht.
  destruct (reaches_gate _ _ _ _ _ _ s H Hs) as (p3 & Hp3 & Hg).
  rewrite (dedup_rejects_stale _ _ _ _ Hl Hl0 Ht) in Hg.
  destruct Hg as [-> ->].
  destruct Hp3 as (_ & _ & Al & Ast & _ & _ & _ & _ & Asi & _).
  by rewrite Asi, Ast, Al.
Qed.

(** C2, at the input where the code departs from it: station 11 holds an
    accepted snapshot with time stamp 0 (1970-01-01T00:00:00Z), and a
    second message with the same time stamp is not dropped: the hydrogen
    row is deleted, a medicines row is inserted, and stations_matched and
    items_written grow. *)
Theorem snapshot_at_epoch_is_replaced :
  let p1 :=
    (_handle_commodity Demo.quiet 5 (Demo.epoch_doc [Demo.hydrogen])
       Demo.fresh).1 in
  let r :=
    _handle_commodity Demo.quiet 9 (Demo.epoch_doc [Demo.medicines]) p1 in
  _last_station_mod p1 !! 11 = Some 0
  /\ time_of Demo.quiet 9 (Demo.epoch_doc [Demo.medicines]) = 0
  /\ r.2 = Committed 11 1
  /\ station_items (contents (tdb p1)) !! (11, 1)
     = Some (new_row 11 1 0 Demo.hydrogen)
  /\ station_items (contents (tdb r.1)) !! (11, 1) = None
  /\ station_items (contents (tdb r.1)) !! (11, 2)
     = Some (new_row 11 2 0 Demo.medicines)
  /\ stations_matched (_stats p1) = 1
  /\ stations_matched (_stats r.1) = 2
  /\ items_written (_stats p1) = 1
  /\ items_written (_stats r.1) = 2.
Proof. vm_compute. repeat split; reflexivity. Qed.

(** C3, at the input where the code departs from it: with 0 recorded as
    the last accepted time stamp of station 11, a message with time stamp 0
    (equal) and one with time stamp -60 (older) are both accepted. *)
Theorem dedup_gate_accepts_at_epoch :
  ({[ 11 := 0 ]} : gmap Z Z) !! 11 = Some 0
  /\ dedup_accepts {[ 11 := 0 ]} 11 0 = true
  /\ dedup_accepts {[ 11 := 0 ]} 11 (-60) = true
  /\ (_handle_commodity Demo.quiet 9 (Demo.epoch_doc [Demo.medicines])
        (_handle_commodity Demo.quiet 5 (Demo.epoch_doc [Demo.hydrogen])
           Demo.fresh).1).2 = Committed 11 1.
Proof. vm_compute. repeat split; reflexivity. Qed.

(** ** The stored row *)

(** Prices and units are copied, a missing one being 0; a bracket other
    than 0 is copied; a bracket that is missing, blank or 0 becomes -1. *)
Lemma new_row_fields s i ts c :
  let r := new_row s i ts c in
  StationItem.demand_price r = default 0 (sellPrice c)
  /\ StationItem.demand_units r = default 0 (demand c)
  /\ StationItem.supply_price r = default 0 (buyPrice c)
  /\ StationItem.supply_units r = default 0 (stock c)
  /\ StationItem.demand_level r = bracket_level (demandBracket c)
  /\ StationItem.supply_level r = bracket_level (stockBracket c)
  /\ StationItem.modified r = ts
  /\ StationItem.from_live r = 1.
Proof. by repeat split. Qed.

Lemma bracket_level_spec b :
  bracket_level b =
    match b with
    | BracketLevel n => if decide (n = 0) then -1 else n
    | _ => -1
    end.
Proof.
  destruct b as [| |n]; try done. simpl.
  destruct (Z.eqb_spec n 0); by destruct (decide (n = 0)).
Qed.

(** C6, at the input where the code departs from it: the hydrogen
    commodity of the first demonstration message has demandBracket 0 and
    stockBracket 3; the row stored for it has demand level -1 and supply
    level 3. *)
Theorem zero_bracket_is_stored_as_unknown :
  demandBracket Demo.hydrogen = BracketLevel 0
  /\ bracket_level (BracketLevel 0) = -1
  /\ (StationItem.demand_level <$>
        station_items
          (contents
             (tdb (_handle_commodity Demo.quiet 5 Demo.first_doc
                     Demo.fresh).1)) !! (11, 1)) = Some (-1)
  /\ (StationItem.supply_level <$>
        station_items
          (contents
             (tdb (_handle_commodity Demo.quiet 5 Demo.first_doc
                     Demo.fresh).1)) !! (11, 1)) = Some 3.
Proof. vm_compute. repeat split; reflexivity. Qed.

(** ** The docking policy *)

Lemma docking_access_set v s t t' :
  stations t' = map (set_docking v s) (stations t) ->
  docking_access t' s = (fun _ => Some v) <$> docking_access t s.
Proof.
  unfold docking_access. intros ->.
  induction (stations t) as [|r rows IH]; [done|]. simpl.
  destruct (Station.station_id r =? s) eqn:Hs;
    unfold set_docking; rewrite ?Hs; simpl; rewrite ?Hs;
    [done | exact IH].
Qed.

Lemma docking_access_stations t t' s :
  stations t' = stations t -> docking_access t' s = docking_access t s.
Proof. unfold docking_access. by intros ->. Qed.

(** A station the second SELECT returns has a row. *)
Lemma fetched_station_exists t sid n s :
  fetch_station t sid n = Some s -> is_Some (docking_access t s).
Proof.
  unfold fetch_station, docking_access. rewrite fmap_is_Some.
  destruct (find _ (stations t)) as [r|] eqn:Hf; [|done].
  intros [= <-]. apply find_some in Hf as [Hin _].
  destruct (find (fun r0 => Station.station_id r0 =? Station.station_id r)
              (stations t)) eqn:Hg; [by eexists|].
  apply (find_none _ _ Hg) in Hin. by rewrite Z.eqb_refl in Hin.
Qed.

(** C4, as stated, fails: the first demonstration message is accepted for
    carrier K7Q-BQL (station 11, docking policy "all"); the same time stamp
    sent again with docking policy "squadron" is dropped by the gate as
    stale, and the stored policy is "squadron" afterwards. *)
Lemma stale_message_changes_docking :
  let p1 := (_handle_commodity Demo.quiet 5 Demo.first_doc Demo.fresh).1 in
  let r := _handle_commodity Demo.quiet 9 Demo.resent_doc p1 in
  r.2 = Stale 11
  /\ dedup_accepts (_last_station_mod p1) 11
       (time_of Demo.quiet 9 Demo.resent_doc) = false
  /\ docking_access (contents (tdb p1)) 11 = Some (Some "all")
  /\ docking_access (contents (tdb r.1)) 11 = Some (Some "squadron").
Proof. vm_compute. repeat split; reflexivity. Qed.

(** C4, amended: the UPDATE of the docking policy is sent after the
    station is resolved and before the dedup gate.  For a message the gate
    drops as stale, the Station table is unchanged when the message carries
    no docking policy or the store refuses the UPDATE; otherwise the
    policy of the resolved station is the one of the message.  The rows of
    StationItem are unchanged in both cases. *)
Theorem stale_message_docking e now d p p' s :
  _handle_commodity e now d p = (p', Stale s) ->
  let docking := carrierDockingAccess (msg_of d) in
  station_items (contents (tdb p')) = station_items (contents (tdb p))
  /\ (present docking = false \/ docking_update_refused e p = true ->
      stations (contents (tdb p')) = stations (contents (tdb p)))
  /\ (present docking = true -> docking_update_refused e p = false ->
      stations (contents (tdb p')) =
        map (set_docking (or_empty docking) s) (stations (contents (tdb p)))
      /\ docking_access (contents (tdb p')) s = Some (Some (or_empty docking))).
Proof.
  intros H docking.
  destruct (reaches_gate _ _ _ _ _ _ s H eq_refl) as (p3 & Hp3 & Hg).
  destruct (dedup_accepts _ s _).
  { apply replace_snapshot_verdict in Hg as [[? ?]|[[? ?]|[? ?]]]; discriminate. }
  destruct Hg as [-> _].
  destruct Hp3 as ((sid & _ & Hres) & _ & _ & _ & _ & _ & _ & _ & Hsi & Hstn).
  fold docking in Hstn. split; [exact Hsi|]. split.
  - intros [Hd|Hd]; rewrite Hd in Hstn; [done|].
    by rewrite andb_false_r in Hstn.
  - intros Hd Hr. rewrite Hd, Hr in Hstn. split; [exact Hstn|].
    apply fetched_station_exists in Hres as [o Ho].
    by rewrite (docking_access_set _ _ _ _ Hstn), Ho.
Qed.

Lemma stale_message_docking_witness :
  docking_access
    (contents
       (tdb (_handle_commodity Demo.quiet 9 Demo.resent_doc
               (_handle_commodity Demo.quiet 5 Demo.first_doc Demo.fresh).1).1))
    11
  = Some (Some (or_empty (carrierDockingAccess (msg_of Demo.resent_doc)))).
Proof.
  apply (stale_message_docking Demo.quiet 9 Demo.resent_doc
           (_handle_commodity Demo.quiet 5 Demo.first_doc Demo.fresh).1
           (_handle_commodity Demo.quiet 9 Demo.resent_doc
              (_handle_commodity Demo.quiet 5 Demo.first_doc Demo.fresh).1).1
           11).
  - vm_compute. reflexivity.
  - vm_compute. reflexivity.
  - vm_compute. reflexivity.
Defined.

(** ** A message none of whose symbols is known *)

(** C5, as stated, fails: station 11 holds a row for item 3; a message for
    it whose only commodity has an unknown symbol is accepted and commits
    with no row written, and the row for item 3 is gone. *)
Lemma unresolved_message_clears_rows :
  let r := _handle_commodity Demo.quiet 5 Demo.unknown_doc Demo.fresh in
  r.2 = Committed 11 0
  /\ station_items (contents (tdb Demo.fresh)) !! (11, 3) = Some Demo.old_row
  /\ station_items (contents (tdb r.1)) !! (11, 3) = None
  /\ _last_station_mod r.1 !! 11 = None.
Proof. vm_compute. repeat split; reflexivity. Qed.

(** C5, amended: when a message passes the filters, resolves to station
    [s], passes the dedup gate and commits, but none of its commodity
    symbols is in the symbol map, then no row is written, the last
    accepted time stamp of [s] is not advanced and stations_matched and
    items_written stay as they are; the committed transaction has deleted
    the rows the station had, so no row is stored for [s] afterwards; the
    rows of other stations are untouched. *)
Theorem unresolved_message_empties_snapshot e now d p p' s w :
  _handle_commodity e now d p = (p', Committed s w) ->
  (forall c, c ∈ commodities (msg_of d) ->
             is_known (lookup_symbol (_item_symbol_map p) c) = false) ->
  w = 0
  /\ _last_station_mod p' = _last_station_mod p
  /\ stations_matched (_stats p') = stations_matched (_stats p)
  /\ items_written (_stats p') = items_written (_stats p)
  /\ (forall i, station_items (contents (tdb p')) !! (s, i) = None)
  /\ (forall s' i, s' <> s ->
        station_items (contents (tdb p')) !! (s', i) =
          station_items (contents (tdb p)) !! (s', i)).
Proof.
  intros H Hnone.
  destruct (committed_clock _ _ _ _ _ _ _ H) as (_ & Hw & _ & Hl & Hst).
  rewrite (proj2 (known_count_zero _ _) Hnone) in Hw. subst w.
  simpl in Hl, Hst. rewrite Hl, Hst. split_and!; try done.
  - intros i. rewrite (committed_rows _ _ _ _ _ _ _ H s i).
    rewrite decide_True by done.
    destruct (snapshot_entry _ _ _ _ i) as [r|] eqn:Hr; [|done].
    assert (is_Some (snapshot_entry (_item_symbol_map p) s (time_of e now d)
                       (commodities (msg_of d)) i)) as Hs by (by eexists).
    apply snapshot_entry_is_Some in Hs as (c & Hin & Hc).
    specialize (Hnone c Hin). by rewrite Hc in Hnone.
  - intros s' i Hne. rewrite (committed_rows _ _ _ _ _ _ _ H s' i).
    by rewrite decide_False.
Qed.

Lemma unresolved_message_empties_snapshot_witness :
  station_items
    (contents
       (tdb (_handle_commodity Demo.quiet 5 Demo.unknown_doc Demo.fresh).1))
    !! (11, 3) = None.
Proof.
  apply (unresolved_message_empties_snapshot Demo.quiet 5 Demo.unknown_doc
           Demo.fresh
           (_handle_commodity Demo.quiet 5 Demo.unknown_doc Demo.fresh).1
           11 0).
  - vm_compute. reflexivity.
  - intros c Hc. apply list_elem_of_singleton in Hc. subst c.
    vm_compute. reflexivity.
Defined.

(** ** Storage errors *)

(** Wherever in the transaction of the first demonstration message the
    store refuses a statement (BEGIN, DELETE, either INSERT, COMMIT), the
    handler ends in its error handler. *)
Example refused_at_each_point :
  (_handle_commodity (Demo.refusing 2) 5 Demo.first_doc Demo.fresh).2
    = RolledBack 11 InBegin
  /\ (_handle_commodity (Demo.refusing 3) 5 Demo.first_doc Demo.fresh).2
    = RolledBack 11 InDelete
  /\ (_handle_commodity (Demo.refusing 4) 5 Demo.first_doc Demo.fresh).2
    = RolledBack 11 (InInsert [Demo.hydrogen; Demo.medicines])
  /\ (_handle_commodity (Demo.refusing 5) 5 Demo.first_doc Demo.fresh).2
    = RolledBack 11 (InInsert [Demo.medicines])
  /\ (_handle_commodity (Demo.refusing 6) 5 Demo.first_doc Demo.fresh).2
    = RolledBack 11 InCommit
  /\ (_handle_commodity (Demo.refusing 7) 5 Demo.first_doc Demo.fresh).2
    = Committed 11 2.
Proof. vm_compute. repeat split; reflexivity. Qed.

(** An [OverflowError] is the one exit that leaves a transaction open. *)
Lemma handle_commodity_closes_txn e now d p p' v :
  _handle_commodity e now d p = (p', v) ->
  open_txn (tdb p) = None ->
  (forall s u, v <> Overflowed s u) ->
  open_txn (tdb p') = None.
Proof.
  intros H Hidle Hv.
  apply handle_commodity_inv in H as [Hf|[Hf [Hr|(p2 & s & Hr & Hg)]]].
  - apply commodity_filter_inv in Hf. destruct v; try done; by subst p'.
  - apply resolve_station_inv in Hr as (_ & _ & _ & Ht & _). by rewrite Ht.
  - apply resolve_station_inv in Hr as (_ & _ & _ & Ht & _).
    destruct (update_docking_inv e (carrierDockingAccess (msg_of d)) s p2)
      as (_ & _ & _ & _ & Ht3 & _).
    cbn zeta in Hg. destruct (dedup_accepts _ s _).
    + pose proof (replace_snapshot_verdict _ _ _ _ _ _ _ _ _ Hg)
        as [[w ->]|[[a ->]|[u ->]]].
      * by apply replace_snapshot_committed in Hg
          as (_ & _ & _ & _ & _ & _ & Hc & _).
      * by apply replace_snapshot_rolled_back in Hg
          as (_ & _ & _ & _ & Hc & _).
      * by destruct (Hv s u).
    + destruct Hg as [-> _]. by rewrite Ht3, Ht.
Qed.

Lemma rows_to_insert_cons m (s ts : Z) c cs :
  rows_to_insert m s ts (c :: cs) =
    match lookup_symbol m c with
    | KnownItem i => new_row s i ts c :: rows_to_insert m s ts cs
    | _ => rows_to_insert m s ts cs
    end.
Proof. unfold rows_to_insert. simpl. by destruct (lookup_symbol m c). Qed.

Lemma rows_to_insert_length m (s ts : Z) cs :
  Z.of_nat (length (rows_to_insert m s ts cs)) = known_count m cs.
Proof.
  induction cs as [|c cs IH]; [done|].
  rewrite known_count_cons, <- IH, rows_to_insert_cons.
  destruct (lookup_symbol m c); cbn [is_known length]; lia.
Qed.

Lemma update_docking_journal e d s p :
  journal (tdb (update_docking e (carrierDockingAccess (msg_of d)) s p))
  = journal (tdb p) ++ docking_statements d s.
Proof.
  unfold update_docking, docking_statements.
  destruct (present (carrierDockingAccess (msg_of d))).
  - cbn. apply execute_journal.
  - by rewrite app_nil_r.
Qed.


(** Without a refused statement and without a row that cannot be bound,
    the loop runs to its end and the transaction commits. *)
Lemma insert_rows_no_error e s ts sn yn cs :
  (forall n, db_fails e n = false) ->
  forall w p,
    forallb row_fits (rows_to_insert (_item_symbol_map p) s ts cs) = true ->
    exists p' w', insert_rows e s ts sn yn cs w p = (p', Finished w').
Proof.
  intros Hok. induction cs as [|c cs IH]; intros w p; cbn [insert_rows].
  - by eexists _, _.
  - rewrite rows_to_insert_cons.
    destruct (lookup_symbol (_item_symbol_map p) c) as [|sym|i];
      [apply IH | intros Hfit; by apply IH |].
    cbn [forallb]. intros [Hr Hfit]%andb_prop. cbn zeta. rewrite Hr.
    cbn [negb]. unfold execute. rewrite Hok. by apply IH.
Qed.

Lemma replace_snapshot_no_error e s ts sn yn cs p :
  (forall n, db_fails e n = false) ->
  open_txn (tdb p) = None ->
  forallb row_fits (rows_to_insert (_item_symbol_map p) s ts cs) = true ->
  exists p' w, replace_snapshot e s ts sn yn cs p = (p', Committed s w).
Proof.
  intros Hok Hidle Hfit. unfold replace_snapshot.
  destruct (execute e BEGIN (tdb p)) as [db1 ok1] eqn:E1.
  unfold execute in E1. rewrite Hok, Hidle in E1. injection E1 as <- <-.
  cbn [negb].
  destruct (execute e (DELETE_station_items s) _) as [db2 ok2] eqn:E2.
  unfold execute in E2. rewrite Hok in E2. injection E2 as <- <-.
  cbn [negb].
  match goal with
  | |- context [insert_rows e s ts sn yn cs 0 ?q] =>
      destruct (insert_rows_no_error e s ts sn yn cs Hok 0 q Hfit)
        as (p3 & w & E3);
      pose proof (insert_rows_inv _ _ _ _ _ _ _ _ _ _ E3)
        as (_ & _ & _ & _ & _ & Ht3 & _);
      rewrite E3
  end.
  cbn in Ht3.
  destruct (execute e COMMIT (tdb p3)) as [db4 ok4] eqn:E4.
  unfold execute in E4. rewrite Hok, Ht3 in E4. injection E4 as <- <-.
  cbn [negb]. by eexists _, _.
Qed.

(** The error handler is entered for storage errors only. *)
Lemma insert_rows_no_sqlite_error e s ts sn yn cs :
  (forall n, db_fails e n = false) ->
  forall w p p' u, insert_rows e s ts sn yn cs w p <> (p', Sqlite3Error u).
Proof.
  intros Hok. induction cs as [|c cs IH]; intros w p p' u; cbn [insert_rows].
  - discriminate.
  - destruct (lookup_symbol (_item_symbol_map p) c) as [|sym|i];
      [apply IH..|].
    cbn zeta. destruct (row_fits _); cbn [negb]; [|discriminate].
    unfold execute. rewrite Hok. apply IH.
Qed.

Lemma no_error_no_rollback e now d p p' v :
  (forall n, db_fails e n = false) ->
  open_txn (tdb p) = None ->
  _handle_commodity e now d p = (p', v) ->
  forall s at_, v <> RolledBack s at_.
Proof.
  intros Hok Hidle H s at_ ->.
  destruct (reaches_gate _ _ _ _ _ _ s H eq_refl) as (p3 & Hp3 & Hg).
  destruct (dedup_accepts _ s _); [|by destruct Hg].
  destruct Hp3 as (_ & _ & _ & _ & _ & Ht3 & _).
  unfold replace_snapshot in Hg.
  destruct (execute e BEGIN (tdb p3)) as [db1 ok1] eqn:E1.
  unfold execute in E1. rewrite Hok, Ht3, Hidle in E1. injection E1 as <- <-.
  cbn [negb] in Hg.
  destruct (execute e (DELETE_station_items s) _) as [db2 ok2] eqn:E2.
  unfold execute in E2. rewrite Hok in E2. injection E2 as <- <-.
  cbn [negb] in Hg.
  match type of Hg with
  | context [insert_rows e ?a ?b ?c ?d ?cs 0 ?q] =>
      destruct (insert_rows e a b c d cs 0 q) as [q3 [w|u|u]] eqn:E3
  end.
  - pose proof (insert_rows_inv _ _ _ _ _ _ _ _ _ _ E3)
      as (_ & _ & _ & _ & _ & Hq3 & _).
    cbn in Hq3.
    destruct (execute e COMMIT (tdb q3)) as [db4 ok4] eqn:E4.
    unfold execute in E4. rewrite Hok, Hq3 in E4. injection E4 as <- <-.
    discriminate Hg.
  - by apply insert_rows_no_sqlite_error in E3.
  - discriminate Hg.
Qed.

(** *** A refused statement *)

Lemma before_gate_intro e d s p p2 :
  resolve_station e (system_name_of d) (station_name_of d) p = (p2, inr s) ->
  before_gate e d s p
    (update_docking e (carrierDockingAccess (msg_of d)) s p2).
Proof.
  intros Hr.
  apply resolve_station_inv in Hr
    as ((A1 & A2 & A3) & Al & Ac & At & Ast & Aenv & Aj & Ares).
  destruct (update_docking_inv e (carrierDockingAccess (msg_of d)) s p2)
    as ((B1 & B2 & B3) & Bl & Bst & Benv & Bt & Bsy & Bit & Bsi & Bstn).
  unfold before_gate, same_setup, docking_update_refused.
  rewrite B1, B2, B3, Bl, Bst, Benv, Bt, Bsy, Bit, Bsi, Bstn.
  rewrite A1, A2, A3, Al, Ac, At, Ast, Aenv, Aj. by split_and!.
Qed.

Lemma resolve_station_hit e sn yn p sid s :
  db_fails e (length (journal (tdb p))) = false ->
  db_fails e (S (length (journal (tdb p)))) = false ->
  fetch_system (contents (tdb p)) sn = Some sid ->
  fetch_station (contents (tdb p)) sid yn = Some s ->
  exists p2, resolve_station e sn yn p = (p2, inr s).
Proof.
  intros H1 H2 Hsys Hstn. unfold resolve_station, execute.
  rewrite H1. cbn. rewrite Hsys, length_app. cbn.
  rewrite Nat.add_1_r, H2. cbn. rewrite Hstn. by eexists.
Qed.

Lemma resolve_station_journal e sn yn p p2 s :
  resolve_station e sn yn p = (p2, inr s) ->
  exists sid,
    fetch_system (contents (tdb p)) sn = Some sid
    /\ fetch_station (contents (tdb p)) sid yn = Some s
    /\ journal (tdb p2) =
         journal (tdb p) ++ [SELECT_system sn; SELECT_station sid yn].
Proof.
  unfold resolve_station.
  pose proof (execute_select_system e sn (tdb p)) as [Hc1 _].
  pose proof (execute_journal e (SELECT_system sn) (tdb p)) as Hj1.
  destruct (execute e (SELECT_system sn) (tdb p)) as [db1 ok1].
  cbn [fst] in Hc1, Hj1.
  destruct ok1; cbn [negb]; [|discriminate].
  rewrite Hc1.
  destruct (fetch_system (contents (tdb p)) sn) as [sid|] eqn:Hsys;
    [|discriminate].
  pose proof (execute_select_station e sid yn db1) as [Hc2 _].
  pose proof (execute_journal e (SELECT_station sid yn) db1) as Hj2.
  destruct (execute e (SELECT_station sid yn) db1) as [db2 ok2].
  cbn [fst] in Hc2, Hj2.
  destruct ok2; cbn [negb]; [|discriminate].
  rewrite Hc2, Hc1.
  destruct (fetch_station (contents (tdb p)) sid yn) as [s0|] eqn:Hstn;
    [|discriminate].
  intros [= <- <-]. exists sid. cbn. rewrite Hj2, Hj1, <- app_assoc.
  by split_and!.
Qed.

(** A message that reaches the transaction: the handler is the
    transaction, run in the state the gate was reached in. *)
Lemma transaction_reached e now d p s :
  reaches_transaction e now d p s ->
  exists p3,
    before_gate e d s p p3
    /\ length (journal (tdb p3)) = txn_start d s p
    /\ (exists sid,
          fetch_system (contents (tdb p)) (system_name_of d) = Some sid
          /\ journal (tdb p3) =
               journal (tdb p)
               ++ [SELECT_system (system_name_of d);
                   SELECT_station sid (station_name_of d)]
               ++ docking_statements d s)
    /\ _handle_commodity e now d p =
         replace_snapshot e s (time_of e now d)
           (station_name_of d) (system_name_of d) (commodities (msg_of d)) p3.
Proof.
  intros (Hf & H1 & H2 & (sid & Hsys & Hstn) & Hg).
  destruct (resolve_station_hit _ _ _ _ _ _ H1 H2 Hsys Hstn) as [p2 Hr].
  exists (update_docking e (carrierDockingAccess (msg_of d)) s p2).
  split; [by apply before_gate_intro|]. split; [|split].
  - rewrite update_docking_journal, length_app.
    apply resolve_station_inv in Hr as (_ & _ & _ & _ & _ & _ & Hj & _).
    unfold txn_start. lia.
  - pose proof (resolve_station_journal _ _ _ _ _ _ Hr)
      as (sid' & Hsys' & _ & J).
    exists sid'. split; [done|].
    by rewrite update_docking_journal, J, <- app_assoc.
  - destruct (_handle_commodity e now d p) as [p' v] eqn:H.
    apply handle_commodity_inv in H
      as [Hf'|[_ [Hr'|(p2' & s0 & Hr' & Hgate)]]].
    + rewrite Hf' in Hf. discriminate Hf.
    + rewrite Hr in Hr'. discriminate Hr'.
    + rewrite Hr in Hr'. injection Hr' as <- <-.
      cbn zeta in Hgate. by rewrite Hg in Hgate.
Qed.





(** The loop keeps the store out of a transaction as long as it runs. *)
Lemma consume_loop_closes_txn e frames : forall p p',
  _consume_loop e frames p = (p', DurationElapsed) ->
  open_txn (tdb p) = None -> open_txn (tdb p') = None.
Proof.
  induction frames as [|f rest IH]; intros p p'; cbn [_consume_loop].
  - by intros [= <-].
  - destruct (body f) as [| |d]; try (intros H Hp; by apply (IH _ _ H)).
    destruct (PyStr.endswith _ "/commodity/3").
    + destruct (_handle_commodity e (arrival f) d _) as [p1 v] eqn:Hh.
      intros H Hp.
      apply handle_commodity_closes_txn in Hh; [|exact Hp|].
      * destruct v; try (by apply (IH _ _ H)); discriminate H.
      * intros s u ->. discriminate H.
    + destruct (PyStr.endswith _ "/journal/1");
        intros H Hp; by apply (IH _ _ H).
Qed.

(** ** The filters *)

Lemma truthy_false s : PyStr.truthy s = false <-> s = "".
Proof. by destruct s. Qed.

Lemma not_carrier_test (b : bool) (ty : string) :
  b && negb (String.eqb ty "FleetCarrier") = true <->
  b = true /\ ty <> "FleetCarrier".
Proof. by rewrite andb_true_iff, negb_true_iff, String.eqb_neq. Qed.

Lemma not_public_test (b : bool) (docking : option string) :
  b && present docking
    && negb (String.eqb (PyStr.lower (or_empty docking)) "all") = true <->
  b = true /\ present docking = true
  /\ PyStr.lower (or_empty docking) <> "all".
Proof.
  rewrite !andb_true_iff, negb_true_iff, String.eqb_neq. tauto.
Qed.

Lemma incomplete_test (sn yn : string) (ts : option string)
    (cs : list commodity) :
  negb (PyStr.truthy sn && PyStr.truthy yn && present ts
        && negb (bool_decide (cs = []))) = true <->
  sn = "" \/ yn = "" \/ present ts = false \/ cs = [].
Proof.
  rewrite negb_true_iff, !andb_false_iff, negb_false_iff,
    bool_decide_eq_true, !truthy_false. tauto.
Qed.

(** A verdict of the filters comes from the filters. *)
Lemma filtered_by_filter e now d p p' v :
  _handle_commodity e now d p = (p', v) ->
  v = NotCarrier \/ v = NotPublic \/ v = Incomplete ->
  commodity_filter (msg_of d) p = (p', Some v).
Proof.
  intros H Hv.
  apply handle_commodity_inv in H as [Hf|[Hf [Hr|(p2 & s & Hr & Hg)]]].
  - exact Hf.
  - apply resolve_station_inv in Hr as (_ & _ & _ & _ & Hr).
    by destruct v, Hv as [?|[?|?]].
  - exfalso. cbn zeta in Hg. destruct (dedup_accepts _ s _).
    + apply replace_snapshot_verdict in Hg as [[? ->]|[[? ->]|[? ->]]];
        by destruct Hv as [?|[?|?]].
    + destruct Hg as [_ ->]. by destruct Hv as [?|[?|?]].
Qed.

(** C8: the filters are applied in the order of the source.  (1) With
    carrier_only set and a station type other than "FleetCarrier", the
    message is rejected and carriers_filtered grows by one.  (2) Otherwise,
    with public_only set and a docking policy that is present (not empty)
    and is not "all" up to case, the message is rejected and
    carriers_filtered grows by one.  (3) Otherwise, with an empty system
    name, station name, time stamp or list of commodities, the message is
    rejected and no counter changes.  A message rejected by these checks
    sends no statement to the store, whose connection is left as it was,
    and leaves stations_matched alone. *)
Theorem filters_in_order e now d p :
  let m := msg_of d in
  let not_carrier :=
    carrier_only p = true
    /\ PyStr.strip (or_empty (stationType m)) <> "FleetCarrier" in
  let not_public :=
    public_only p = true
    /\ present (carrierDockingAccess m) = true
    /\ PyStr.lower (or_empty (carrierDockingAccess m)) <> "all" in
  let incomplete :=
    system_name_of d = "" \/ station_name_of d = ""
    \/ present (timestamp m) = false \/ commodities m = [] in
  (not_carrier ->
     _handle_commodity e now d p = (count add_carriers_filtered 1 p, NotCarrier))
  /\ (~ not_carrier -> not_public ->
     _handle_commodity e now d p = (count add_carriers_filtered 1 p, NotPublic))
  /\ (~ not_carrier -> ~ not_public -> incomplete ->
     _handle_commodity e now d p = (p, Incomplete))
  /\ (forall p' v,
        _handle_commodity e now d p = (p', v) ->
        v = NotCarrier \/ v = NotPublic \/ v = Incomplete ->
        tdb p' = tdb p
        /\ journal (tdb p') = journal (tdb p)
        /\ stations_matched (_stats p') = stations_matched (_stats p)
        /\ carriers_filtered (_stats p') =
             carriers_filtered (_stats p)
             + (match v with Incomplete => 0 | _ => 1 end)).
Proof.
  intros m not_carrier not_public incomplete.
  assert (forall b : bool, b <> true -> b = false) as Hfalse
    by (by intros []).
  split_and!.
  - intros Hc%not_carrier_test.
    unfold _handle_commodity, commodity_filter. fold m. by rewrite Hc.
  - intros Hc%(not_iff_compat (not_carrier_test _ _))%Hfalse
           Hp%not_public_test.
    unfold _handle_commodity, commodity_filter. fold m. by rewrite Hc, Hp.
  - intros Hc%(not_iff_compat (not_carrier_test _ _))%Hfalse
           Hp%(not_iff_compat (not_public_test _ _))%Hfalse
           Hi%incomplete_test.
    unfold _handle_commodity, commodity_filter. fold m.
    unfold system_name_of, station_name_of in Hi. fold m in Hi.
    by rewrite Hc, Hp, Hi.
  - intros p' v H Hv.
    pose proof (filtered_by_filter _ _ _ _ _ _ H Hv) as Hf.
    apply commodity_filter_inv in Hf.
    destruct v, Hv as [?|[?|?]]; try done; subst p'; cbn;
      split_and!; try done; lia.
Qed.

(** A message from a port that is not a fleet carrier, one from a carrier
    whose docking is not open to all, and one without commodities, all
    three with both options set. *)
Lemma filters_in_order_witness :
  _handle_commodity Demo.quiet 5 Demo.port_doc Demo.carriers_only
    = (count add_carriers_filtered 1 Demo.carriers_only, NotCarrier)
  /\ _handle_commodity Demo.quiet 5 Demo.private_doc Demo.carriers_only
    = (count add_carriers_filtered 1 Demo.carriers_only, NotPublic)
  /\ _handle_commodity Demo.quiet 5 Demo.bare_doc Demo.carriers_only
    = (Demo.carriers_only, Incomplete).
Proof.
  split_and!.
  - apply (proj1 (filters_in_order Demo.quiet 5 Demo.port_doc
                    Demo.carriers_only)).
    split; [reflexivity|]. vm_compute. discriminate.
  - apply (proj1 (proj2 (filters_in_order Demo.quiet 5 Demo.private_doc
                           Demo.carriers_only))).
    + intros [_ H]. apply H. vm_compute. reflexivity.
    + split_and!; [reflexivity|reflexivity|]. vm_compute. discriminate.
  - apply (proj1 (proj2 (proj2 (filters_in_order Demo.quiet 5 Demo.bare_doc
                                  Demo.carriers_only)))).
    + intros [_ H]. apply H. vm_compute. reflexivity.
    + intros (_ & _ & H). apply H. vm_compute. reflexivity.
    + right. right. right. reflexivity.
Defined.

(** ** Counters and rollback *)

(** stations_matched and items_written move with a commit that wrote rows,
    and with nothing else. *)
Lemma handle_commodity_counts e now d p p' v :
  _handle_commodity e now d p = (p', v) ->
  0 <= written_of v
  /\ stations_matched (_stats p') =
       stations_matched (_stats p) + (if written_of v =? 0 then 0 else 1)
  /\ items_written (_stats p') = items_written (_stats p) + written_of v.
Proof.
  intros H.
  pose proof H as H0.
  apply handle_commodity_inv in H0 as [Hf|[Hf [Hr|(p2 & s & Hr & Hg)]]].
  - apply commodity_filter_inv in Hf.
    destruct v; try done; subst p'; cbn; lia.
  - apply resolve_station_inv in Hr as (_ & _ & _ & _ & Hr).
    destruct v; try done;
      [rewrite Hr|rewrite Hr|destruct Hr as [Hr _]; rewrite Hr]; cbn; lia.
  - clear Hr. cbn zeta in Hg. destruct (dedup_accepts _ s _) eqn:Hd.
    + apply replace_snapshot_verdict in Hg as [[w ->]|[[a ->]|[u ->]]].
      * destruct (committed_clock _ _ _ _ _ _ _ H) as (_ & Hw & _ & _ & Hst).
        pose proof (known_count_nonneg (_item_symbol_map p)
                      (commodities (msg_of d))).
        cbn. rewrite Hst. destruct (Z.eqb_spec w 0); cbn; lia.
      * destruct (reaches_gate _ _ _ _ _ _ s H eq_refl) as (p3 & Hp3 & Hg).
        rewrite Hd in Hg.
        destruct Hp3 as (_ & _ & _ & Ast & _).
        apply replace_snapshot_rolled_back in Hg as (_ & _ & _ & Hst & _).
        rewrite Hst, Ast. cbn. lia.
      * destruct (reaches_gate _ _ _ _ _ _ s H eq_refl) as (p3 & Hp3 & Hg).
        rewrite Hd in Hg.
        destruct Hp3 as (_ & _ & _ & Ast & _).
        apply replace_snapshot_overflowed in Hg as (_ & _ & _ & Hst & _).
        rewrite Hst, Ast. cbn. lia.
    + destruct Hg as [_ ->].
      destruct (reaches_gate _ _ _ _ _ _ s H eq_refl) as (p3 & Hp3 & Hg).
      rewrite Hd in Hg. destruct Hg as [-> _].
      destruct Hp3 as (_ & _ & _ & Ast & _). rewrite Ast. cbn. lia.
Qed.

(** C10: the counters are not rolled back with the store.  When the
    transaction of a message fails and is rolled back, items_skipped keeps
    the increments made for the unknown symbols among the commodities the
    loop had visited when the error was raised, and stations_matched and
    items_written are not incremented; these two are incremented only by a
    commit that wrote at least one row. *)
Theorem counters_survive_rollback e now d p p' v :
  _handle_commodity e now d p = (p', v) ->
  (forall s at_,
      v = RolledBack s at_ ->
      items_skipped (_stats p') =
        items_skipped (_stats p)
        + unknown_count (_item_symbol_map p)
            (visited_before at_ (commodities (msg_of d)))
      /\ stations_matched (_stats p') = stations_matched (_stats p)
      /\ items_written (_stats p') = items_written (_stats p))
  /\ (stations_matched (_stats p') <> stations_matched (_stats p)
      \/ items_written (_stats p') <> items_written (_stats p) ->
      exists s w, v = Committed s w /\ 0 < w
                  /\ stations_matched (_stats p') =
                       stations_matched (_stats p) + 1
                  /\ items_written (_stats p') = items_written (_stats p) + w).
Proof.
  intros H.
  destruct (handle_commodity_counts _ _ _ _ _ _ H) as (Hw & Hsm & Hiw).
  split.
  - intros s at_ ->. cbn in Hsm, Hiw. split; [|lia].
    through_gate H s as p3 Hp3 Hg.
    destruct Hp3 as (_ & (_ & _ & Am) & _ & Ast & _).
    apply replace_snapshot_rolled_back in Hg as (_ & _ & _ & Hst & _).
    by rewrite Hst, Ast, Am.
  - intros Hch.
    destruct (Z.eqb_spec (written_of v) 0) as [H0|H0]; [lia|].
    destruct v; cbn in H0; try done.
    cbn in Hw, Hsm, Hiw. eexists _, _. split; [done|]. lia.
Qed.

(** The store refuses the second INSERT of the first demonstration
    message, after the loop has counted its first, unknown commodity: the
    count is kept. *)
Lemma counters_survive_rollback_witness :
  items_skipped
    (_stats (_handle_commodity (Demo.refusing 5) 5 Demo.first_doc
               Demo.fresh).1)
  = items_skipped (_stats Demo.fresh)
    + unknown_count (_item_symbol_map Demo.fresh)
        (visited_before (InInsert [Demo.medicines])
           (commodities (msg_of Demo.first_doc)))
  /\ unknown_count (_item_symbol_map Demo.fresh)
       (visited_before (InInsert [Demo.medicines])
          (commodities (msg_of Demo.first_doc))) = 1.
Proof.
  split; [|vm_compute; reflexivity].
  apply (proj1 (counters_survive_rollback (Demo.refusing 5) 5 Demo.first_doc
                  Demo.fresh
                  (_handle_commodity (Demo.refusing 5) 5 Demo.first_doc
                     Demo.fresh).1
                  (RolledBack 11 (InInsert [Demo.medicines]))
                  ltac:(vm_compute; reflexivity))
           11 (InInsert [Demo.medicines]) eq_refl).
Defined.

(** * Further properties *)

(** ** The shape of a normalised symbol *)

Lemma collapsed_runs s : forall b,
  no_double_underscore (PyStr.sub_runs PyStr.underscore b s) = true
  /\ (b = true ->
      match PyStr.sub_runs PyStr.underscore b s with
      | c :: _ => Ascii.eqb c "_" = false
      | [] => True
      end).
Proof.
  induction s as [|c r IH]; intros b; simpl; [done|].
  destruct (PyStr.underscore c) eqn:Hc.
  - destruct b.
    + apply IH.
    + destruct (IH true) as [Hn Hh]. specialize (Hh eq_refl).
      split; [|done]. simpl.
      destruct (PyStr.sub_runs PyStr.underscore true r) as [|c' r'] eqn:Hr;
        [done|].
      rewrite Hh. exact Hn.
  - destruct (IH false) as [Hn _]. split; [|by intros _].
    simpl. destruct (PyStr.sub_runs PyStr.underscore false r) as [|c' r'];
      [done|].
    unfold PyStr.underscore in Hc. rewrite Hc. exact Hn.
Qed.

(** X1: whatever the name, its normalised symbol holds no white space, no
    hyphen, no ampersand, none of the characters [. ' ( ) [ ] ,], no letter
    that [lower] would change, and no two underscores side by side. *)
Theorem norm_symbol_shape (x : string) :
  Forall (fun c => settled c = true) (list_ascii_of_string (_norm_symbol x))
  /\ no_double_underscore (list_ascii_of_string (_norm_symbol x)) = true.
Proof.
  unfold _norm_symbol. rewrite list_ascii_of_string_of_list_ascii.
  split; [apply norm_chars_settled|].
  unfold norm_chars. apply collapsed_runs.
Qed.

(** ** Case and surrounding blanks *)

Lemma isspace_lower c : PyStr.isspace (PyStr.lower_char c) = PyStr.isspace c.
Proof. destruct c as [[] [] [] [] [] [] [] []]; vm_compute; reflexivity. Qed.

Lemma lstrip_lower s :
  PyStr.lstrip (PyStr.lower_l s) = PyStr.lower_l (PyStr.lstrip s).
Proof.
  unfold PyStr.lower_l. induction s as [|c r IH]; simpl; [done|].
  rewrite isspace_lower. by destruct (PyStr.isspace c).
Qed.

Lemma rstrip_lower s :
  PyStr.rstrip (PyStr.lower_l s) = PyStr.lower_l (PyStr.rstrip s).
Proof.
  unfold PyStr.lower_l. induction s as [|c r IH]; simpl; [done|].
  rewrite IH, isspace_lower.
  destruct (PyStr.rstrip r); simpl; [by destruct (PyStr.isspace c)|done].
Qed.

Lemma rstrip_twice s : PyStr.rstrip (PyStr.rstrip s) = PyStr.rstrip s.
Proof.
  induction s as [|c r IH]; simpl; [done|].
  destruct (PyStr.rstrip r) as [|c' r'] eqn:Hr.
  - destruct (PyStr.isspace c) eqn:Hc; simpl; [done|by rewrite Hc].
  - change (PyStr.rstrip (c :: c' :: r'))
      with (match PyStr.rstrip (c' :: r') with
            | [] => if PyStr.isspace c then [] else [c]
            | x => c :: x
            end).
    by rewrite IH.
Qed.

Lemma lstrip_head s :
  match PyStr.lstrip s with
  | c :: _ => PyStr.isspace c = false
  | [] => True
  end.
Proof.
  induction s as [|c r IH]; simpl; [done|].
  by destruct (PyStr.isspace c) eqn:Hc.
Qed.

Lemma rstrip_keeps_head c r :
  PyStr.isspace c = false ->
  exists r', PyStr.rstrip (c :: r) = c :: r'.
Proof.
  intros Hc. simpl. rewrite Hc. destruct (PyStr.rstrip r); by eexists.
Qed.

Lemma strip_twice s : PyStr.strip_l (PyStr.strip_l s) = PyStr.strip_l s.
Proof.
  unfold PyStr.strip_l.
  pose proof (lstrip_head s) as Hh.
  destruct (PyStr.lstrip s) as [|c r]; [done|].
  destruct (rstrip_keeps_head c r Hh) as [r' Hr]. rewrite Hr.
  simpl PyStr.lstrip. rewrite Hh, <- Hr. apply rstrip_twice.
Qed.

Lemma norm_symbol_lower x : _norm_symbol (PyStr.lower x) = _norm_symbol x.
Proof.
  unfold _norm_symbol, PyStr.lower.
  rewrite list_ascii_of_string_of_list_ascii. unfold norm_chars.
  f_equal. unfold PyStr.strip_l. rewrite lstrip_lower, rstrip_lower.
  replace (PyStr.lower_l (PyStr.lower_l
             (PyStr.rstrip (PyStr.lstrip (list_ascii_of_string x)))))
    with (PyStr.lower_l
            (PyStr.rstrip (PyStr.lstrip (list_ascii_of_string x)))); [done|].
  symmetry. apply lower_fixed, lower_l_lowered.
Qed.

Lemma norm_symbol_strip x : _norm_symbol (PyStr.strip x) = _norm_symbol x.
Proof.
  unfold _norm_symbol, PyStr.strip.
  rewrite list_ascii_of_string_of_list_ascii. unfold norm_chars.
  by rewrite strip_twice.
Qed.

(** X2: the symbol of a name does not depend on the case of its letters
    nor on blanks around it: lowering the name, or stripping it, before it
    is normalised changes nothing. *)
Theorem norm_symbol_ignores_case_and_margins (x : string) :
  _norm_symbol (PyStr.lower x) = _norm_symbol x
  /\ _norm_symbol (PyStr.strip x) = _norm_symbol x
  /\ _norm_symbol (PyStr.lower (PyStr.strip x)) = _norm_symbol x.
Proof.
  split_and!.
  - apply norm_symbol_lower.
  - apply norm_symbol_strip.
  - by rewrite norm_symbol_lower, norm_symbol_strip.
Qed.

(** ** What the symbol map holds *)

Lemma prepare_from (k : string) rows : forall m : gmap string Z,
  fold_left
    (fun sym_map r =>
       setdefault sym_map (_norm_symbol (Item.name r)) (Item.item_id r))
    rows m !! k
  = match m !! k with
    | Some v => Some v
    | None =>
        Item.item_id <$>
          head (filter (fun r => _norm_symbol (Item.name r) = k) rows)
    end.
Proof.
  induction rows as [|r rows IH]; intros m; simpl.
  - by destruct (m !! k).
  - rewrite IH, filter_cons. unfold setdefault.
    destruct (decide (_norm_symbol (Item.name r) = k)) as [<-|Hne].
    + destruct (m !! _norm_symbol (Item.name r)) eqn:Hm.
      * by rewrite Hm.
      * by rewrite lookup_insert_eq.
    + destruct (m !! _norm_symbol (Item.name r)) eqn:Hm; [done|].
      by rewrite lookup_insert_ne.
Qed.

(** X3: the symbol map sends a symbol to the id of the first item of the
    table whose name normalises to it, and holds nothing else: a symbol no
    item name normalises to is not in the map, and a later item with the
    same symbol never replaces an earlier one. *)
Theorem symbol_map_is_first_item (rows : list Item.row) (k : string) :
  _prepare_item_symbol_map rows !! k
  = Item.item_id <$>
      head (filter (fun r => _norm_symbol (Item.name r) = k) rows).
Proof.
  unfold _prepare_item_symbol_map. rewrite prepare_from.
  by rewrite lookup_empty.
Qed.

(** X4: every item of the table can be found from its own name, in any
    case and with blanks around it: the map sends the symbol of such a
    spelling to an item of the table whose name has the same symbol (the
    item itself, unless an earlier one shares the symbol). *)
Theorem item_name_resolves (rows : list Item.row) (r : Item.row) :
  r ∈ rows ->
  exists r0,
    r0 ∈ rows
    /\ _norm_symbol (Item.name r0) = _norm_symbol (Item.name r)
    /\ _prepare_item_symbol_map rows
         !! _norm_symbol (PyStr.lower (PyStr.strip (Item.name r)))
       = Some (Item.item_id r0).
Proof.
  intros Hin. rewrite norm_symbol_lower, norm_symbol_strip.
  unfold _prepare_item_symbol_map. rewrite prepare_from, lookup_empty.
  destruct (head (filter (fun r' => _norm_symbol (Item.name r')
                                    = _norm_symbol (Item.name r)) rows))
    as [r0|] eqn:Hh.
  - exists r0. apply head_Some_elem_of in Hh.
    apply list_elem_of_filter in Hh as [Hk Hr0]. done.
  - apply head_None in Hh.
    assert (r ∈ filter (fun r' => _norm_symbol (Item.name r')
                                  = _norm_symbol (Item.name r)) rows) as Hf
      by (by apply list_elem_of_filter).
    rewrite Hh in Hf. by apply elem_of_nil in Hf.
Qed.

(** "he suits" is found under the id of "H.E. Suits", which comes first. *)
Lemma item_name_resolves_witness :
  exists r0,
    r0 ∈ Samples.twin_items
    /\ _norm_symbol (Item.name r0) = _norm_symbol "he suits"
    /\ _prepare_item_symbol_map Samples.twin_items
         !! _norm_symbol (PyStr.lower (PyStr.strip "he suits"))
       = Some (Item.item_id r0).
Proof.
  apply (item_name_resolves Samples.twin_items
           {| Item.item_id := 8; Item.name := "he suits" |}).
  apply list_elem_of_further, list_elem_of_here.
Defined.

(** ** Time stamps *)

Lemma replace_zulu_app a b :
  PyStr.replace_zulu (String.append a b)
  = String.append (PyStr.replace_zulu a) (PyStr.replace_zulu b).
Proof.
  induction a as [|c a IH]; simpl; [done|].
  rewrite IH. by destruct (Ascii.eqb c "Z").
Qed.

Lemma before_plus_zone a :
  PyStr.before_plus (String.append a "+00:00") = PyStr.before_plus a.
Proof.
  induction a as [|c a IH]; simpl; [done|].
  rewrite IH. by destruct (Ascii.eqb c "+").
Qed.

(** X5: a time stamp written with a final "Z" is read as the same time
    stamp written with "+00:00"; and when the parser refuses that zoned
    form, what is parsed instead is the part before the zone (before the
    first "+" of it). *)
Theorem to_unix_zulu (e : env) (s : string) :
  _to_unix e (String.append s "Z") = _to_unix e (String.append s "+00:00")
  /\ _to_unix e (String.append s "Z")
     = match fromisoformat e
               (String.append (PyStr.replace_zulu s) "+00:00") with
       | Some t => Some t
       | None => fromisoformat e (PyStr.before_plus (PyStr.replace_zulu s))
       end.
Proof.
  unfold _to_unix. rewrite !replace_zulu_app.
  change (PyStr.replace_zulu "Z") with "+00:00".
  change (PyStr.replace_zulu "+00:00") with "+00:00".
  split; [done|]. by rewrite before_plus_zone.
Qed.

(** ** The whole effect of one message *)

Lemma same_setup_trans p q r : same_setup p q -> same_setup q r -> same_setup p r.
Proof.
  unfold same_setup. intros (A1 & A2 & A3) (B1 & B2 & B3).
  by rewrite B1, B2, B3.
Qed.

Lemma same_setup_refl p : same_setup p p.
Proof. by unfold same_setup. Qed.

(** Options and symbol map, counters and clock after any exit. *)
Lemma handle_commodity_effect e now d p p' v :
  _handle_commodity e now d p = (p', v) ->
  same_setup p p'
  /\ _stats p' =
       stats_after (_item_symbol_map p) (commodities (msg_of d)) v (_stats p)
  /\ _last_station_mod p' =
       clock_after (time_of e now d) v (_last_station_mod p)
  /\ (forall s w, v = Committed s w ->
        dedup_accepts (_last_station_mod p) s (time_of e now d) = true).
Proof.
  intros H.
  destruct (station_of v) as [s|] eqn:Hs.
  - destruct (reaches_gate _ _ _ _ _ _ s H Hs) as (p3 & Hp3 & Hg).
    destruct Hp3 as (_ & A & Al & Ast & _).
    destruct (dedup_accepts _ s _) eqn:Hd.
    + pose proof (replace_snapshot_verdict _ _ _ _ _ _ _ _ _ Hg)
        as [[w ->]|[[a ->]|[u ->]]].
      * apply replace_snapshot_committed in Hg
          as (_ & Hw & B & Bl & Bst & _).
        destruct A as (A1 & A2 & A3).
        rewrite A3 in Bst, Hw. rewrite Al in Bl. rewrite Ast in Bst.
        split_and!.
        -- eapply same_setup_trans; [|exact B]. by unfold same_setup.
        -- exact Bst.
        -- exact Bl.
        -- intros s0 w0 [= <- <-]. exact Hd.
      * apply replace_snapshot_rolled_back in Hg
          as (_ & B & Bl & Bst & _).
        destruct A as (A1 & A2 & A3).
        rewrite A3, Ast in Bst. rewrite Al in Bl.
        split_and!; try done.
        eapply same_setup_trans; [|exact B]. by unfold same_setup.
      * apply replace_snapshot_overflowed in Hg
          as (_ & B & Bl & Bst & _).
        destruct A as (A1 & A2 & A3).
        rewrite A3, Ast in Bst. rewrite Al in Bl.
        split_and!; try done.
        eapply same_setup_trans; [|exact B]. by unfold same_setup.
    + destruct Hg as [-> ->]. by split_and!.
  - apply handle_commodity_inv in H as [Hf|[Hf [Hr|(p2 & s & Hr & Hg)]]].
    + apply commodity_filter_inv in Hf.
      destruct v; try done; subst p'; split_and!; try done;
        apply same_setup_refl.
    + apply resolve_station_inv in Hr as (A & Al & _ & _ & Hr).
      destruct v; try done; split_and!; try done; by destruct Hr.
    + exfalso. cbn zeta in Hg. destruct (dedup_accepts _ s _).
      * by apply replace_snapshot_verdict in Hg as [[w ->]|[[a ->]|[u ->]]].
      * by destruct Hg as [_ ->].
Qed.

(** The store after any exit, for a handler called outside a
    transaction: the reference tables, and the rows of StationItem that
    were not replaced. *)
Lemma handle_commodity_store e now d p p' v :
  _handle_commodity e now d p = (p', v) ->
  open_txn (tdb p) = None ->
  ((forall s u, v <> Overflowed s u) -> open_txn (tdb p') = None)
  /\ systems (contents (tdb p')) = systems (contents (tdb p))
  /\ items (contents (tdb p')) = items (contents (tdb p))
  /\ map station_identity (stations (contents (tdb p')))
     = map station_identity (stations (contents (tdb p)))
  /\ (forall s i, (forall w, v <> Committed s w) ->
        station_items (durable (tdb p')) !! (s, i)
        = station_items (contents (tdb p)) !! (s, i))
  /\ (forall s i,
        (forall w, v <> Committed s w) -> (forall u, v <> Overflowed s u) ->
        station_items (contents (tdb p')) !! (s, i)
        = station_items (contents (tdb p)) !! (s, i)).
Proof.
  intros H Hidle. unfold durable.
  assert (forall value s rows,
             map station_identity (map (set_docking value s) rows)
             = map station_identity rows) as Hid.
  { intros value s rows. rewrite map_map. apply map_ext. intros r.
    unfold set_docking. by destruct (Station.station_id r =? s). }
  destruct (station_of v) as [s|] eqn:Hs.
  - destruct (reaches_gate _ _ _ _ _ _ s H Hs) as (p3 & Hp3 & Hg).
    destruct Hp3 as (_ & _ & _ & _ & _ & At & Asy & Ait & Asi & Astn).
    assert (map station_identity (stations (contents (tdb p3)))
            = map station_identity (stations (contents (tdb p)))) as Hst3.
    { rewrite Astn. by destruct (_ && _); rewrite ?Hid. }
    destruct (dedup_accepts _ s _) eqn:Hd.
    + pose proof (replace_snapshot_verdict _ _ _ _ _ _ _ _ _ Hg)
        as [[w ->]|[[a ->]|[u ->]]].
      * pose proof (committed_rows _ _ _ _ _ _ _ H) as Hrows.
        apply replace_snapshot_committed in Hg
          as (_ & _ & _ & _ & _ & _ & Bt & Bsy & Bstn & Bit & _).
        rewrite Bt, Bsy, Bit, Bstn, Asy, Ait, Hst3. simpl.
        split_and!; try done.
        -- intros s0 i Hne. rewrite Hrows.
           destruct (decide (s0 = s)) as [->|]; [|done]. by destruct (Hne w).
        -- intros s0 i Hne _. rewrite Hrows.
           destruct (decide (s0 = s)) as [->|]; [|done]. by destruct (Hne w).
      * apply replace_snapshot_rolled_back in Hg
          as (_ & _ & _ & _ & Bt & Bc & _).
        rewrite At, Hidle in Bc. simpl in Bc. rewrite Bt, Bc. simpl.
        by rewrite Asy, Ait, Hst3, Asi.
      * apply replace_snapshot_overflowed in Hg
          as (_ & _ & _ & _ & _ & Bt & Bsy & Bstn & Bit & Brows & _).
        rewrite Bt, Bsy, Bit, Bstn, Asy, Ait, Hst3. simpl. rewrite Asi.
        split_and!; try done.
        -- intros Hv. by destruct (Hv s u).
        -- intros s0 i _ Hne.
           rewrite Brows, write_rows_lookup, delete_station_rows, Asi.
           destruct (decide (s0 = s)) as [->|]; [|done]. by destruct (Hne u).
    + destruct Hg as [-> ->]. rewrite At, Hidle, Asy, Ait, Hst3. simpl.
      by rewrite Asi.
  - assert (open_txn (tdb p') = None) as Hclosed.
    { apply (handle_commodity_closes_txn _ _ _ _ _ _ H Hidle).
      intros s u ->. discriminate Hs. }
    rewrite Hclosed. simpl.
    apply handle_commodity_inv in H as [Hf|[Hf [Hr|(p2 & s & Hr & Hg)]]].
    + apply commodity_filter_inv in Hf.
      destruct v; try done; by subst p'.
    + apply resolve_station_inv in Hr as (_ & _ & Ac & _).
      by rewrite Ac.
    + exfalso. cbn zeta in Hg. destruct (dedup_accepts _ s _).
      * by apply replace_snapshot_verdict in Hg as [[w ->]|[[a ->]|[u ->]]].
      * by destruct Hg as [_ ->].
Qed.

(** ** The loop, turn by turn *)

Lemma consume_loop_cons e f rest p :
  _consume_loop e (f :: rest) p =
    match dispatch e f p with
    | (p1, true) => _consume_loop e rest p1
    | (p1, false) => (p1, Propagated)
    end.
Proof.
  cbn [_consume_loop]. unfold dispatch.
  destruct (body f) as [| |d]; try done.
  destruct (PyStr.endswith (or_empty (schemaRef d)) "/commodity/3").
  - destruct (_handle_commodity e (arrival f) d _) as [p1 v].
    by destruct v.
  - by destruct (PyStr.endswith (or_empty (schemaRef d)) "/journal/1").
Qed.

(** What every turn keeps, the loop keeps. *)
Lemma consume_loop_invariant e (P : plugin -> Prop) :
  (forall f p p1 b, P p -> dispatch e f p = (p1, b) -> P p1) ->
  forall frames p p' x,
    P p -> _consume_loop e frames p = (p', x) -> P p'.
Proof.
  intros Hstep. induction frames as [|f rest IH]; intros p p' x Hp.
  - by intros [= <- _].
  - rewrite consume_loop_cons.
    destruct (dispatch e f p) as [p1 b] eqn:Hd.
    pose proof (Hstep _ _ _ _ Hp Hd) as Hp1.
    destruct b; [by apply IH|]. by intros [= <- _].
Qed.

(** The same for what holds as long as the loop goes on ([P]) and what
    holds even after the turn that stops it ([Q]). *)
Lemma consume_loop_invariant2 e (P Q : plugin -> Prop) :
  (forall p, P p -> Q p) ->
  (forall f p p1 b,
      P p -> dispatch e f p = (p1, b) -> Q p1 /\ (b = true -> P p1)) ->
  forall frames p p' x,
    P p -> _consume_loop e frames p = (p', x) ->
    Q p' /\ (x = DurationElapsed -> P p').
Proof.
  intros HPQ Hstep. induction frames as [|f rest IH]; intros p p' x Hp.
  - intros [= <- <-]. split; [by apply HPQ|done].
  - rewrite consume_loop_cons.
    destruct (dispatch e f p) as [p1 b] eqn:Hd.
    destruct (Hstep _ _ _ _ Hp Hd) as [Hq1 Hp1].
    destruct b; [by apply IH, Hp1|].
    intros [= <- <-]. by split.
Qed.

(** A turn is a few counter increments and log lines around at most one
    call of the handler. *)
Lemma dispatch_inv e f p p1 b :
  dispatch e f p = (p1, b) ->
  (is_commodity_frame f = false
   /\ b = true
   /\ same_setup p p1
   /\ tdb p1 = tdb p
   /\ _last_station_mod p1 = _last_station_mod p
   /\ _stats p1 =
        (if is_journal_frame f
         then add_journal_messages 1 (add_messages 1 (_stats p))
         else add_messages 1 (_stats p)))
  \/ (is_commodity_frame f = true
      /\ exists d v,
           body f = Json d
           /\ b = negb (match v with
                        | Raised | Overflowed _ _ => true
                        | _ => false
                        end)
           /\ _handle_commodity e (arrival f) d
                (count add_commodity_messages 1 (count add_messages 1 p))
              = (p1, v)).
Proof.
  unfold dispatch, is_commodity_frame, is_journal_frame.
  destruct (body f) as [| |d].
  - intros [= <- <-]. left. split_and!; try done; apply same_setup_refl.
  - intros [= <- <-]. left. split_and!; try done; apply same_setup_refl.
  - destruct (PyStr.endswith (or_empty (schemaRef d)) "/commodity/3").
    + destruct (_handle_commodity e (arrival f) d _) as [p' v] eqn:Hh.
      intros H. right. split; [done|]. exists d, v.
      destruct v; injection H as <- <-; by split_and!.
    + destruct (PyStr.endswith (or_empty (schemaRef d)) "/journal/1");
        intros [= <- <-]; left; split_and!; try done; apply same_setup_refl.
Qed.

(** ** Counters over a run *)

Lemma stats_after_le m cs v s :
  0 <= written_of v ->
  counters_le s (stats_after m cs v s)
  /\ messages (stats_after m cs v s) = messages s
  /\ commodity_messages (stats_after m cs v s) = commodity_messages s
  /\ journal_messages (stats_after m cs v s) = journal_messages s.
Proof.
  intros Hw. unfold counters_le.
  pose proof (unknown_count_nonneg m cs) as Hu.
  destruct v as [| | | | |s0|s0 w|s0 a| |s0 u]; cbn in *; try lia.
  - destruct (Z.eqb_spec w 0); cbn; lia.
  - pose proof (unknown_count_nonneg m (visited_before a cs)). lia.
  - pose proof (unknown_count_nonneg m
                  (take (length cs - length u)%nat cs)). lia.
Qed.

Lemma stats_after_accounted m cs v s :
  0 <= written_of v ->
  accounted (add_messages (-1) (add_commodity_messages (-1) s)) ->
  accounted (stats_after m cs v s).
Proof.
  intros Hw. unfold accounted.
  pose proof (unknown_count_nonneg m cs) as Hu.
  destruct v as [| | | | |s0|s0 w|s0 a| |s0 u]; cbn in *; try lia.
  - destruct (Z.eqb_spec w 0); cbn; lia.
  - pose proof (unknown_count_nonneg m (visited_before a cs)). lia.
  - pose proof (unknown_count_nonneg m
                  (take (length cs - length u)%nat cs)). lia.
Qed.

Lemma counters_le_refl s : counters_le s s.
Proof. unfold counters_le. lia. Qed.

Lemma counters_le_trans a b c :
  counters_le a b -> counters_le b c -> counters_le a c.
Proof. unfold counters_le. lia. Qed.

(** One turn never lowers a counter and keeps the report accounted. *)
Lemma dispatch_counters e f p p1 b :
  dispatch e f p = (p1, b) ->
  counters_le (_stats p) (_stats p1)
  /\ (accounted (_stats p) -> accounted (_stats p1))
  /\ messages (_stats p1) = messages (_stats p) + 1
  /\ commodity_messages (_stats p1) =
       commodity_messages (_stats p)
       + (if is_commodity_frame f then 1 else 0)
  /\ journal_messages (_stats p1) =
       journal_messages (_stats p) + (if is_journal_frame f then 1 else 0).
Proof.
  intros H.
  apply dispatch_inv in H
    as [(Hc & _ & _ & _ & _ & Hst)|(Hc & d & v & Hb & _ & Hh)].
  - rewrite Hst, Hc. unfold counters_le, accounted.
    destruct (is_journal_frame f); cbn; split_and!; lia.
  - assert (is_journal_frame f = false) as Hj.
    { unfold is_commodity_frame, is_journal_frame in *. rewrite Hb in *.
      by rewrite Hc. }
    rewrite Hc, Hj.
    destruct (handle_commodity_counts _ _ _ _ _ _ Hh) as (Hw & _).
    apply handle_commodity_effect in Hh as (_ & Hst & _).
    cbn in Hst. rewrite Hst.
    match goal with
    | |- context [stats_after ?m ?cs v ?s] =>
        destruct (stats_after_le m cs v s Hw) as (Hle & Hm & Hcm & Hjm);
        pose proof (stats_after_accounted m cs v s Hw) as Hacc
    end.
    rewrite Hm, Hcm, Hjm. cbn. split_and!; try lia.
    + eapply counters_le_trans; [|exact Hle]. unfold counters_le. cbn. lia.
    + intros Ha. apply Hacc. unfold accounted in *. cbn. lia.
Qed.

(** X6: over any run of the loop, on any frames and whatever the store
    refuses, no counter of the report ever goes down. *)
Theorem counters_never_decrease e frames p :
  counters_le (_stats p) (_stats (_consume_loop e frames p).1).
Proof.
  destruct (_consume_loop e frames p) as [p' x] eqn:H. cbn.
  apply (consume_loop_invariant e
           (fun q => counters_le (_stats p) (_stats q)))
    with (frames := frames) (p := p) (x := x);
    [|apply counters_le_refl|exact H].
  intros f q q1 b Hq Hd.
  eapply counters_le_trans; [exact Hq|].
  by apply dispatch_counters in Hd as [? _].
Qed.

(** X7: the counters of the report hang together over any run that
    starts from a report that does (as the zeroed one of [__init__] does):
    each commodity message adds to at most one of stations_matched,
    stations_skipped and carriers_filtered, so their sum stays within
    commodity_messages; commodity and journal messages stay within
    messages; and every matched station wrote at least one item. *)
Theorem report_stays_accounted e frames p :
  accounted (_stats p) -> accounted (_stats (_consume_loop e frames p).1).
Proof.
  intros Hp.
  destruct (_consume_loop e frames p) as [p' x] eqn:H. cbn.
  apply (consume_loop_invariant e (fun q => accounted (_stats q)))
    with (frames := frames) (p := p) (x := x); [|exact Hp|exact H].
  intros f q q1 b Hq Hd.
  apply dispatch_counters in Hd as (_ & Hacc & _). by apply Hacc.
Qed.

Lemma report_stays_accounted_witness :
  accounted (_stats (_consume_loop Demo.quiet Samples.feed Demo.fresh).1).
Proof.
  apply (report_stays_accounted Demo.quiet Samples.feed Demo.fresh).
  vm_compute. repeat split; discriminate.
Defined.

(** X8: when the loop ends because the duration has elapsed, the report
    has counted every frame: messages grew by the number of frames,
    commodity_messages by the number of frames whose schema ends in
    "/commodity/3", journal_messages by the number of the others whose
    schema ends in "/journal/1"; corrupt frames are counted as messages
    only. *)
Theorem frames_are_counted e frames : forall p p',
  _consume_loop e frames p = (p', DurationElapsed) ->
  messages (_stats p') = messages (_stats p) + Z.of_nat (length frames)
  /\ commodity_messages (_stats p') =
       commodity_messages (_stats p)
       + Z.of_nat (length (filter (fun f => is_commodity_frame f = true) frames))
  /\ journal_messages (_stats p') =
       journal_messages (_stats p)
       + Z.of_nat (length (filter (fun f => is_journal_frame f = true) frames)).
Proof.
  induction frames as [|f rest IH]; intros p p'.
  - intros [= <-]. cbn. lia.
  - rewrite consume_loop_cons.
    destruct (dispatch e f p) as [p1 b] eqn:Hd.
    destruct b; [|discriminate].
    intros H. apply IH in H as (Hm & Hc & Hj).
    apply dispatch_counters in Hd as (_ & _ & Dm & Dc & Dj).
    rewrite Hm, Hc, Hj, Dm, Dc, Dj, !filter_cons. cbn [length].
    destruct (is_commodity_frame f), (is_journal_frame f);
      repeat case_decide; try done; cbn [length]; lia.
Qed.

Lemma frames_are_counted_witness :
  messages (_stats (_consume_loop Demo.quiet Samples.feed Demo.fresh).1)
  = messages (_stats Demo.fresh) + Z.of_nat (length Samples.feed).
Proof.
  apply (frames_are_counted Demo.quiet Samples.feed Demo.fresh
           (_consume_loop Demo.quiet Samples.feed Demo.fresh).1).
  vm_compute. reflexivity.
Defined.

(** ** Runs that meet no storage error, and frames that are no snapshots *)

Lemma resolve_station_no_raise e sn yn p :
  (forall n, db_fails e n = false) ->
  (resolve_station e sn yn p).2 <> inl Raised.
Proof.
  intros Hok. unfold resolve_station, execute. rewrite Hok. cbn.
  destruct (fetch_system (contents (tdb p)) sn) as [sid|]; [|done].
  rewrite Hok. cbn.
  by destruct (fetch_station (contents (tdb p)) sid yn).
Qed.

Lemma handle_commodity_no_raise e now d p :
  (forall n, db_fails e n = false) ->
  (_handle_commodity e now d p).2 <> Raised.
Proof.
  intros Hok.
  destruct (_handle_commodity e now d p) as [p' v] eqn:H. cbn. intros ->.
  apply handle_commodity_inv in H as [Hf|[Hf [Hr|(p2 & s & Hr & Hg)]]].
  - by apply commodity_filter_inv in Hf.
  - pose proof (resolve_station_no_raise e (system_name_of d)
                  (station_name_of d) p Hok) as Hn.
    by rewrite Hr in Hn.
  - cbn zeta in Hg. destruct (dedup_accepts _ s _).
    + by apply replace_snapshot_verdict in Hg as [[w ?]|[[a ?]|[u ?]]].
    + by destruct Hg.
Qed.







(** X10: frames that are no commodity snapshots (corrupt frames, frames
    that are not JSON, journal events, documents of any other schema)
    never reach the store, whatever it would refuse: after any number of
    them the connection with its journal of statements is what it was, and
    so are the clock, the options and the symbol map; only messages and
    journal_messages have moved, and the loop has not stopped. *)
Theorem noise_never_reaches_the_store e frames : forall p,
  Forall (fun f => is_commodity_frame f = false) frames ->
  (_consume_loop e frames p).2 = DurationElapsed
  /\ tdb (_consume_loop e frames p).1 = tdb p
  /\ _last_station_mod (_consume_loop e frames p).1 = _last_station_mod p
  /\ same_setup p (_consume_loop e frames p).1
  /\ _stats (_consume_loop e frames p).1 =
       add_journal_messages
         (Z.of_nat (length (filter (fun f => is_journal_frame f = true) frames)))
         (add_messages (Z.of_nat (length frames)) (_stats p)).
Proof.
  induction frames as [|f rest IH]; intros p Hn.
  - cbn. split_and!; try done; try apply same_setup_refl.
    destruct (_stats p). unfold add_journal_messages, add_messages. cbn.
    f_equal; lia.
  - inversion Hn as [|? ? Hf Hrest]; subst.
    rewrite consume_loop_cons.
    destruct (dispatch e f p) as [p1 b] eqn:Hd.
    apply dispatch_inv in Hd
      as [(_ & -> & Hs & Ht & Hl & Hst)|(Hc & _)]; [|congruence].
    destruct (IH p1 Hrest) as (Ix & It & Il & Is & Ist).
    rewrite Ix, It, Il, Ist, Ht, Hl, Hst, filter_cons.
    split_and!; try done; try (by eapply same_setup_trans).
    destruct (_stats p). unfold add_journal_messages, add_messages.
    destruct (is_journal_frame f); case_decide; try done; cbn;
      f_equal; lia.
Qed.

Lemma noise_never_reaches_the_store_witness :
  tdb (_consume_loop (Demo.refusing 0) Samples.noise Demo.fresh).1
  = tdb Demo.fresh.
Proof.
  apply (noise_never_reaches_the_store (Demo.refusing 0) Samples.noise
           Demo.fresh).
  repeat constructor.
Defined.

(** ** The clock over a run *)

(** X11: during a run the last accepted time stamp of a station, once
    positive, never goes back (and the entry is never removed), whatever
    frames arrive and whatever the store refuses. *)
Theorem clock_never_goes_back e frames p (s l : Z) :
  _last_station_mod p !! s = Some l -> 0 < l ->
  exists l',
    _last_station_mod (_consume_loop e frames p).1 !! s = Some l'
    /\ l <= l'.
Proof.
  intros Hl Hpos.
  destruct (_consume_loop e frames p) as [p' x] eqn:H. cbn.
  apply (consume_loop_invariant e
           (fun q => exists l', _last_station_mod q !! s = Some l' /\ l <= l'))
    with (frames := frames) (p := p) (x := x);
    [|exists l; split; [done|lia]|exact H].
  clear H p' x. intros f q q1 b (l' & Hq & Hle) Hd.
  apply dispatch_inv in Hd
    as [(_ & _ & _ & _ & Hc & _)|(_ & d & v & _ & _ & Hh)].
  { exists l'. by rewrite Hc. }
  apply handle_commodity_effect in Hh as (_ & _ & Hc & Hg).
  cbn in Hc, Hg. rewrite Hc. unfold clock_after.
  destruct v as [| | | | |s0|s0 w|s0 a| |s0 u]; try (by exists l').
  destruct (w =? 0); [by exists l'|].
  destruct (decide (s0 = s)) as [->|Hne].
  - specialize (Hg s w eq_refl). apply dedup_accepts_spec in Hg.
    rewrite Hq in Hg. rewrite lookup_insert_eq. eexists. split; [done|].
    destruct Hg as [?|[[= ?]|(l0 & [= <-] & ?)]]; [done|lia|lia].
  - exists l'. by rewrite lookup_insert_ne.
Qed.

Lemma clock_never_goes_back_witness :
  exists l',
    _last_station_mod
      (_consume_loop Demo.quiet Samples.feed
         (_handle_commodity Demo.quiet 5 Demo.first_doc Demo.fresh).1).1
      !! 11 = Some l'
    /\ 1725199200 <= l'.
Proof.
  apply (clock_never_goes_back Demo.quiet Samples.feed
           (_handle_commodity Demo.quiet 5 Demo.first_doc Demo.fresh).1
           11 1725199200).
  - vm_compute. reflexivity.
  - reflexivity.
Defined.

(** ** What a run never changes *)

(** X12: a run started outside a transaction never changes the reference
    data it reads: the System and Item tables are what they were, the
    Station table has the same stations in the same order (ids, systems and
    names; only docking policies may differ), no station or system is ever
    created; the options and the symbol map built at the start are what
    they were.  When the loop ends because the duration has elapsed, no
    transaction is left open; a loop that an exception has left may leave
    one (the INSERT that raised [OverflowError] was inside one). *)
Theorem run_keeps_reference_data e frames p :
  open_txn (tdb p) = None ->
  systems (contents (tdb (_consume_loop e frames p).1))
  = systems (contents (tdb p))
  /\ items (contents (tdb (_consume_loop e frames p).1))
     = items (contents (tdb p))
  /\ map station_identity
       (stations (contents (tdb (_consume_loop e frames p).1)))
     = map station_identity (stations (contents (tdb p)))
  /\ same_setup p (_consume_loop e frames p).1
  /\ ((_consume_loop e frames p).2 = DurationElapsed ->
      open_txn (tdb (_consume_loop e frames p).1) = None).
Proof.
  intros Hidle.
  destruct (_consume_loop e frames p) as [p' x] eqn:H. cbn.
  pose (Q := fun q =>
              systems (contents (tdb q)) = systems (contents (tdb p))
              /\ items (contents (tdb q)) = items (contents (tdb p))
              /\ map station_identity (stations (contents (tdb q)))
                 = map station_identity (stations (contents (tdb p)))
              /\ same_setup p q).
  destruct (consume_loop_invariant2 e
              (fun q => open_txn (tdb q) = None /\ Q q) Q) 
    with (frames := frames) (p := p) (p' := p') (x := x)
    as [(Hsy & Hit & Hst & Hs) Hx];
    [by intros q [_ ?]| |split; [done|unfold Q; split_and!; try done;
                                  apply same_setup_refl]|exact H|].
  2:{ split_and!; try done. intros ->. by destruct (Hx eq_refl). }
  clear H p' x. intros f q q1 b (Ht & Hsy & Hit & Hst & Hs) Hd.
  apply dispatch_inv in Hd
    as [(_ & -> & Is & It & _)|(_ & d & v & _ & -> & Hh)].
  { assert (Q q1) as HQ.
    { unfold Q. rewrite It. split_and!; try done. by eapply same_setup_trans. }
    split; [exact HQ|]. intros _. split; [by rewrite It|exact HQ]. }
  pose proof (handle_commodity_effect _ _ _ _ _ _ Hh) as (Js & _).
  apply handle_commodity_store in Hh as (Jt & Jsy & Jit & Jst & _);
    [|exact Ht].
  cbn in Jsy, Jit, Jst.
  assert (Q q1) as HQ.
  { unfold Q. rewrite Jsy, Jit, Jst. split_and!; try done.
    eapply same_setup_trans; [exact Hs|]. exact Js. }
  split; [exact HQ|]. intros Hb. split; [|exact HQ].
  apply Jt. intros s u ->. discriminate Hb.
Qed.

Lemma run_keeps_reference_data_witness :
  map station_identity
    (stations
       (contents (tdb (_consume_loop Demo.quiet Samples.feed Demo.fresh).1)))
  = map station_identity (stations (contents (tdb Demo.fresh))).
Proof.
  apply (run_keeps_reference_data Demo.quiet Samples.feed Demo.fresh).
  reflexivity.
Defined.

(** ** What one message never changes *)

Lemma docking_access_elsewhere value s s' t t' :
  s' <> s ->
  stations t' = map (set_docking value s) (stations t) ->
  docking_access t' s' = docking_access t s'.
Proof.
  intros Hne. unfold docking_access. intros ->.
  induction (stations t) as [|r rows IH]; [done|]. simpl.
  unfold set_docking at 1 2.
  destruct (Z.eqb_spec (Station.station_id r) s) as [Hs|Hs]; simpl.
  - rewrite Hs. destruct (Z.eqb_spec s s'); [congruence|]. exact IH.
  - destruct (Station.station_id r =? s'); [done|exact IH].
Qed.

(** X13: a message touches one station at most.  For a handler called
    outside a transaction, the rows of StationItem that the store keeps
    (the committed ones) are what they were for every station other than
    the one whose snapshot the message commits.  The rows the connection
    sees are those, except for the station of a transaction that an
    [OverflowError] has left open, whose rows are deleted and partly
    rewritten in it.  The docking policy of every station other than the
    one the message was resolved to is what it was; a message that names
    no known station changes neither rows nor policies. *)
Theorem message_touches_one_station e now d p p' v :
  _handle_commodity e now d p = (p', v) ->
  open_txn (tdb p) = None ->
  (forall s i, (forall w, v <> Committed s w) ->
     station_items (durable (tdb p')) !! (s, i)
     = station_items (contents (tdb p)) !! (s, i))
  /\ (forall s i,
        (forall w, v <> Committed s w) -> (forall u, v <> Overflowed s u) ->
        station_items (contents (tdb p')) !! (s, i)
        = station_items (contents (tdb p)) !! (s, i))
  /\ (forall s, station_of v <> Some s ->
        docking_access (contents (tdb p')) s
        = docking_access (contents (tdb p)) s).
Proof.
  intros H Hidle.
  pose proof (handle_commodity_store _ _ _ _ _ _ H Hidle)
    as (_ & _ & _ & _ & Hkept & Hseen).
  split; [exact Hkept|]. split; [exact Hseen|].
  intros s' Hs'.
  destruct (station_of v) as [s|] eqn:Hs.
  - assert (s' <> s) as Hne by congruence.
    destruct (reaches_gate _ _ _ _ _ _ s H Hs) as (p3 & Hp3 & Hg).
    destruct Hp3 as (_ & _ & _ & _ & _ & At & _ & _ & _ & Astn).
    assert (docking_access (contents (tdb p3)) s'
            = docking_access (contents (tdb p)) s') as H3.
    { destruct (_ && _).
      - by apply (docking_access_elsewhere
                    (or_empty (carrierDockingAccess (msg_of d))) s).
      - by apply docking_access_stations. }
    rewrite <- H3. apply docking_access_stations.
    destruct (dedup_accepts _ s _).
    + pose proof (replace_snapshot_verdict _ _ _ _ _ _ _ _ _ Hg)
        as [[w ->]|[[a ->]|[u ->]]].
      * by apply replace_snapshot_committed in Hg
          as (_ & _ & _ & _ & _ & _ & _ & _ & Bstn & _).
      * apply replace_snapshot_rolled_back in Hg
          as (_ & _ & _ & _ & _ & Bc & _).
        rewrite At, Hidle in Bc. simpl in Bc. by rewrite Bc.
      * by apply replace_snapshot_overflowed in Hg
          as (_ & _ & _ & _ & _ & _ & _ & Bstn & _).
    + by destruct Hg as [-> _].
  - apply docking_access_stations.
    apply handle_commodity_inv in H as [Hf|[Hf [Hr|(p2 & s & Hr & Hg)]]].
    + apply commodity_filter_inv in Hf. destruct v; try done; by subst p'.
    + apply resolve_station_inv in Hr as (_ & _ & Ac & _). by rewrite Ac.
    + exfalso. cbn zeta in Hg. destruct (dedup_accepts _ s _).
      * by apply replace_snapshot_verdict in Hg as [[w ->]|[[a ->]|[u ->]]].
      * by destruct Hg as [_ ->].
Qed.

(** A message for carrier 11 that carries a docking policy leaves the
    policy of station 10 alone. *)
Lemma message_touches_one_station_witness :
  docking_access
    (contents (tdb (_handle_commodity Demo.quiet 5 Demo.resent_doc
                      Demo.fresh).1)) 10
  = docking_access (contents (tdb Demo.fresh)) 10.
Proof.
  apply (message_touches_one_station Demo.quiet 5 Demo.resent_doc Demo.fresh
           (_handle_commodity Demo.quiet 5 Demo.resent_doc Demo.fresh).1
           (_handle_commodity Demo.quiet 5 Demo.resent_doc Demo.fresh).2).
  - vm_compute. reflexivity.
  - reflexivity.
  - vm_compute. discriminate.
Defined.

(** ** Messages that name no known station *)

Lemma resolve_station_miss e sn yn p p2 v :
  resolve_station e sn yn p = (p2, inl v) ->
  match v with
  | UnknownSystem =>
      fetch_system (contents (tdb p)) sn = None
      /\ tdenv p2 = tdenv p ++ [DEBUG1_unknown_system sn yn]
      /\ journal (tdb p2) = journal (tdb p) ++ [SELECT_system sn]
  | UnknownStation =>
      exists sid,
        fetch_system (contents (tdb p)) sn = Some sid
        /\ fetch_station (contents (tdb p)) sid yn = None
        /\ tdenv p2 = tdenv p ++ [DEBUG1_unknown_station yn sn]
        /\ journal (tdb p2) =
             journal (tdb p) ++ [SELECT_system sn; SELECT_station sid yn]
  | _ => True
  end.
Proof.
  unfold resolve_station.
  pose proof (execute_select_system e sn (tdb p)) as [Hc1 _].
  pose proof (execute_journal e (SELECT_system sn) (tdb p)) as Hj1.
  destruct (execute e (SELECT_system sn) (tdb p)) as [db1 ok1].
  cbn [fst] in Hc1, Hj1.
  destruct ok1; cbn [negb]; [|by intros [= <- <-]].
  rewrite Hc1.
  destruct (fetch_system (contents (tdb p)) sn) as [sid|] eqn:Hsys.
  2:{ intros [= <- <-]. by cbn. }
  pose proof (execute_select_station e sid yn db1) as [Hc2 _].
  pose proof (execute_journal e (SELECT_station sid yn) db1) as Hj2.
  destruct (execute e (SELECT_station sid yn) db1) as [db2 ok2].
  cbn [fst] in Hc2, Hj2.
  destruct ok2; cbn [negb]; [|by intros [= <- <-]].
  rewrite Hc2, Hc1.
  destruct (fetch_station (contents (tdb p)) sid yn) as [s|] eqn:Hstn;
    [by intros [= <- <-]|].
  intros [= <- <-]. cbn. exists sid. rewrite Hj2, Hj1, <- app_assoc.
  by split_and!.
Qed.



(** ** The counters, exit by exit *)

(** X15: what each exit of the handler does to the report, in full.  A
    message rejected by the carrier or the docking filter adds one to
    carriers_filtered; an unknown system or station adds one to
    stations_skipped; an incomplete or stale message, and a SELECT that
    raises, change nothing; a rollback, and an [OverflowError], keep the
    items_skipped counted up to the error; a commit adds the unknown symbols of the message to
    items_skipped and, when it wrote rows, one to stations_matched and
    their number to items_written.  No exit touches messages,
    commodity_messages or journal_messages. *)
Theorem counters_by_exit e now d p :
  _stats (_handle_commodity e now d p).1 =
    stats_after (_item_symbol_map p) (commodities (msg_of d))
      (_handle_commodity e now d p).2 (_stats p)
  /\ messages (_stats (_handle_commodity e now d p).1) = messages (_stats p)
  /\ commodity_messages (_stats (_handle_commodity e now d p).1)
     = commodity_messages (_stats p)
  /\ journal_messages (_stats (_handle_commodity e now d p).1)
     = journal_messages (_stats p).
Proof.
  destruct (_handle_commodity e now d p) as [p' v] eqn:H. cbn.
  destruct (handle_commodity_counts _ _ _ _ _ _ H) as (Hw & _).
  apply handle_commodity_effect in H as (_ & Hst & _).
  rewrite Hst.
  destruct (stats_after_le (_item_symbol_map p) (commodities (msg_of d))
              v (_stats p) Hw) as (_ & Hm & Hc & Hj).
  by rewrite Hm, Hc, Hj.
Qed.

(** ** Progress *)

(** The commodities the loop writes a row for are those that name a
    known item. *)
Lemma is_known_names_known_item m c :
  is_known (lookup_symbol m c) = true <-> names_known_item m c.
Proof.
  unfold names_known_item. split.
  - destruct (lookup_symbol m c) as [| |i] eqn:Hc; try done. intros _.
    apply lookup_symbol_known in Hc as (sym & ?). by exists sym, i.
  - intros (sym & i & Hc). 
    assert (lookup_symbol m c = KnownItem i) as ->; [|done].
    apply lookup_symbol_known. by exists sym.
Qed.

Lemma known_count_names_known_item m cs :
  known_count m cs = Z.of_nat (length (filter (names_known_item m) cs)).
Proof.
  induction cs as [|c cs IH]; [done|].
  rewrite known_count_cons, IH, filter_cons.
  destruct (is_known (lookup_symbol m c)) eqn:Hk.
  - apply is_known_names_known_item in Hk.
    rewrite decide_True by done. cbn [length]. lia.
  - rewrite decide_False; [lia|].
    intros Hn%is_known_names_known_item. congruence.
Qed.

(** X16: when the store refuses nothing, no transaction is open and every
    row the message has to write can be bound (its nine parameters are
    within 64 bits), a message that is resolved to a station and passes
    the dedup gate is always committed, with one row written per commodity
    that has a non-empty name whose normalised symbol the map sends to an
    item id other than 0. *)
Theorem accepted_message_commits e now d p p' v s :
  (forall n, db_fails e n = false) ->
  open_txn (tdb p) = None ->
  _handle_commodity e now d p = (p', v) ->
  station_of v = Some s ->
  dedup_accepts (_last_station_mod p) s (time_of e now d) = true ->
  forallb row_fits
    (rows_to_insert (_item_symbol_map p) s (time_of e now d)
       (commodities (msg_of d))) = true ->
  v = Committed s
        (Z.of_nat
           (length
              (filter (names_known_item (_item_symbol_map p))
                 (commodities (msg_of d))))).
Proof.
  intros Hok Hidle H Hs Hd Hfit.
  destruct (reaches_gate _ _ _ _ _ _ s H Hs) as (p3 & Hp3 & Hg).
  rewrite Hd in Hg.
  destruct Hp3 as (_ & (_ & _ & Hm) & _ & _ & _ & Ht3 & _).
  destruct (replace_snapshot_no_error e s (time_of e now d)
              (station_name_of d) (system_name_of d)
              (commodities (msg_of d)) p3 Hok) as (q & w & Hq).
  { by rewrite Ht3. }
  { by rewrite Hm. }
  rewrite Hq in Hg. injection Hg as <- <-.
  apply replace_snapshot_committed in Hq as (_ & -> & _).
  by rewrite Hm, known_count_names_known_item.
Qed.

(** The first demonstration message has three commodities; two of them
    name a known item. *)
Lemma accepted_message_commits_witness :
  (_handle_commodity Demo.quiet 5 Demo.first_doc Demo.fresh).2
  = Committed 11
      (Z.of_nat
         (length
            (filter (names_known_item (_item_symbol_map Demo.fresh))
               (commodities (msg_of Demo.first_doc)))))
  /\ Z.of_nat
       (length
          (filter (names_known_item (_item_symbol_map Demo.fresh))
             (commodities (msg_of Demo.first_doc)))) = 2.
Proof.
  split; [|vm_compute; reflexivity].
  apply (accepted_message_commits Demo.quiet 5 Demo.first_doc Demo.fresh
           (_handle_commodity Demo.quiet 5 Demo.first_doc Demo.fresh).1
           (_handle_commodity Demo.quiet 5 Demo.first_doc Demo.fresh).2 11).
  - reflexivity.
  - reflexivity.
  - vm_compute. reflexivity.
  - vm_compute. reflexivity.
  - vm_compute. reflexivity.
  - vm_compute. reflexivity.
Defined.

(** ** A message delivered twice *)

Lemma commodity_filter_setup msg p q :
  same_setup p q ->
  (commodity_filter msg q).2 = (commodity_filter msg p).2.
Proof.
  intros (H1 & H2 & _). unfold commodity_filter. rewrite H1, H2.
  repeat match goal with |- context [if ?b then _ else _] => destruct b end;
    reflexivity.
Qed.

Lemma fetch_station_identity t t' sid n :
  map station_identity (stations t') = map station_identity (stations t) ->
  fetch_station t' sid n = fetch_station t sid n.
Proof.
  unfold fetch_station.
  generalize (stations t'), (stations t). intros l.
  induction l as [|r l IH]; intros [|r0 l0]; simpl; try done.
  intros [= H1 H2 H3 Hl]. rewrite H2, H3.
  destruct (_ && _); simpl; [by rewrite H1|]. by apply IH.
Qed.

Lemma fetch_system_systems t t' n :
  systems t' = systems t -> fetch_system t' n = fetch_system t n.
Proof. unfold fetch_system. by intros ->. Qed.

(** A document handled a second time gets as far as the gate, for the
    same station, unless a SELECT raises. *)
Lemma same_document_again e e' now now' d p p1 p2 v1 v2 s :
  _handle_commodity e now d p = (p1, v1) ->
  station_of v1 = Some s ->
  open_txn (tdb p) = None ->
  _handle_commodity e' now' d p1 = (p2, v2) ->
  station_of v2 = Some s \/ v2 = Raised.
Proof.
  intros H1 Hv1 Hidle H2.
  pose proof (handle_commodity_effect _ _ _ _ _ _ H1) as (Hs & _).
  destruct (reaches_gate _ _ _ _ _ _ s H1 Hv1) as (p3 & Hp3 & _).
  destruct Hp3 as ((sid & Hsys & Hstn) & _).
  pose proof H1 as H1'.
  apply handle_commodity_store in H1' as (_ & Bsy & _ & Bst & _);
    [|exact Hidle].
  assert ((commodity_filter (msg_of d) p).2 = None) as Hpass.
  { apply handle_commodity_inv in H1 as [Hf|[Hf _]].
    - apply commodity_filter_inv in Hf. by destruct v1.
    - rewrite Hf. reflexivity. }
  apply handle_commodity_inv in H2 as [Hf|[Hf [Hr|(q2 & s' & Hr & Hg)]]].
  - pose proof (commodity_filter_setup (msg_of d) p p1 Hs) as Heq.
    rewrite Hf, Hpass in Heq. discriminate Heq.
  - pose proof (resolve_station_miss _ _ _ _ _ _ Hr) as Hm.
    apply resolve_station_inv in Hr as (_ & _ & _ & _ & Hr).
    destruct v2; try done; [| |by right].
    + destruct Hm as (Hm & _).
      rewrite (fetch_system_systems _ _ _ Bsy), Hsys in Hm. discriminate.
    + destruct Hm as (sid' & Hm1 & Hm2 & _).
      rewrite (fetch_system_systems _ _ _ Bsy), Hsys in Hm1.
      injection Hm1 as <-.
      rewrite (fetch_station_identity _ _ _ _ Bst), Hstn in Hm2.
      discriminate.
  - left.
    apply resolve_station_inv in Hr
      as (_ & _ & _ & _ & _ & _ & _ & sid' & Hm1 & Hm2).
    rewrite (fetch_system_systems _ _ _ Bsy), Hsys in Hm1.
    injection Hm1 as <-.
    rewrite (fetch_station_identity _ _ _ _ Bst), Hstn in Hm2.
    injection Hm2 as <-.
    cbn zeta in Hg. destruct (dedup_accepts _ s _).
    + by apply replace_snapshot_verdict in Hg as [[? ->]|[[? ->]|[? ->]]].
    + by destruct Hg as [_ ->].
Qed.

(** X17: the feed delivers at least once.  When a message has been
    committed with at least one row and a time stamp other than 0, the same
    document handled again (its time stamp read as no later than before) is
    dropped by the gate as stale, unless a SELECT raises first: no row, no
    counter and no clock entry changes. *)
Theorem resend_is_dropped e now now' d p p1 p2 s w v :
  _handle_commodity e now d p = (p1, Committed s w) ->
  w <> 0 -> time_of e now d <> 0 ->
  time_of e now' d <= time_of e now d ->
  _handle_commodity e now' d p1 = (p2, v) ->
  v = Raised
  \/ v = Stale s
     /\ station_items (contents (tdb p2)) = station_items (contents (tdb p1))
     /\ _stats p2 = _stats p1
     /\ _last_station_mod p2 = _last_station_mod p1.
Proof.
  intros H1 Hw Ht Hle H2.
  pose proof (handle_commodity_effect _ _ _ _ _ _ H1) as (_ & _ & Hc & _).
  cbn in Hc. rewrite (proj2 (Z.eqb_neq w 0) Hw) in Hc.
  assert (_last_station_mod p1 !! s = Some (time_of e now d)) as Hl
    by (rewrite Hc; apply lookup_insert_eq).
  assert (open_txn (tdb p) = None) as Hidle.
  { destruct (reaches_gate _ _ _ _ _ _ s H1 eq_refl) as (p3 & Hp3 & Hg).
    destruct Hp3 as (_ & _ & _ & _ & _ & At & _).
    destruct (dedup_accepts _ s _); [|by destruct Hg].
    apply replace_snapshot_committed in Hg
      as (_ & _ & _ & _ & _ & Hidle3 & _).
    by rewrite <- At. }
  destruct (same_document_again _ _ _ _ _ _ _ _ _ _ s H1 eq_refl Hidle H2)
    as [Hv|Hv]; [|by left].
  right. by apply (stale_message_dropped e now' d p1 p2 v s (time_of e now d)).
Qed.

(** The first demonstration message, committed and then delivered again. *)
Lemma resend_is_dropped_witness :
  (_handle_commodity Demo.quiet 9 Demo.first_doc
     (_handle_commodity Demo.quiet 5 Demo.first_doc Demo.fresh).1).2 = Raised
  \/ (_handle_commodity Demo.quiet 9 Demo.first_doc
        (_handle_commodity Demo.quiet 5 Demo.first_doc Demo.fresh).1).2
     = Stale 11
     /\ station_items
          (contents
             (tdb (_handle_commodity Demo.quiet 9 Demo.first_doc
                     (_handle_commodity Demo.quiet 5 Demo.first_doc
                        Demo.fresh).1).1))
        = station_items
            (contents
               (tdb (_handle_commodity Demo.quiet 5 Demo.first_doc
                       Demo.fresh).1))
     /\ _stats (_handle_commodity Demo.quiet 9 Demo.first_doc
                  (_handle_commodity Demo.quiet 5 Demo.first_doc
                     Demo.fresh).1).1
        = _stats (_handle_commodity Demo.quiet 5 Demo.first_doc Demo.fresh).1
     /\ _last_station_mod
          (_handle_commodity Demo.quiet 9 Demo.first_doc
             (_handle_commodity Demo.quiet 5 Demo.first_doc Demo.fresh).1).1
        = _last_station_mod
            (_handle_commodity Demo.quiet 5 Demo.first_doc Demo.fresh).1.
Proof.
  apply (resend_is_dropped Demo.quiet 5 9 Demo.first_doc Demo.fresh
           (_handle_commodity Demo.quiet 5 Demo.first_doc Demo.fresh).1
           (_handle_commodity Demo.quiet 9 Demo.first_doc
              (_handle_commodity Demo.quiet 5 Demo.first_doc Demo.fresh).1).1
           11 2).
  - vm_compute. reflexivity.
  - discriminate.
  - vm_compute. discriminate.
  - vm_compute. discriminate.
  - destruct (_handle_commodity Demo.quiet 9 Demo.first_doc _). reflexivity.
Defined.

(** ** The gate, in full *)

(** X18: the dedup gate as the code decides it.  A message for a station
    passes exactly when nothing is recorded for the station, or 0 is
    recorded, or its time stamp is greater than the one recorded; a
    message that passes still passes with any later time stamp. *)
Theorem dedup_gate_in_full (clock : gmap Z Z) (s t : Z) :
  (dedup_accepts clock s t = true <->
   clock !! s = None \/ clock !! s = Some 0
   \/ exists l, clock !! s = Some l /\ l < t)
  /\ (forall t', dedup_accepts clock s t = true -> t <= t' ->
                 dedup_accepts clock s t' = true).
Proof.
  split; [apply dedup_accepts_spec|].
  intros t' H Ht.
  apply dedup_accepts_spec in H. apply dedup_accepts_spec.
  destruct H as [?|[?|(l & ? & ?)]]; auto.
  right. right. exists l. split; [done|lia].
Qed.

(** ** The statements of one message *)

Lemma insert_rows_journal e s ts sn yn cs : forall w p p' w',
  insert_rows e s ts sn yn cs w p = (p', Finished w') ->
  journal (tdb p') =
    journal (tdb p)
    ++ map INSERT_station_item (rows_to_insert (_item_symbol_map p) s ts cs).
Proof.
  induction cs as [|c cs IH]; intros w p p' w'; cbn [insert_rows].
  - intros [= <- _]. cbn. by rewrite app_nil_r.
  - rewrite rows_to_insert_cons.
    destruct (lookup_symbol (_item_symbol_map p) c) as [|sym|i] eqn:Hc.
    + apply IH.
    + intros H. by apply IH in H.
    + cbn zeta. destruct (row_fits _); cbn [negb]; [|discriminate].
      pose proof (execute_journal e
                    (INSERT_station_item (new_row s i ts c)) (tdb p)) as Hj.
      destruct (execute e (INSERT_station_item (new_row s i ts c)) (tdb p))
        as [db ok].
      destruct ok; [|discriminate].
      intros H. apply IH in H. cbn in H, Hj. rewrite H, Hj.
      by rewrite <- app_assoc.
Qed.

Lemma replace_snapshot_journal e s ts sn yn cs p p' v :
  replace_snapshot e s ts sn yn cs p = (p', v) ->
  match v with
  | Committed _ _ =>
      journal (tdb p') =
        journal (tdb p)
        ++ [BEGIN; DELETE_station_items s]
        ++ map INSERT_station_item
             (rows_to_insert (_item_symbol_map p) s ts cs)
        ++ [COMMIT]
  | RolledBack _ _ => last (journal (tdb p')) = Some ROLLBACK
  | _ => True
  end.
Proof.
  unfold replace_snapshot.
  assert (forall q, last (journal (tdb (on_db_error e sn yn q)))
                    = Some ROLLBACK) as Hrb.
  { intros q. unfold on_db_error. cbn.
    rewrite execute_journal. apply last_snoc. }
  pose proof (execute_journal e BEGIN (tdb p)) as J1.
  destruct (execute e BEGIN (tdb p)) as [db1 ok1]. cbn [fst] in J1.
  destruct ok1; cbn [negb]; [|intros [= <- <-]; apply Hrb].
  pose proof (execute_journal e (DELETE_station_items s) db1) as J2.
  destruct (execute e (DELETE_station_items s) db1) as [db2 ok2].
  cbn [fst] in J2.
  destruct ok2; cbn [negb]; [|intros [= <- <-]; apply Hrb].
  destruct (insert_rows e s ts sn yn cs 0 (set_tdb db2 p))
    as [p3 [w|u|u]] eqn:E3; [|intros [= <- <-]; apply Hrb|by intros [= <- <-]].
  pose proof (insert_rows_journal _ _ _ _ _ _ _ _ _ _ E3) as J3.
  cbn in J3.
  pose proof (execute_journal e COMMIT (tdb p3)) as J4.
  destruct (execute e COMMIT (tdb p3)) as [db4 ok4]. cbn [fst] in J4.
  destruct ok4; cbn [negb]; [|intros [= <- <-]; apply Hrb].
  intros [= <- <-].
  assert (journal (tdb (record_written s ts w (set_tdb db4 p3)))
          = journal db4) as ->.
  { unfold record_written. by destruct (w =? 0). }
  rewrite J4, J3, J2, J1. by rewrite <- !app_assoc.
Qed.

(** X19: the statements a message sends, in order.  A message that is
    resolved to a station sends the two SELECTs and, when it carries a
    docking policy, the UPDATE.  If the gate drops it, that is all.  If it
    is committed, there follow BEGIN, the DELETE for the station, one
    INSERT for each commodity with a known symbol in the order of the
    message (as many as the rows reported written), and COMMIT.  If the
    store refuses a statement of the transaction, the last statement sent
    is ROLLBACK. *)
Theorem statements_of_a_message e now d p p' v s :
  _handle_commodity e now d p = (p', v) ->
  station_of v = Some s ->
  exists sid,
    fetch_system (contents (tdb p)) (system_name_of d) = Some sid
    /\ fetch_station (contents (tdb p)) sid (station_name_of d) = Some s
    /\ match v with
       | Stale _ =>
           journal (tdb p') =
             journal (tdb p)
             ++ [SELECT_system (system_name_of d);
                 SELECT_station sid (station_name_of d)]
             ++ docking_statements d s
       | Committed _ w =>
           journal (tdb p') =
             journal (tdb p)
             ++ [SELECT_system (system_name_of d);
                 SELECT_station sid (station_name_of d)]
             ++ docking_statements d s
             ++ [BEGIN; DELETE_station_items s]
             ++ map INSERT_station_item
                  (rows_to_insert (_item_symbol_map p) s (time_of e now d)
                     (commodities (msg_of d)))
             ++ [COMMIT]
           /\ w = Z.of_nat
                    (length
                       (rows_to_insert (_item_symbol_map p) s
                          (time_of e now d) (commodities (msg_of d))))
       | RolledBack _ _ => last (journal (tdb p')) = Some ROLLBACK
       | _ => True
       end.
Proof.
  intros H Hs.
  pose proof H as H0.
  apply handle_commodity_inv in H0 as [Hf|[Hf [Hr|(p2 & s0 & Hr & Hg)]]].
  - apply commodity_filter_inv in Hf. by destruct v.
  - apply resolve_station_inv in Hr as (_ & _ & _ & _ & Hr). by destruct v.
  - assert (s0 = s) as ->.
    { cbn zeta in Hg. destruct (dedup_accepts _ s0 _).
      - apply replace_snapshot_verdict in Hg as [[w ->]|[[a ->]|[u ->]]];
          by injection Hs.
      - destruct Hg as [_ ->]. by injection Hs. }
    pose proof (resolve_station_inv _ _ _ _ _ _ Hr) as ((_ & _ & Hm) & _).
    apply resolve_station_journal in Hr as (sid & Hsys & Hstn & J2).
    exists sid. split; [done|]. split; [done|].
    pose proof (update_docking_journal e d s p2) as J3.
    pose proof (update_docking_inv e (carrierDockingAccess (msg_of d)) s p2)
      as ((_ & _ & Hm3) & _).
    cbn zeta in Hg, Hm3. destruct (dedup_accepts _ s _).
    + pose proof (replace_snapshot_journal _ _ _ _ _ _ _ _ _ Hg) as J.
      pose proof (replace_snapshot_verdict _ _ _ _ _ _ _ _ _ Hg)
        as [[w ->]|[[a ->]|[u ->]]]; [|exact J..].
      apply replace_snapshot_committed in Hg as (_ & Hw & _).
      rewrite Hm3, Hm in J, Hw. rewrite J, J3, J2.
      split; [by rewrite <- !app_assoc|].
      by rewrite rows_to_insert_length.
    + destruct Hg as [-> ->]. rewrite J3, J2. by rewrite <- !app_assoc.
Qed.

(** The first demonstration message sends seven statements. *)
Lemma statements_of_a_message_witness :
  exists sid,
    fetch_system (contents (tdb Demo.fresh)) (system_name_of Demo.first_doc)
      = Some sid
    /\ fetch_station (contents (tdb Demo.fresh)) sid
         (station_name_of Demo.first_doc) = Some 11
    /\ (journal (tdb (_handle_commodity Demo.quiet 5 Demo.first_doc
                        Demo.fresh).1) =
          journal (tdb Demo.fresh)
          ++ [SELECT_system (system_name_of Demo.first_doc);
              SELECT_station sid (station_name_of Demo.first_doc)]
          ++ docking_statements Demo.first_doc 11
          ++ [BEGIN; DELETE_station_items 11]
          ++ map INSERT_station_item
               (rows_to_insert (_item_symbol_map Demo.fresh) 11
                  (time_of Demo.quiet 5 Demo.first_doc)
                  (commodities (msg_of Demo.first_doc)))
          ++ [COMMIT]
        /\ 2 = Z.of_nat
                 (length
                    (rows_to_insert (_item_symbol_map Demo.fresh) 11
                       (time_of Demo.quiet 5 Demo.first_doc)
                       (commodities (msg_of Demo.first_doc))))).
Proof.
  apply (statements_of_a_message Demo.quiet 5 Demo.first_doc Demo.fresh
           (_handle_commodity Demo.quiet 5 Demo.first_doc Demo.fresh).1
           (Committed 11 2) 11).
  - vm_compute. reflexivity.
  - reflexivity.
Defined.

(** ** The launcher *)

(** X20: a command line that the launcher titles as an EDDN live session
    is an import whose plug-in, named after the first "-P" or "--plug" that
    has an argument, is "eddn" in any case; the launcher never treats such
    a command as needing the store for itself, so starting a live session
    never stops the sessions already running. *)
Theorem eddn_session_is_not_exclusive (full_args : list string) (t : string) :
  Gui._background_title_for_args full_args = Some t ->
  t = "EDDN Live (Carriers)" \/ t = "EDDN Live (All)" ->
  Gui._requires_db_exclusive full_args = false
  /\ full_args !! 2%nat = Some "import"
  /\ Gui.plug_of (drop 3 full_args) = Some "eddn"
  /\ (t = "EDDN Live (Carriers)" <->
      Gui.contains "carrier_only" (String.concat " " (drop 3 full_args))
      || Gui.contains "public_only" (String.concat " " (drop 3 full_args))
      = true).
Proof.
  unfold Gui._background_title_for_args, Gui._requires_db_exclusive.
  destruct (length full_args <? 4)%nat eqn:Hlen; [discriminate|].
  assert ((length full_args <? 3)%nat = false) as ->.
  { apply Nat.ltb_ge. apply Nat.ltb_ge in Hlen. lia. }
  destruct (full_args !! 2%nat) as [sub|] eqn:Hsub.
  2:{ apply lookup_ge_None in Hsub. apply Nat.ltb_ge in Hlen. lia. }
  cbn [from_option id].
  destruct (String.eqb_spec sub "import") as [->|Hne]; cbn [negb]; cbv iota;
    [|discriminate].
  change (String.eqb "import" "buildcache") with false. cbv iota.
  destruct (Gui.plug_of (drop 3 full_args)) as [plug|]; [|discriminate].
  destruct (String.eqb_spec plug "eddn") as [->|Hplug].
  - change (String.eqb "eddn" "eddblink") with false.
    change (String.eqb "eddn" "spansh") with false. cbn [andb].
    destruct (Gui.contains "carrier_only" _ || Gui.contains "public_only" _);
      intros [= <-] _; split_and!; try done;
      split; intros Hx; first [done | discriminate Hx].
  - destruct (String.eqb plug "spansh");
      [intros [= <-] [?|?]; discriminate|].
    destruct (String.eqb plug "eddblink"); [|discriminate].
    destruct (Gui.contains "listings_live" _);
      intros [= <-] [?|?]; discriminate.
Qed.

Lemma eddn_session_is_not_exclusive_witness :
  Gui._requires_db_exclusive Samples.carriers_command = false
  /\ Samples.carriers_command !! 2%nat = Some "import"
  /\ Gui.plug_of (drop 3 Samples.carriers_command) = Some "eddn"
  /\ ("EDDN Live (Carriers)" = "EDDN Live (Carriers)" <->
      Gui.contains "carrier_only"
        (String.concat " " (drop 3 Samples.carriers_command))
      || Gui.contains "public_only"
           (String.concat " " (drop 3 Samples.carriers_command))
      = true).
Proof.
  apply (eddn_session_is_not_exclusive Samples.carriers_command
           "EDDN Live (Carriers)").
  - vm_compute. reflexivity.
  - by left.
Defined.

(** ** The rows a commit leaves *)

Lemma bracket_level_nonzero b : bracket_level b <> 0.
Proof.
  destruct b as [| |n]; try done. simpl.
  destruct (Z.eqb_spec n 0); [done|exact n0].
Qed.

(** X21: every row a commit leaves for the station is filed under its own
    keys, has a non-zero item id (a symbol mapped to item 0 is treated as
    unknown), is marked as coming from the live feed, carries the time
    stamp of the message, and never has a demand or supply level of 0. *)
Theorem committed_rows_are_well_formed e now d p p' s w i r :
  _handle_commodity e now d p = (p', Committed s w) ->
  station_items (contents (tdb p')) !! (s, i) = Some r ->
  StationItem.station_id r = s
  /\ StationItem.item_id r = i
  /\ i <> 0
  /\ StationItem.from_live r = 1
  /\ StationItem.modified r = time_of e now d
  /\ StationItem.demand_level r <> 0
  /\ StationItem.supply_level r <> 0.
Proof.
  intros H Hr.
  rewrite (committed_rows _ _ _ _ _ _ _ H s i), decide_True in Hr by done.
  unfold snapshot_entry in Hr.
  destruct (last (filter _ (commodities (msg_of d)))) as [c|] eqn:Hl;
    [|discriminate].
  injection Hr as <-.
  apply last_Some_elem_of, list_elem_of_filter in Hl as [Hc _].
  apply lookup_symbol_known in Hc as (_ & _ & _ & _ & Hi).
  cbn. split_and!; try done; apply bracket_level_nonzero.
Qed.

Lemma committed_rows_are_well_formed_witness :
  StationItem.station_id (new_row 11 1 1725199200 Demo.hydrogen) = 11
  /\ StationItem.item_id (new_row 11 1 1725199200 Demo.hydrogen) = 1
  /\ 1 <> 0
  /\ StationItem.from_live (new_row 11 1 1725199200 Demo.hydrogen) = 1
  /\ StationItem.modified (new_row 11 1 1725199200 Demo.hydrogen)
     = time_of Demo.quiet 5 Demo.first_doc
  /\ StationItem.demand_level (new_row 11 1 1725199200 Demo.hydrogen) <> 0
  /\ StationItem.supply_level (new_row 11 1 1725199200 Demo.hydrogen) <> 0.
Proof.
  apply (committed_rows_are_well_formed Demo.quiet 5 Demo.first_doc
           Demo.fresh
           (_handle_commodity Demo.quiet 5 Demo.first_doc Demo.fresh).1
           11 2 1 (new_row 11 1 1725199200 Demo.hydrogen)).
  - vm_compute. reflexivity.
  - vm_compute. reflexivity.
Defined.

(** ** Without the carrier options *)

Lemma unfiltered_verdict e now d p p' v :
  _handle_commodity e now d p = (p', v) ->
  carrier_only p = false -> public_only p = false ->
  v <> NotCarrier /\ v <> NotPublic.
Proof.
  intros H Hc Hp.
  split; intros ->.
  - apply filtered_by_filter in H; [|by left].
    unfold commodity_filter in H. rewrite Hc, Hp in H. cbn in H.
    by destruct (negb _).
  - apply filtered_by_filter in H; [|by right; left].
    unfold commodity_filter in H. rewrite Hc, Hp in H. cbn in H.
    by destruct (negb _).
Qed.

(** X22: with neither carrier_only nor public_only set, no message is
    ever filtered: over any run carriers_filtered stays what it was. *)
Theorem no_option_no_filtering e frames p :
  carrier_only p = false -> public_only p = false ->
  carriers_filtered (_stats (_consume_loop e frames p).1)
  = carriers_filtered (_stats p).
Proof.
  intros Hc Hp.
  destruct (_consume_loop e frames p) as [p' x] eqn:H. cbn.
  cut (carrier_only p' = false /\ public_only p' = false
       /\ carriers_filtered (_stats p') = carriers_filtered (_stats p));
    [by intros (_ & _ & ?)|].
  apply (consume_loop_invariant e
           (fun q => carrier_only q = false /\ public_only q = false
                     /\ carriers_filtered (_stats q)
                        = carriers_filtered (_stats p)))
    with (frames := frames) (p := p) (x := x); [|done|exact H].
  clear H p' x. intros f q q1 b (Qc & Qp & Qf) Hd.
  apply dispatch_inv in Hd
    as [(_ & _ & (S1 & S2 & _) & _ & _ & Hst)|(_ & d & v & _ & _ & Hh)].
  - rewrite S1, S2, Hst. split_and!; try done.
    by destruct (is_journal_frame f).
  - pose proof (unfiltered_verdict _ _ _ _ _ _ Hh Qc Qp) as [Hn1 Hn2].
    apply handle_commodity_effect in Hh as ((S1 & S2 & _) & Hst & _).
    cbn in S1, S2, Hst. rewrite S1, S2, Hst. split_and!; try done.
    destruct v as [| | | | |s0|s0 w|s0 a| |s0 u]; try done.
    cbn. by destruct (w =? 0).
Qed.

Lemma no_option_no_filtering_witness :
  carriers_filtered
    (_stats (_consume_loop Demo.quiet Samples.feed Demo.fresh).1)
  = carriers_filtered (_stats Demo.fresh).
Proof.
  apply (no_option_no_filtering Demo.quiet Samples.feed Demo.fresh);
    reflexivity.
Defined.

(** ** After a rollback *)

(** X23: a failed write does not mark the message as seen.  After a
    rollback the clock is what it was, so the same document, handled again
    once the store refuses nothing, passes the gate and is committed
    (provided its rows can be bound: nine parameters within 64 bits each).
    The station then holds exactly the rows of the message: for each item
    id other than 0 that the map gives for the normalised name of a
    commodity, the row of the last such commodity. *)
Theorem rolled_back_message_can_be_resent e e' now now' d p p1 p2 s a v :
  _handle_commodity e now d p = (p1, RolledBack s a) ->
  open_txn (tdb p) = None ->
  (forall n, db_fails e' n = false) ->
  time_of e' now' d = time_of e now d ->
  forallb row_fits
    (rows_to_insert (_item_symbol_map p) s (time_of e now d)
       (commodities (msg_of d))) = true ->
  _handle_commodity e' now' d p1 = (p2, v) ->
  _last_station_mod p1 = _last_station_mod p
  /\ v = Committed s
           (Z.of_nat
              (length
                 (filter (names_known_item (_item_symbol_map p))
                    (commodities (msg_of d)))))
  /\ forall i r,
       station_items (contents (tdb p2)) !! (s, i) = Some r <->
       exists before c after sym,
         commodities (msg_of d) = before ++ c :: after
         /\ name c = Some sym /\ sym <> ""
         /\ _item_symbol_map p !! _norm_symbol sym = Some i /\ i <> 0
         /\ r = new_row s i (time_of e now d) c
         /\ forall c' sym',
              c' ∈ after -> name c' = Some sym' -> sym' <> "" ->
              _item_symbol_map p !! _norm_symbol sym' <> Some i.
Proof.
  intros H1 Hidle Hok Ht Hfit H2.
  pose proof (handle_commodity_effect _ _ _ _ _ _ H1)
    as ((_ & _ & Hm) & _ & Hc & _).
  cbn in Hc. split; [exact Hc|].
  assert (dedup_accepts (_last_station_mod p) s (time_of e now d) = true)
    as Hgate.
  { destruct (reaches_gate _ _ _ _ _ _ s H1 eq_refl) as (p3 & _ & Hg).
    destruct (dedup_accepts _ s _); [done|by destruct Hg]. }
  assert (open_txn (tdb p1) = None) as Hidle1
    by (by apply (handle_commodity_closes_txn _ _ _ _ _ _ H1 Hidle)).
  destruct (same_document_again _ _ _ _ _ _ _ _ _ _ s H1 eq_refl Hidle H2)
    as [Hv|Hv].
  2:{ pose proof (handle_commodity_no_raise e' now' d p1 Hok) as Hn.
      by rewrite H2 in Hn. }
  assert (v = Committed s
                (known_count (_item_symbol_map p) (commodities (msg_of d))))
    as ->.
  { destruct (reaches_gate _ _ _ _ _ _ s H2 Hv) as (p3 & Hp3 & Hg).
    rewrite Hc, Ht, Hgate in Hg.
    destruct Hp3 as (_ & (_ & _ & Hm3) & _ & _ & _ & Ht3 & _).
    destruct (replace_snapshot_no_error e' s (time_of e now d)
                (station_name_of d) (system_name_of d)
                (commodities (msg_of d)) p3 Hok) as (q & w & Hq).
    { by rewrite Ht3. }
    { by rewrite Hm3, Hm. }
    rewrite Hq in Hg. injection Hg as <- <-.
    apply replace_snapshot_committed in Hq as (_ & -> & _).
    by rewrite Hm3, Hm. }
  split; [by rewrite known_count_names_known_item|]. intros i r.
  rewrite <- Hm, <- Ht.
  exact (committed_row_from_map _ _ _ _ _ _ _ i r H2).
Qed.

(** The second INSERT of the first demonstration message is refused; the
    message is delivered again and the store accepts everything. *)
Lemma rolled_back_message_can_be_resent_witness :
  (_handle_commodity Demo.quiet 9 Demo.first_doc
     (_handle_commodity (Demo.refusing 5) 5 Demo.first_doc Demo.fresh).1).2
  = Committed 11
      (Z.of_nat
         (length
            (filter (names_known_item (_item_symbol_map Demo.fresh))
               (commodities (msg_of Demo.first_doc))))).
Proof.
  apply (rolled_back_message_can_be_resent (Demo.refusing 5) Demo.quiet 5 9
           Demo.first_doc Demo.fresh
           (_handle_commodity (Demo.refusing 5) 5 Demo.first_doc
              Demo.fresh).1
           (_handle_commodity Demo.quiet 9 Demo.first_doc
              (_handle_commodity (Demo.refusing 5) 5 Demo.first_doc
                 Demo.fresh).1).1
           11 (InInsert [Demo.medicines])).
  - vm_compute. reflexivity.
  - reflexivity.
  - reflexivity.
  - vm_compute. reflexivity.
  - vm_compute. reflexivity.
  - destruct (_handle_commodity Demo.quiet 9 Demo.first_doc _). reflexivity.
Defined.

(** ** A number the store cannot hold *)

Lemma insert_rows_app e s ts sn yn before rest : forall w p p1 w1,
  insert_rows e s ts sn yn before w p = (p1, Finished w1) ->
  insert_rows e s ts sn yn (before ++ rest) w p
  = insert_rows e s ts sn yn rest w1 p1.
Proof.
  induction before as [|c cs IH]; intros w p p1 w1; cbn [insert_rows app].
  - by intros [= <- <-].
  - destruct (lookup_symbol (_item_symbol_map p) c) as [|sym|i];
      [apply IH..|].
    cbn zeta. destruct (row_fits _); cbn [negb]; [|discriminate].
    destruct (execute e _ (tdb p)) as [db []]; [apply IH|discriminate].
Qed.

(** The transaction of a message whose commodity [c] cannot be bound,
    when the store refuses nothing. *)
Lemma replace_snapshot_overflow_at e s ts sn yn cs p before c after i :
  (forall n, db_fails e n = false) ->
  open_txn (tdb p) = None ->
  cs = before ++ c :: after ->
  forallb row_fits (rows_to_insert (_item_symbol_map p) s ts before) = true ->
  lookup_symbol (_item_symbol_map p) c = KnownItem i ->
  row_fits (new_row s i ts c) = false ->
  exists p',
    replace_snapshot e s ts sn yn cs p = (p', Overflowed s (c :: after))
    /\ journal (tdb p') =
         journal (tdb p) ++ [BEGIN; DELETE_station_items s]
         ++ map INSERT_station_item
              (rows_to_insert (_item_symbol_map p) s ts before).
Proof.
  intros Hok Hidle -> Hfit Hc Hr. unfold replace_snapshot.
  destruct (execute e BEGIN (tdb p)) as [db1 ok1] eqn:E1.
  unfold execute in E1. rewrite Hok, Hidle in E1. injection E1 as <- <-.
  cbn [negb].
  destruct (execute e (DELETE_station_items s) _) as [db2 ok2] eqn:E2.
  unfold execute in E2. rewrite Hok in E2. injection E2 as <- <-.
  cbn [negb].
  match goal with
  | |- context [insert_rows e s ts sn yn _ 0 ?q] =>
      destruct (insert_rows_no_error e s ts sn yn before Hok 0 q Hfit)
        as (p3 & w & E3);
      pose proof (insert_rows_inv _ _ _ _ _ _ _ _ _ _ E3)
        as (_ & _ & (_ & _ & Hm) & _);
      pose proof (insert_rows_journal _ _ _ _ _ _ _ _ _ _ E3) as J;
      rewrite (insert_rows_app _ _ _ _ _ _ (c :: after) _ _ _ _ E3)
  end.
  cbn in Hm, J. cbn [insert_rows]. rewrite Hm, Hc. cbn zeta.
  rewrite Hr. cbn [negb]. eexists. split; [reflexivity|].
  rewrite J. by rewrite <- !app_assoc.
Qed.

(** X24: a number the store cannot hold stops the run.  When a message
    reaches its transaction, the store refuses nothing, and the INSERT for
    one of its commodities (one that names a known item) has a parameter
    outside the signed 64 bits of an SQLite INTEGER while the rows before
    it fit, then [OverflowError] leaves the handler: it is not caught by
    [except sqlite3.Error], so there is no ROLLBACK and no COMMIT (the
    last statements sent are BEGIN, the DELETE and the INSERTs before the
    offending one), the transaction stays open, the rows the store keeps
    are those from before the message, no station is counted as matched
    and no time stamp is recorded; and the loop ends there, without
    handling the frames that follow. *)
Theorem overflow_error_stops_the_run e now d p s before c after sym i :
  (forall n, db_fails e n = false) ->
  open_txn (tdb p) = None ->
  reaches_transaction e now d p s ->
  commodities (msg_of d) = before ++ c :: after ->
  forallb row_fits
    (rows_to_insert (_item_symbol_map p) s (time_of e now d) before) = true ->
  name c = Some sym -> sym <> "" ->
  _item_symbol_map p !! _norm_symbol sym = Some i -> i <> 0 ->
  row_fits (new_row s i (time_of e now d) c) = false ->
  let p' := (_handle_commodity e now d p).1 in
  (_handle_commodity e now d p).2 = Overflowed s (c :: after)
  /\ is_Some (open_txn (tdb p'))
  /\ station_items (durable (tdb p')) = station_items (contents (tdb p))
  /\ (exists sid,
        fetch_system (contents (tdb p)) (system_name_of d) = Some sid
        /\ journal (tdb p') =
             journal (tdb p)
             ++ [SELECT_system (system_name_of d);
                 SELECT_station sid (station_name_of d)]
             ++ docking_statements d s
             ++ [BEGIN; DELETE_station_items s]
             ++ map INSERT_station_item
                  (rows_to_insert (_item_symbol_map p) s (time_of e now d)
                     before))
  /\ _last_station_mod p' = _last_station_mod p
  /\ stations_matched (_stats p') = stations_matched (_stats p)
  /\ items_written (_stats p') = items_written (_stats p)
  /\ forall f rest p0,
       body f = Json d -> arrival f = now ->
       PyStr.endswith (or_empty (schemaRef d)) "/commodity/3" = true ->
       count add_commodity_messages 1 (count add_messages 1 p0) = p ->
       _consume_loop e (f :: rest) p0 = (p', Propagated).
Proof.
  intros Hok Hidle Hreach Hcs Hfit Hn Hne Hi Hi0 Hr p'.
  destruct (transaction_reached _ _ _ _ _ Hreach)
    as (p3 & Hp3 & _ & (sid & Hsys & J3) & Hh).
  destruct Hp3 as (_ & (_ & _ & Hm) & Al & Ast & _ & Ht3 & _ & _ & Asi & _).
  rewrite Hidle in Ht3.
  assert (lookup_symbol (_item_symbol_map p3) c = KnownItem i) as Hc.
  { rewrite Hm. apply lookup_symbol_known. by exists sym. }
  destruct (replace_snapshot_overflow_at e s (time_of e now d)
              (station_name_of d) (system_name_of d)
              (commodities (msg_of d)) p3 before c after i
              Hok Ht3 Hcs) as (q & Hq & Jq); try done.
  { by rewrite Hm. }
  subst p'. rewrite Hh, Hq. cbn [fst snd].
  pose proof (replace_snapshot_overflowed _ _ _ _ _ _ _ _ _ _ Hq)
    as (_ & _ & Bl & Bst & _ & Bt & _).
  unfold durable. rewrite Bt, Bl, Bst, Al, Ast. simpl. rewrite Asi.
  split_and!; try done.
  - exists sid. split; [done|].
    rewrite Jq, J3, Hm. by rewrite <- !app_assoc.
  - intros f rest p0 Hb Hnow Hs Hp. cbn [_consume_loop].
    by rewrite Hb, Hs, Hnow, Hp, Hh, Hq.
Qed.

(** The second commodity of the message has a sell price of 2^63: the
    hydrogen row is inserted, then the run ends with the transaction
    open. *)
Lemma overflow_error_stops_the_run_witness :
  (_handle_commodity Demo.quiet 5 Samples.overflow_doc Demo.fresh).2
  = Overflowed 11 [Samples.huge; Demo.weapons]
  /\ (_consume_loop Demo.quiet
        [Samples.at_ 5 (Json Samples.overflow_doc);
         Samples.at_ 6 (Json Demo.second_doc)] Demo.fresh).2 = Propagated.
Proof.
  split; [|vm_compute; reflexivity].
  apply (overflow_error_stops_the_run Demo.quiet 5 Samples.overflow_doc
           Demo.fresh 11 [Demo.hydrogen] Samples.huge [Demo.weapons]
           "AgriMedicines" 2).
  - reflexivity.
  - reflexivity.
  - unfold reaches_transaction. split_and!; try (vm_compute; reflexivity).
    exists 1. split; vm_compute; reflexivity.
  - reflexivity.
  - vm_compute. reflexivity.
  - reflexivity.
  - discriminate.
  - vm_compute. reflexivity.
  - discriminate.
  - vm_compute. reflexivity.
Defined.
